(** * seo-cl-analysis: a shallow embedding of the page auditor

    The script [seo-cl-analysis.py] fetches one page, prints findings
    about it and probes the links and images it names.  Its functions
    print to the console and talk to the network; here both effects are
    explicit: a computation transforms a [World] holding the lines written
    so far and the requests sent so far, and either returns a value or
    raises a Python exception.

    The libraries the script calls ([requests], [bs4], [urllib.parse],
    [langdetect], [nltk], [re]) are not part of the repository.  The
    network, the URL functions, the language detector, the stopword lists
    and the number formatting are variables of the section [Engine]; a
    parsed document is a tree of tags.  A call of [requests] may raise
    any exception, also one that is no [RequestException], and the URL
    functions may raise [ValueError]: both pass the handlers of the
    script. *)

From Stdlib Require Import List String Ascii ZArith Lia Bool Arith.
From Stdlib Require Import Sorting.Sorted Sorting.Permutation.
Import ListNotations.

Open Scope string_scope.
Open Scope list_scope.

(** ** Python strings *)

Module Py.

(** [len(s)] *)
Definition len (s : string) : Z := Z.of_nat (String.length s).

(** Truth value of a [str]: the empty string is false. *)
Definition truthy (s : string) : bool :=
  match s with EmptyString => false | String _ _ => true end.

(** [s.startswith(p)] *)
Definition startswith (s p : string) : bool := String.prefix p s.

(** [s[:n]] *)
Definition take (n : nat) (s : string) : string := String.substring 0 n s.

(** [s.split(c)[0]]: the part before the first [c]. *)
Fixpoint split_first (c : ascii) (s : string) : string :=
  match s with
  | EmptyString => EmptyString
  | String a r => if Ascii.eqb a c then EmptyString else String a (split_first c r)
  end.

(** [c in s] for a one-character [c]. *)
Fixpoint contains (c : ascii) (s : string) : bool :=
  match s with
  | EmptyString => false
  | String a r => Ascii.eqb a c || contains c r
  end.

(** [s.split(c)[-1]]: the part after the last [c]. *)
Fixpoint split_last (c : ascii) (s : string) : string :=
  match s with
  | EmptyString => EmptyString
  | String a r =>
      if contains c s
      then (if Ascii.eqb a c && negb (contains c r) then r else split_last c r)
      else s
  end.

(** [', '.join(l)] and friends. *)
Fixpoint join (sep : string) (l : list string) : string :=
  match l with
  | [] => ""
  | [x] => x
  | x :: r => x ++ sep ++ join sep r
  end.

(** [any(l)] *)
Definition any (l : list bool) : bool := existsb (fun b => b) l.

(** [d.get(k)] on a dict literal, kept as its list of items. *)
Fixpoint dict_get {V : Type} (d : list (string * V)) (k : string) : option V :=
  match d with
  | [] => None
  | (k', v) :: r => if String.eqb k' k then Some v else dict_get r k
  end.

(** [s.upper()] on ASCII letters. *)
Definition upper_char (c : ascii) : ascii :=
  let n := nat_of_ascii c in
  if (97 <=? n)%nat && (n <=? 122)%nat then ascii_of_nat (n - 32) else c.

Fixpoint upper (s : string) : string :=
  match s with
  | EmptyString => EmptyString
  | String a r => String (upper_char a) (upper r)
  end.

(** [s.split()]: the words between runs of white space. *)
Definition is_space (c : ascii) : bool :=
  let n := nat_of_ascii c in
  (n =? 32)%nat || ((9 <=? n)%nat && (n <=? 13)%nat).

Fixpoint split_ws_from (word : string) (s : string) : list string :=
  match s with
  | EmptyString => if truthy word then [word] else []
  | String a r =>
      if is_space a
      then (if truthy word then word :: split_ws_from "" r else split_ws_from "" r)
      else split_ws_from (word ++ String a EmptyString) r
  end.

Definition split_ws (s : string) : list string := split_ws_from "" s.

(** [x in s] for a [set] of strings built from a list. *)
Definition set_mem (x : string) (s : list string) : bool :=
  existsb (String.eqb x) s.

End Py.

(** ** Findings *)

(** The first argument of [color_print]. *)
Inductive Status : Type := GOOD | NEUTRAL | FAIL | SECTION.

(** What the script writes: a section header or one [color_print] line.
    The ANSI rendering of a line is left out; a line keeps the three
    arguments [color_print] was called with. *)
Inductive Line : Type :=
| Header (title : string)
| Finding (status : Status) (label content : string).

(** SEO character count limits *)
Definition SEO_TITLE_LIMITS : Z * Z := (50, 60)%Z.
Definition SEO_DESC_LIMITS : Z * Z := (150, 160)%Z.
Definition SEO_H1_LIMIT : Z := 70%Z.

Definition LANGUAGE_MAP : list (string * string) :=
  [ ("de", "german"); ("el", "greek"); ("en", "english"); ("es", "spanish");
    ("fi", "finnish"); ("fr", "french"); ("it", "italian"); ("nl", "dutch");
    ("no", "norwegian"); ("pl", "polish"); ("pt", "portuguese");
    ("sv", "swedish"); ("zh", "chinese") ].

(** [evaluate_field_length(content, optimal_range)] *)
Definition evaluate_field_length (content : string) (optimal_range : Z * Z) : Status :=
  if negb (Py.truthy content) then FAIL
  else
    let length := Py.len content in
    if ((fst optimal_range <=? length) && (length <=? snd optimal_range))%Z
    then GOOD
    else NEUTRAL.

(** ** Parsed documents

    [BeautifulSoup(response.text, 'html.parser')] yields a tree of tags.
    A tag keeps its name, its attributes, the value of
    [get_text(strip=True)] and its child tags, in document order. *)

#[warnings="-register-all"]
Inductive Tag : Type :=
| mkTag (name : string) (attrs : list (string * string)) (text : string)
        (contents : list Tag).

Definition tag_name (t : Tag) : string := let (n, _, _, _) := t in n.
Definition tag_attrs (t : Tag) : list (string * string) := let (_, a, _, _) := t in a.
Definition get_text_strip (t : Tag) : string := let (_, _, x, _) := t in x.
Definition tag_contents (t : Tag) : list Tag := let (_, _, _, c) := t in c.

(** A parsed page: the root object, and [soup.stripped_strings]. *)
Record Soup : Type := mkSoup {
  soup_root : Tag;
  stripped_strings : list string
}.

(** All tags below [t], in document order. *)
Fixpoint descendants (t : Tag) : list Tag :=
  match t with
  | mkTag _ _ _ cs => flat_map (fun c => c :: descendants c) cs
  end.

(** [tag.get(key)]: [None] when the attribute is absent. *)
Definition tag_get (t : Tag) (key : string) : option string :=
  Py.dict_get (tag_attrs t) key.

(** [tag.get(key, '')] *)
Definition tag_get_default (t : Tag) (key : string) : string :=
  match tag_get t key with Some v => v | None => "" end.

(** [bool(tag)]: bs4 defines [Tag.__bool__] to return [True], also for a
    tag without contents. *)
Definition tag_bool (t : Tag) : bool := true.

(** [t.find_all([n1, n2, ...])] *)
Definition find_all (names : list string) (t : Tag) : list Tag :=
  filter (fun d => Py.set_mem (tag_name d) names) (descendants t).

(** [t.find_all(name, href=True)]: the attribute has to be present. *)
Definition find_all_with (name key : string) (t : Tag) : list Tag :=
  filter (fun d => match tag_get d key with Some _ => true | None => false end)
         (find_all [name] t).

(** [t.find(name)] *)
Definition find (name : string) (t : Tag) : option Tag := hd_error (find_all [name] t).

(** The attributes bs4 keeps as a list of words. *)
Definition multi_valued (key : string) : bool :=
  Py.set_mem key ["class"; "rel"; "rev"; "accept-charset"; "headers";
                  "accesskey"; "dropzone"].

(** Does the value [v] of the attribute [key] match the text [value]?
    A list of words matches when one of the words or the whole text
    does. *)
Definition attr_matches (key v value : string) : bool :=
  String.eqb v value || (multi_valued key && Py.set_mem value (Py.split_ws v)).

(** [t.find(name, attrs={key: value})] *)
Definition find_attr (name key value : string) (t : Tag) : option Tag :=
  hd_error
    (filter (fun d => match tag_get d key with
                      | Some v => attr_matches key v value
                      | None => false
                      end)
            (find_all [name] t)).

(** ** Requests, responses and exceptions *)

Inductive Method : Type := GET | HEAD.

(** One call of [requests.get] or [requests.head] with the keyword
    arguments the script uses. *)
Record Request : Type := mkRequest {
  req_method : Method;
  req_url : string;
  req_allow_redirects : bool;
  req_stream : bool;
  req_headers : list (string * string)
}.

(** What [response.json()] gives for the DNS lookup of the script:
    a decoding failure, a document without ['Answer'], a document whose
    first answer carries ['data'], or a document of another shape, on
    which the script's indexing raises. *)
Inductive JsonBody : Type :=
| JsonInvalid
| JsonNoAnswer
| JsonAnswer (data : string)
| JsonMalformed.

Record Response : Type := mkResponse {
  url : string;                        (* final URL *)
  status_code : Z;
  text : string;
  content_len : nat;                   (* len(response.content) *)
  headers : list (string * string);
  history : list (string * Z);         (* url and status of each hop *)
  elapsed_seconds : string;            (* response.elapsed.total_seconds() *)
  json : JsonBody
}.

(** Failures of the transport: each one is raised by [requests] as a
    subclass of [RequestException]. *)
Inductive TransportError : Type := TIMEOUT | CONNECTION | TLS | OTHER.

(** The exceptions that reach the script.  [ValueError] is what
    [urljoin] and [urlparse] raise on a malformed URL, and what a request
    raises when the host of its URL cannot be encoded (urllib3's
    [LocationParseError], a [ValueError] that [requests] passes on
    unchanged): it is no [RequestException]. *)
Inductive Exn : Type :=
| Transport (k : TransportError)       (* Timeout, ConnectionError, SSLError, ... *)
| HTTPError (code : Z)                 (* raised by raise_for_status *)
| JSONDecodeError                      (* raised by response.json() *)
| LookupError                          (* IndexError, KeyError, TypeError *)
| ValueError.                          (* urljoin, urlparse, LocationParseError *)

(** [isinstance(e, requests.RequestException)] *)
Definition is_RequestException (e : Exn) : bool :=
  match e with
  | Transport _ | HTTPError _ | JSONDecodeError => true
  | LookupError | ValueError => false
  end.

(** What [urlparse(u)] gives: the scheme, the network location (user
    info, host and port as the URL writes them) and the host name alone. *)
Record ParseResult : Type := mkParseResult {
  scheme : string;
  netloc : string;
  hostname : string
}.

(** [isinstance(e, requests.exceptions.SSLError)] *)
Definition is_SSLError (e : Exn) : bool :=
  match e with
  | Transport TLS => true
  | _ => false
  end.

(** ** The effect monad *)

Record World : Type := mkWorld {
  stdout : list Line;      (* lines printed, oldest first *)
  sent : list Request      (* requests issued, oldest first *)
}.

Definition empty_world : World := mkWorld [] [].

Inductive Res (A : Type) : Type :=
| Ret (a : A)
| Raise (e : Exn).
Arguments Ret {A} a.
Arguments Raise {A} e.

Definition M (A : Type) : Type := World -> Res A * World.

Definition ret {A} (a : A) : M A := fun w => (Ret a, w).

Definition raise {A} (e : Exn) : M A := fun w => (Raise e, w).

Definition bind {A B} (m : M A) (k : A -> M B) : M B :=
  fun w =>
    match m w with
    | (Ret a, w') => k a w'
    | (Raise e, w') => (Raise e, w')
    end.

Notation "x <- m ;; k" := (bind m (fun x => k))
  (at level 61, m at next level, right associativity).
Notation "m ;; k" := (bind m (fun _ => k))
  (at level 61, right associativity).

(** [try: body  except <class> as e: handler e] *)
Definition try_except {A} (body : M A) (catches : Exn -> bool)
           (handler : Exn -> M A) : M A :=
  fun w =>
    match body w with
    | (Ret a, w') => (Ret a, w')
    | (Raise e, w') => if catches e then handler e w' else (Raise e, w')
    end.

(** [for x in l: body x] *)
Fixpoint for_each {A} (l : list A) (body : A -> M unit) : M unit :=
  match l with
  | [] => ret tt
  | x :: r => body x ;; for_each r body
  end.

(** [if c: m] *)
Definition when (c : bool) (m : M unit) : M unit := if c then m else ret tt.

Definition print (l : Line) : M unit :=
  fun w => (Ret tt, mkWorld (stdout w ++ [l]) (sent w)).

(** [color_print(status, label, content)] *)
Definition color_print (status : Status) (label content : string) : M unit :=
  print (Finding status label content).

(** [section_header(title)] *)
Definition section_header (title : string) : M unit := print (Header title).

(** The lines a computation prints and the requests it sends when it
    starts in the empty world, and its outcome there. *)
Definition output_of {A} (m : M A) : list Line := stdout (snd (m empty_world)).
Definition requests_of {A} (m : M A) : list Request := sent (snd (m empty_world)).
Definition outcome_of {A} (m : M A) : Res A := fst (m empty_world).

(** ** Dictionaries that keep insertion order, and [sorted]

    A Python [dict] iterates in insertion order, and [sorted] is stable,
    also with [reverse=True].  Both matter for the order of the keywords,
    so the dictionary is kept as its list of items. *)

(** [d.get(k, default)] *)
Definition dict_get_default (d : list (string * Z)) (k : string) (default : Z) : Z :=
  match Py.dict_get d k with Some v => v | None => default end.

(** [d[k] = v]: an existing key keeps its place, a new key goes last. *)
Fixpoint dict_set (d : list (string * Z)) (k : string) (v : Z) : list (string * Z) :=
  match d with
  | [] => [(k, v)]
  | (k', v') :: r =>
      if String.eqb k' k then (k', v) :: r else (k', v') :: dict_set r k v
  end.

(** Where [x] goes in a list already sorted by descending key: behind
    every element with a greater key, before the others. *)
Fixpoint insert_desc {A} (key : A -> Z) (x : A) (l : list A) : list A :=
  match l with
  | [] => [x]
  | y :: r => if (key x <? key y)%Z then y :: insert_desc key x r else x :: l
  end.

(** [sorted(l, key=key, reverse=True)]: elements with equal keys keep
    the order they have in [l]. *)
Fixpoint sorted_desc {A} (key : A -> Z) (l : list A) : list A :=
  match l with
  | [] => []
  | x :: r => insert_desc key x (sorted_desc key r)
  end.

(** The loop [for word in filtered_words: word_frequency[word] =
    word_frequency.get(word, 0) + 1], started from [d]. *)
Definition count_words (d : list (string * Z)) (filtered_words : list string)
  : list (string * Z) :=
  fold_left (fun d word => dict_set d word (dict_get_default d word 0 + 1)%Z)
            filtered_words d.

(** The keyword part of [semantic_analysis]: from the tokens [words]
    and the stopword set to the ten items that are printed. *)
Definition filter_stopwords (words stop_words : list string) : list string :=
  filter (fun word => negb (Py.set_mem word stop_words)) words.

Definition word_frequency (words stop_words : list string) : list (string * Z) :=
  count_words [] (filter_stopwords words stop_words).

Definition ranked_keywords (words stop_words : list string) : list (string * Z) :=
  sorted_desc snd (word_frequency words stop_words).

Definition keywords (words stop_words : list string) : list (string * Z) :=
  firstn 10 (ranked_keywords words stop_words).

(** ** Link extraction (the first loop of [print_links_info]) *)

Definition ignored_href (href : string) : bool :=
  Py.startswith href "tel:" || Py.startswith href "mailto:"
  || Py.startswith href "javascript:".

(** Status bucket of a probed link. *)
Definition link_status (code : Z) : Status :=
  if ((200 <=? code) && (code <? 300))%Z then GOOD
  else if ((300 <=? code) && (code <? 400))%Z then NEUTRAL
  else FAIL.

(** [alt_text if len(alt_text) < 50 else alt_text[:50] + '...'] *)
Definition shorten (s : string) : string :=
  if (Py.len s <? 50)%Z then s else Py.take 50 s ++ "...".

(** The file name shown for an image. *)
Definition image_name (src : string) : string :=
  let img_name := if Py.contains "/"%char src then Py.split_last "/"%char src else src in
  let img_name := Py.split_first "?"%char img_name in
  let img_name := Py.split_first "#"%char img_name in
  shorten img_name.

(** [needle in haystack] *)
Definition str_in (needle haystack : string) : bool :=
  match String.index 0 needle haystack with Some _ => true | None => false end.

(** The parsed command line. *)
Record Args : Type := mkArgs {
  arg_url : string;
  arg_follow : bool;
  arg_media : bool;
  arg_links : bool;
  arg_server : bool;
  arg_google : bool;
  arg_content : bool;
  arg_semantic : bool;
  arg_all : bool
}.

(** ** The script's functions *)

Section Engine.

(** The network: what a call of [requests] gets, given the requests
    sent before it: a response, or the exception the call raises. *)
Variable net : list Request -> Request -> Response + Exn.

(** [BeautifulSoup(text, 'html.parser')] *)
Variable parse : string -> Soup.
(** [requests.compat.urljoin(base, href)] and [urlparse(u)]; [None]
    when the call raises [ValueError]. *)
Variable urljoin : string -> string -> option string.
Variable urlparse : string -> option ParseResult.
(** [langdetect.detect]: the language code, or the text of the exception
    it raises. *)
Variable detect : string -> string + string.
(** [stopwords.words(language)]: the list, or the text of the exception
    it raises. *)
Variable stopwords_words : string -> list string + string.
(** [re.findall(r'\b\w+\b', s)] and [s.lower()] *)
Variable findall_words : string -> list string.
Variable lower : string -> string.
(** Rendering of numbers and exceptions inside f-strings, and the wall
    clock time measured around the primary fetch. *)
Variable str_int : Z -> string.
Variable str_kb : nat -> string.
Variable str_exn : Exn -> string.
Variable total_time : Response -> string.

(** [requests.get(url, ...)] / [requests.head(url)]: the request is
    recorded, and the network decides what comes back. *)
Definition send (r : Request) : M Response :=
  fun w =>
    let w' := mkWorld (stdout w) (sent w ++ [r]) in
    match net (sent w) r with
    | inl response => (Ret response, w')
    | inr e => (Raise e, w')
    end.

Definition requests_get (u : string) : M Response :=
  send (mkRequest GET u true false []).

Definition requests_head (u : string) : M Response :=
  send (mkRequest HEAD u false false []).

(** [response.raise_for_status()] *)
Definition raise_for_status (response : Response) : M unit :=
  if ((400 <=? status_code response) && (status_code response <? 600))%Z
  then raise (HTTPError (status_code response))
  else ret tt.

(** [bool(response)], which is [response.ok] *)
Definition response_bool (response : Response) : bool :=
  negb ((400 <=? status_code response) && (status_code response <? 600))%Z.

Definition fetch_url_content (u : string) (follow_redirects : bool)
  : M (option Response) :=
  section_header "Performance" ;;
  try_except
    (response <- send (mkRequest GET u follow_redirects false []) ;;
     raise_for_status response ;;
     color_print GOOD "Initial response time"
                 (elapsed_seconds response ++ " seconds") ;;
     color_print GOOD "Total load time" (total_time response ++ " seconds") ;;
     color_print GOOD "Page size" (str_kb (content_len response) ++ " KB") ;;
     ret (Some response))
    is_RequestException
    (fun e =>
       color_print FAIL "Error" ("Failed to fetch URL: " ++ str_exn e) ;;
       ret None).

Definition status_suffix (code : Z) : string :=
  " (Status Code: " ++ str_int code ++ ")".

Definition print_redirect_history (response : Response) : M unit :=
  section_header "Redirects" ;;
  match history response with
  | [] => color_print NEUTRAL "Redirect history" "No redirects found."
  | _ :: _ =>
      for_each (combine (seq 0 (List.length (history response))) (history response))
        (fun '(i, (hop_url, hop_code)) =>
           color_print NEUTRAL ("Step " ++ str_int (Z.of_nat i + 1))
                       (hop_url ++ status_suffix hop_code)) ;;
      color_print GOOD "Final URL"
                  (url response ++ status_suffix (status_code response))
  end.

Definition print_status_code (response : Response) : M unit :=
  section_header "Status Code" ;;
  color_print (if (status_code response =? 200)%Z then GOOD else FAIL)
              "Status Code" (str_int (status_code response)).

Definition semantic_analysis (response : Response) : M unit :=
  section_header "Semantic Analysis" ;;
  let soup := parse (text response) in
  let text_content := Py.join " " (stripped_strings soup) in
  match detect text_content with
  | inr e =>
      color_print FAIL "Language Detection" ("Error detecting language: " ++ e)
  | inl detected_language =>
      color_print GOOD "Document Language" detected_language ;;
      match Py.dict_get LANGUAGE_MAP detected_language with
      | None =>
          color_print FAIL "Stopwords"
            ("Stopwords not available for detected language '"
               ++ detected_language ++ "'")
      | Some nltk_language =>
          match stopwords_words nltk_language with
          | inr e =>
              color_print FAIL "Stopwords"
                ("Error retrieving stopwords for language '"
                   ++ nltk_language ++ "': " ++ e)
          | inl stop_words =>
              let words := findall_words (lower text_content) in
              color_print GOOD "Relevant Keywords"
                (Py.join ", " (map fst (keywords words stop_words)))
          end
      end
  end.

(** The body of the first loop of [print_links_info], on the two lists
    of resolved URLs built so far; [None] when [urljoin] or [urlparse]
    raises. *)
Definition classify_link (response : Response) (base_url : string)
           (lists : list string * list string) (link : Tag)
  : option (list string * list string) :=
  let '(internal_links, external_links) := lists in
  let href := tag_get_default link "href" in
  if ignored_href href then Some (internal_links, external_links)
  else
    match urljoin (url response) href with
    | None => None
    | Some full_url =>
        match urlparse full_url with
        | None => None
        | Some parsed =>
            let link_base_url := netloc parsed in
            if String.eqb link_base_url base_url
            then Some (internal_links ++ [full_url], external_links)
            else Some (internal_links, external_links ++ [full_url])
        end
    end.

(** [base_url = urlparse(response.url).netloc] and the first loop of
    [print_links_info]; the loop ends at the first exception. *)
Definition collect_links (response : Response) (links : list Tag)
  : option (list string * list string) :=
  match urlparse (url response) with
  | None => None
  | Some parsed =>
      fold_left
        (fun lists link =>
           match lists with
           | Some built => classify_link response (netloc parsed) built link
           | None => None
           end)
        links (Some ([], []))
  end.

(** The body of the two probing loops of [print_links_info]. *)
Definition probe_link (u : string) : M unit :=
  try_except
    (link_response <- requests_get u ;;
     color_print (link_status (status_code link_response)) "Link"
       ("Status: " ++ str_int (status_code link_response) ++ ", URL: " ++ u))
    is_RequestException
    (fun e =>
       color_print FAIL "Link"
         ("Error fetching URL: " ++ u ++ " - " ++ str_exn e)).

Definition print_links_info (response : Response) : M unit :=
  section_header "Link Analysis" ;;
  let soup := parse (text response) in
  let links := find_all_with "a" "href" (soup_root soup) in
  match collect_links response links with
  | None => raise ValueError
  | Some (internal_links, external_links) =>
      color_print SECTION "Internal links" "" ;;
      for_each internal_links probe_link ;;
      color_print SECTION "External links" "" ;;
      for_each external_links probe_link
  end.

Definition print_seo_relevant_header_info (response : Response) : M unit :=
  section_header "SEO Header Analysis" ;;
  let soup := parse (text response) in
  match find "head" (soup_root soup) with
  | Some header =>
      let title_content :=
        match find "title" header with
        | Some title => get_text_strip title
        | None => ""
        end in
      color_print (evaluate_field_length title_content SEO_TITLE_LIMITS)
                  "Title" title_content ;;
      let desc_content :=
        match find_attr "meta" "name" "description" header with
        | Some meta_description => tag_get_default meta_description "content"
        | None => ""
        end in
      color_print (evaluate_field_length desc_content SEO_DESC_LIMITS)
                  "Description" desc_content ;;
      let canonical_content :=
        match find_attr "link" "rel" "canonical" header with
        | Some canonical_link => tag_get_default canonical_link "href"
        | None => ""
        end in
      when (Py.truthy canonical_content)
           (color_print GOOD "Canonical" canonical_content)
  | None => color_print FAIL "Header" "No <head> section found."
  end.

(** The body of the inner loop of [print_heading_tags]. *)
Definition print_heading (heading : string) (tag : Tag) : M unit :=
  let content := get_text_strip tag in
  let status :=
    if String.eqb heading "h1"
    then evaluate_field_length content (1%Z, SEO_H1_LIMIT)
    else if Py.truthy content then GOOD else FAIL in
  color_print status (Py.upper heading) content.

Definition print_heading_tags (response : Response) : M unit :=
  section_header "SEO Content Analysis" ;;
  let soup := parse (text response) in
  when (negb (Py.any (map tag_bool (find_all ["h1"] (soup_root soup)))))
       (color_print FAIL "Headings" "No H1 tag found.") ;;
  for_each ["h1"; "h2"; "h3"]
    (fun heading =>
       let tags := find_all [heading] (soup_root soup) in
       for_each tags (print_heading heading)) ;;
  when (1 <? List.length (find_all ["h1"] (soup_root soup)))%nat
       (color_print FAIL "Headings" "Multiple H1 tags found.").

(** [response.headers.get(key, default)]; the keys of the headers of a
    response compare without regard to case. *)
Fixpoint headers_get (h : list (string * string)) (key default : string) : string :=
  match h with
  | [] => default
  | (k, v) :: r =>
      if String.eqb (lower k) (lower key) then v else headers_get r key default
  end.

(** The body of the first loop of [print_media_info]. *)
Definition print_media (media : Tag) : M unit :=
  let src := tag_get_default media "src" in
  let label :=
    if String.eqb (tag_name media) "video" then "Video"
    else ("Diverse (" ++ tag_name media ++ ")")%string in
  if Py.truthy src
  then color_print GOOD (label ++ " Source") src
  else color_print FAIL label "No source found".

(** The body of the image loop of [print_media_info]. *)
Definition print_image (base_url : string) (img : Tag) : M unit :=
  let alt_text := shorten (tag_get_default img "alt") in
  let src := tag_get_default img "src" in
  if Py.startswith src "data:"
  then color_print NEUTRAL "Image" "Inline image detected, no further analysis"
  else
    let img_name := image_name src in
    match urljoin base_url src with
    | None => raise ValueError
    | Some absolute_url =>
        try_except
          (img_response <- send (mkRequest GET absolute_url true true []) ;;
           let img_format :=
             headers_get (headers img_response) "Content-Type" "Unknown" in
           let image_info :=
             ("Filename: " ++ img_name ++ ", ALT: "
                ++ (if Py.truthy alt_text then alt_text else "NOT PROVIDED")
                ++ ", Size: " ++ str_kb (content_len img_response)
                ++ " KB, Format: " ++ img_format)%string in
           color_print (if Py.truthy alt_text then GOOD else FAIL) "Image" image_info)
          is_RequestException
          (fun e =>
             color_print FAIL "Image"
               (img_name ++ ", Error fetching image: " ++ str_exn e))
    end.

Definition print_media_info (response : Response) : M unit :=
  section_header "SEO Media Analysis" ;;
  let soup := parse (text response) in
  let base_url := url response in
  for_each (find_all ["video"; "audio"] (soup_root soup)) print_media ;;
  for_each (find_all ["img"; "e-img"] (soup_root soup)) (print_image base_url).

Definition USER_AGENT : string :=
  "Mozilla/5.0 (Windows NT 10.0; Win64; x64) AppleWebKit/537.36 (KHTML, like Gecko) Chrome/58.0.3029.110 Safari/537.3".

Definition check_google_index_status (u : string) : M unit :=
  section_header "Google Index Status" ;;
  try_except
    (let search_url := ("https://www.google.com/search?q=site:" ++ u)%string in
     response <- send (mkRequest GET search_url true false
                                 [("User-Agent", USER_AGENT)]) ;;
     if (status_code response =? 200)%Z
     then
       if str_in "did not match any documents" (text response)
       then color_print FAIL "Google Index" "URL not found in Google index"
       else color_print GOOD "Google Index" "URL is indexed by Google"
     else
       color_print FAIL "Google Index"
         ("Failed to check Google index" ++ status_suffix (status_code response)))
    is_RequestException
    (fun e =>
       color_print FAIL "Google Index"
         ("Error while checking Google index: " ++ str_exn e)).

(** One of the two file checks of [check_server_info]. *)
Definition check_file (label file_url error_text : string) : M unit :=
  try_except
    (file_response <- requests_get file_url ;;
     if (status_code file_response =? 200)%Z
     then color_print GOOD label ("Found at " ++ file_url)
     else color_print FAIL label "Not found")
    is_RequestException
    (fun _ => color_print FAIL label error_text).

(** The certificate step of [check_server_info]: only [SSLError] is
    caught. *)
Definition check_certificate (u : string) : M unit :=
  try_except
    (requests_get u ;;
     color_print GOOD "SSL Certificate" "Valid")
    is_SSLError
    (fun _ => color_print FAIL "SSL Certificate" "Invalid or not present").

(** The address step of [check_server_info]. *)
Definition check_server_ip (location : string) : M unit :=
  try_except
    (dns_response <- requests_get ("https://dns.google/resolve?name=" ++ location) ;;
     match json dns_response with
     | JsonInvalid => raise JSONDecodeError
     | JsonNoAnswer => color_print FAIL "Server IP" "Could not retrieve IP address"
     | JsonAnswer server_ip => color_print GOOD "Server IP" server_ip
     | JsonMalformed => raise LookupError
     end)
    is_RequestException
    (fun _ => color_print FAIL "Server IP" "Error retrieving IP address").

(** The server software step of [check_server_info]. *)
Definition check_server_software (u : string) : M unit :=
  try_except
    (server_response <- requests_head u ;;
     color_print NEUTRAL "Server Software"
                 (headers_get (headers server_response) "Server" "Unknown"))
    is_RequestException
    (fun _ =>
       color_print FAIL "Server Software"
                   "Error retrieving server software information").

Definition check_server_info (u : string) : M unit :=
  section_header "Server Information" ;;
  match urlparse u with
  | None => raise ValueError
  | Some parsed_url =>
      let base_url := (scheme parsed_url ++ "://" ++ netloc parsed_url)%string in
      check_file "Sitemap" (base_url ++ "/sitemap.xml") "Error checking sitemap" ;;
      check_file "robots.txt" (base_url ++ "/robots.txt")
                 "Error checking robots.txt" ;;
      check_certificate u ;;
      check_server_ip (netloc parsed_url) ;;
      check_server_software u
  end.

Definition main (args : Args) : M unit :=
  let u := arg_url args in
  let follow_redirects := arg_follow args || arg_all args in
  let analyze_media := arg_media args || arg_all args in
  let check_links := arg_links args || arg_all args in
  let check_server := arg_server args || arg_all args in
  let google_check := arg_google args || arg_all args in
  let check_content := arg_content args || arg_all args in
  let perform_semantic := arg_semantic args || arg_all args in
  when check_server (check_server_info u) ;;
  response <- fetch_url_content u follow_redirects ;;
  match response with
  | Some response =>
      if response_bool response
      then
        print_redirect_history response ;;
        print_status_code response ;;
        when google_check (check_google_index_status u) ;;
        print_seo_relevant_header_info response ;;
        when check_content (print_heading_tags response) ;;
        when perform_semantic (semantic_analysis response) ;;
        when analyze_media (print_media_info response) ;;
        when check_links (print_links_info response)
      else color_print FAIL "Fetch" "Failed to retrieve the URL."
  | None => color_print FAIL "Fetch" "Failed to retrieve the URL."
  end.

(** The status the interpreter exits with: 0 when [main] returns, 1 when
    an exception escapes it. *)
Definition exit_status (args : Args) : Z :=
  match outcome_of (main args) with
  | Ret _ => 0%Z
  | Raise _ => 1%Z
  end.

End Engine.

(** ** A small site to run the script on *)

Module Demo.

(** A leaf tag. *)
Definition leaf (name : string) (attrs : list (string * string)) (text : string) : Tag :=
  mkTag name attrs text [].

Definition page (body : list Tag) : Soup :=
  mkSoup (mkTag "[document]" [] "" [mkTag "html" [] "" body]) [].

(** Scenario C: three internal anchors, two of them to the same URL,
    and one external anchor. *)
Definition links_page : Soup :=
  page [ leaf "a" [("href", "/a")] "first";
         leaf "a" [("href", "/b")] "second";
         leaf "a" [("href", "/a")] "first again";
         leaf "a" [("href", "http://other.test/")] "elsewhere" ].

(** One image with alt text, one without, one inline. *)
Definition media_page : Soup :=
  page [ leaf "img" [("alt", "Logo"); ("src", "/logo.png")] "";
         leaf "img" [("src", "/banner.png")] "";
         leaf "img" [("alt", "dot"); ("src", "data:image/png;base64,AAAA")] "" ].

Definition one_h1_page : Soup := page [ leaf "h1" [] "Welcome"; leaf "h2" [] "More" ].
Definition empty_h1_page : Soup := page [ leaf "h1" [] "" ].

(** An anchor that names the host of the page with its port. *)
Definition port_link_page : Soup :=
  page [ leaf "a" [("href", "http://site.test:80/x")] "same host, with port" ].
Definition two_h1_page : Soup := page [ leaf "h1" [] "One"; leaf "h1" [] "Two" ].
Definition no_h1_page : Soup := page [ leaf "h2" [] "Only a subtitle" ].

(** The body of a response selects the page. *)
Definition parse (body : string) : Soup :=
  if String.eqb body "port link" then port_link_page
  else if String.eqb body "links" then links_page
  else if String.eqb body "media" then media_page
  else if String.eqb body "one h1" then one_h1_page
  else if String.eqb body "empty h1" then empty_h1_page
  else if String.eqb body "two h1" then two_h1_page
  else no_h1_page.

(** All URLs of the site start with [http://]; the network location
    runs up to the next slash, and the host name is what is left of it
    without user info and port. *)
Definition location (u : string) : string :=
  Py.split_first "/"%char (String.substring 7 (String.length u - 7) u).

Definition urlparse (u : string) : option ParseResult :=
  Some (mkParseResult "http" (location u)
          (Py.split_first ":"%char (Py.split_last "@"%char (location u)))).

Definition urljoin (base href : string) : option string :=
  if Py.startswith href "http://" then Some href
  else Some ("http://" ++ location base ++ href)%string.

Definition response (u : string) (code : Z) (body : string) : Response :=
  mkResponse u code body (String.length body) [("Content-Type", "image/png")]
             [] "0.1" JsonNoAnswer.

(** The network: one page is missing, one host is down, the logo
    cannot be fetched in time, the host [a..b] has an empty label and
    cannot be encoded, everything else answers 200. *)
Definition net (_ : list Request) (r : Request) : Response + Exn :=
  if String.eqb (req_url r) "http://site.test/missing"
  then inl (response (req_url r) 404 "not found")
  else if String.eqb (req_url r) "http://down.test/" then inr (Transport TIMEOUT)
  else if String.eqb (req_url r) "http://site.test/logo.png"
       then inr (Transport TIMEOUT)
  else if String.eqb (req_url r) "http://a..b/" then inr ValueError
  else inl (response (req_url r) 200 "").

Definition detect (s : string) : string + string := inl "en".
Definition stopwords_words (language : string) : list string + string :=
  inl ["the"; "a"; "of"].
Definition findall_words (s : string) : list string := [].
Definition lower (s : string) : string := s.
Definition str_int (z : Z) : string := "#".
Definition str_kb (n : nat) : string := "#".
Definition str_exn (e : Exn) : string :=
  match e with
  | Transport TIMEOUT => "timed out"
  | Transport _ => "transport error"
  | HTTPError _ => "HTTP error"
  | JSONDecodeError => "invalid JSON"
  | LookupError => "lookup error"
  | ValueError => "value error"
  end.
Definition total_time (r : Response) : string := "0.2".

(** A network whose only failure is the timeout of the host that is
    down. *)
Definition plain_net (_ : list Request) (r : Request) : Response + Exn :=
  if String.eqb (req_url r) "http://down.test/" then inr (Transport TIMEOUT)
  else inl (response (req_url r) 200 "").

(** The command line [--url u] with no switch. *)
Definition plain_args (u : string) : Args :=
  mkArgs u false false false false false false false false.

(** A token stream for the keyword ranking. *)
Definition tokens : list string :=
  ["the"; "cat"; "dog"; "cat"; "bird"; "dog"; "a"; "fish"].

End Demo.

(** ** Vocabulary of the statements *)

(** [m] returns [tt] after printing the lines [ls], and sends nothing. *)
Definition prints (m : M unit) (ls : list Line) : Prop :=
  forall w, m w = (Ret tt, mkWorld (stdout w ++ ls) (sent w)).

(** [m] returns, whatever the world it starts in. *)
Definition returns {A} (m : M A) : Prop :=
  forall w, exists a w', m w = (Ret a, w').

(** The two findings of [print_heading_tags] about the number of H1
    tags. *)
Definition no_h1_finding : Line := Finding FAIL "Headings" "No H1 tag found.".
Definition multiple_h1_finding : Line :=
  Finding FAIL "Headings" "Multiple H1 tags found.".

(** The line printed for one heading tag. *)
Definition heading_line (heading : string) (tag : Tag) : Line :=
  Finding (if String.eqb heading "h1"
           then evaluate_field_length (get_text_strip tag) (1%Z, SEO_H1_LIMIT)
           else if Py.truthy (get_text_strip tag) then GOOD else FAIL)
          (Py.upper heading) (get_text_strip tag).

(** Everything [print_heading_tags] prints for a document. *)
Definition heading_lines (root : Tag) : list Line :=
  [Header "SEO Content Analysis"]
    ++ (if negb (Py.any (map tag_bool (find_all ["h1"] root)))
        then [no_h1_finding] else [])
    ++ flat_map (fun heading => map (heading_line heading) (find_all [heading] root))
                ["h1"; "h2"; "h3"]
    ++ (if (1 <? List.length (find_all ["h1"] root))%nat
        then [multiple_h1_finding] else []).

(** The request [fetch_url_content] sends. *)
Definition primary_request (u : string) (follow_redirects : bool) : Request :=
  mkRequest GET u follow_redirects false [].

(** [raise_for_status] raises on the codes 400 to 599. *)
Definition http_error_code (code : Z) : bool :=
  ((400 <=? code) && (code <? 600))%Z.

(** What a computation does, given the requests sent before it: the
    lines it prints, the requests it sends, and the exception it ends
    with, if any. *)
Record Effect : Type := mkEffect {
  eff_lines : list Line;
  eff_reqs : list Request;
  eff_exn : option Exn
}.

Definition result_of (o : option Exn) : Res unit :=
  match o with
  | None => Ret tt
  | Some e => Raise e
  end.

Definition acts (m : M unit) (f : list Request -> Effect) : Prop :=
  forall w,
    m w = (result_of (eff_exn (f (sent w))),
           mkWorld (stdout w ++ eff_lines (f (sent w)))
                   (sent w ++ eff_reqs (f (sent w)))).

(** The effect of printing [ls]. *)
Definition printing (ls : list Line) (before : list Request) : Effect :=
  mkEffect ls [] None.

(** The effect of raising [e]. *)
Definition raising (e : Exn) (before : list Request) : Effect :=
  mkEffect [] [] (Some e).

(** [a], and after it [g] unless [a] ended with an exception. *)
Definition then_effect (a : Effect) (g : list Request -> Effect)
           (before : list Request) : Effect :=
  match eff_exn a with
  | Some _ => a
  | None =>
      let b := g (before ++ eff_reqs a) in
      mkEffect (eff_lines a ++ eff_lines b) (eff_reqs a ++ eff_reqs b) (eff_exn b)
  end.

(** The effect of a loop whose body has the effect [f x]. *)
Fixpoint each_effect {A} (f : A -> list Request -> Effect) (l : list A)
         (before : list Request) : Effect :=
  match l with
  | [] => mkEffect [] [] None
  | x :: r => then_effect (f x before) (each_effect f r) before
  end.

(** The effect of one request inside [try: ... except RequestException]:
    a response and a request exception give a line, any other exception
    leaves the block. *)
Definition guarded_effect (net : list Request -> Request -> Response + Exn)
           (r : Request) (line : Response + Exn -> Line)
           (before : list Request) : Effect :=
  match net before r with
  | inl response => mkEffect [line (inl response)] [r] None
  | inr e =>
      if is_RequestException e
      then mkEffect [line (inr e)] [r] None
      else mkEffect [] [r] (Some e)
  end.

(** The exception of an outcome that the handler for [caught] lets
    through. *)
Definition escaping (caught : Exn -> bool) (outcome : Response + Exn) : option Exn :=
  match outcome with
  | inl _ => None
  | inr e => if caught e then None else Some e
  end.

(** Every failure of a request is a [RequestException]; [urljoin] and
    [urlparse] never raise. *)
Definition request_exceptions_only
           (net : list Request -> Request -> Response + Exn) : Prop :=
  forall before r e, net before r = inr e -> is_RequestException e = true.

Definition urls_always_parse (urljoin : string -> string -> option string)
           (urlparse : string -> option ParseResult) : Prop :=
  (forall base href, urljoin base href <> None) /\ (forall u, urlparse u <> None).

(** Images: the test for an inline image, the line printed for one, the
    request sent for any other image and the line printed after it. *)
Definition is_inline (img : Tag) : bool :=
  Py.startswith (tag_get_default img "src") "data:".

Definition inline_image_finding : Line :=
  Finding NEUTRAL "Image" "Inline image detected, no further analysis".

Definition image_request (absolute_url : string) : Request :=
  mkRequest GET absolute_url true true [].

Definition image_line (lower : string -> string) (str_kb : nat -> string)
           (str_exn : Exn -> string) (img : Tag)
           (outcome : Response + Exn) : Line :=
  let alt_text := shorten (tag_get_default img "alt") in
  let img_name := image_name (tag_get_default img "src") in
  match outcome with
  | inl img_response =>
      Finding (if Py.truthy alt_text then GOOD else FAIL) "Image"
              ("Filename: " ++ img_name ++ ", ALT: "
                 ++ (if Py.truthy alt_text then alt_text else "NOT PROVIDED")
                 ++ ", Size: " ++ str_kb (content_len img_response)
                 ++ " KB, Format: "
                 ++ headers_get lower (headers img_response) "Content-Type" "Unknown")
  | inr e =>
      Finding FAIL "Image" (img_name ++ ", Error fetching image: " ++ str_exn e)
  end.

(** The status of the line of an image that is not inline. *)
Definition image_status (img : Tag) (outcome : Response + Exn) : Status :=
  match outcome with
  | inl _ => if Py.truthy (tag_get_default img "alt") then GOOD else FAIL
  | inr _ => FAIL
  end.

(** Links: the request sent for a collected URL and the line printed
    after it. *)
Definition link_request (u : string) : Request := mkRequest GET u true false [].

Definition link_line (str_int : Z -> string) (str_exn : Exn -> string) (u : string)
           (outcome : Response + Exn) : Line :=
  match outcome with
  | inl link_response =>
      Finding (link_status (status_code link_response)) "Link"
              ("Status: " ++ str_int (status_code link_response) ++ ", URL: " ++ u)
  | inr e =>
      Finding FAIL "Link" ("Error fetching URL: " ++ u ++ " - " ++ str_exn e)
  end.

Definition is_link_line (l : Line) : bool :=
  match l with
  | Finding _ label _ => String.eqb label "Link"
  | Header _ => false
  end.

(** The effect of the body of the image loop. *)
Definition image_effect (net : list Request -> Request -> Response + Exn)
           (urljoin : string -> string -> option string) (lower : string -> string)
           (str_kb : nat -> string) (str_exn : Exn -> string)
           (base_url : string) (img : Tag) (before : list Request) : Effect :=
  if is_inline img then printing [inline_image_finding] before
  else
    match urljoin base_url (tag_get_default img "src") with
    | None => raising ValueError before
    | Some absolute_url =>
        guarded_effect net (image_request absolute_url)
                       (image_line lower str_kb str_exn img) before
    end.

(** The line printed for a video or audio tag. *)
Definition media_line (media : Tag) : Line :=
  let src := tag_get_default media "src" in
  let label :=
    if String.eqb (tag_name media) "video" then "Video"
    else ("Diverse (" ++ tag_name media ++ ")")%string in
  if Py.truthy src
  then Finding GOOD (label ++ " Source") src
  else Finding FAIL label "No source found".

(** [link['href']] for an anchor that has the attribute. *)
Definition href_of (link : Tag) : string := tag_get_default link "href".

(** The effect of the body of a probing loop. *)
Definition link_effect (net : list Request -> Request -> Response + Exn)
           (str_int : Z -> string) (str_exn : Exn -> string)
           (u : string) (before : list Request) : Effect :=
  guarded_effect net (link_request u) (link_line str_int str_exn u) before.

(** The hrefs the link analysis keeps: those of scheme [tel:],
    [mailto:] and [javascript:] are left out. *)
Definition kept_href (href : string) : bool :=
  negb (Py.startswith href "tel:" || Py.startswith href "mailto:"
        || Py.startswith href "javascript:").

(** Does [u] have the network location [location]?  And its host name. *)
Definition has_netloc (urlparse : string -> option ParseResult)
           (location u : string) : bool :=
  match urlparse u with
  | Some parsed => String.eqb (netloc parsed) location
  | None => false
  end.

Definition host_of (urlparse : string -> option ParseResult) (u : string)
  : option string :=
  option_map hostname (urlparse u).

(** Keywords: the position of the first occurrence of a word in a
    token stream (its length when the word does not occur), the number
    of its occurrences, and the order of the report: the greater count
    first and, among equal counts, the word met first. *)
Fixpoint first_index (w : string) (l : list string) : nat :=
  match l with
  | [] => 0
  | x :: r => if String.eqb x w then 0 else S (first_index w r)
  end.

Definition occurrences (w : string) (l : list string) : Z :=
  Z.of_nat (count_occ string_dec l w).

Definition met_before (tokens : list string) (a b : string * Z) : Prop :=
  (first_index (fst a) tokens < first_index (fst b) tokens)%nat.

Definition ranks_before (tokens : list string) (a b : string * Z) : Prop :=
  (snd b < snd a)%Z \/ (snd a = snd b /\ met_before tokens a b).

(** The order [sorted_desc] produces from an order [B] on its input. *)
Definition stable_desc {A} (key : A -> Z) (B : A -> A -> Prop) (a b : A) : Prop :=
  (key b < key a)%Z \/ (key a = key b /\ B a b).

(** ** Vocabulary of the further properties *)

(** The sum of the counts of a word dictionary. *)
Definition sum_counts (d : list (string * Z)) : Z :=
  fold_right Z.add 0%Z (map snd d).

(** The command line with [-a] spelled out as the seven switches. *)
Definition expand_all (args : Args) : Args :=
  mkArgs (arg_url args)
         (arg_follow args || arg_all args) (arg_media args || arg_all args)
         (arg_links args || arg_all args) (arg_server args || arg_all args)
         (arg_google args || arg_all args) (arg_content args || arg_all args)
         (arg_semantic args || arg_all args) false.

(** The requests of [check_google_index_status] and [check_server_info]. *)
Definition google_request (u : string) : Request :=
  mkRequest GET ("https://www.google.com/search?q=site:" ++ u) true false
            [("User-Agent", USER_AGENT)].

Definition sitemap_request (parsed : ParseResult) : Request :=
  link_request ((scheme parsed ++ "://" ++ netloc parsed) ++ "/sitemap.xml").

Definition robots_request (parsed : ParseResult) : Request :=
  link_request ((scheme parsed ++ "://" ++ netloc parsed) ++ "/robots.txt").

Definition dns_request (parsed : ParseResult) : Request :=
  link_request ("https://dns.google/resolve?name=" ++ netloc parsed).

(** The exception the address step of [check_server_info] ends with,
    if any: an exception of the request that is no [RequestException],
    or the one raised by the indexing of an answer of unexpected shape. *)
Definition dns_escaping (outcome : Response + Exn) : option Exn :=
  match outcome with
  | inl dns_response =>
      match json dns_response with
      | JsonMalformed => Some LookupError
      | _ => None
      end
  | inr e => if is_RequestException e then None else Some e
  end.

Definition server_request (u : string) : Request := mkRequest HEAD u false false [].

(** The lines of [print_redirect_history]. *)
Definition step_line (str_int : Z -> string) (hop : nat * (string * Z)) : Line :=
  let '(i, (hop_url, hop_code)) := hop in
  Finding NEUTRAL ("Step " ++ str_int (Z.of_nat i + 1)%Z)
          (hop_url ++ status_suffix str_int hop_code).

Definition final_url_line (str_int : Z -> string) (response : Response) : Line :=
  Finding GOOD "Final URL"
          (url response ++ status_suffix str_int (status_code response)).

(** The title, description and canonical texts [print_seo_relevant_header_info]
    reads from a head tag. *)
Definition title_of (header : Tag) : string :=
  match find "title" header with
  | Some title => get_text_strip title
  | None => ""
  end.

Definition description_of (header : Tag) : string :=
  match find_attr "meta" "name" "description" header with
  | Some meta_description => tag_get_default meta_description "content"
  | None => ""
  end.

Definition canonical_of (header : Tag) : string :=
  match find_attr "link" "rel" "canonical" header with
  | Some canonical_link => tag_get_default canonical_link "href"
  | None => ""
  end.

(** Everything [print_redirect_history], [print_status_code],
    [print_seo_relevant_header_info] and [semantic_analysis] print. *)
Definition redirect_lines (str_int : Z -> string) (response : Response) : list Line :=
  Header "Redirects"
    :: match history response with
       | [] => [Finding NEUTRAL "Redirect history" "No redirects found."]
       | _ :: _ =>
           map (step_line str_int)
               (combine (seq 0 (List.length (history response))) (history response))
             ++ [final_url_line str_int response]
       end.

Definition status_code_lines (str_int : Z -> string) (response : Response) : list Line :=
  [ Header "Status Code";
    Finding (if (status_code response =? 200)%Z then GOOD else FAIL)
            "Status Code" (str_int (status_code response)) ].

Definition header_info_lines (parse : string -> Soup) (response : Response) : list Line :=
  Header "SEO Header Analysis"
    :: match find "head" (soup_root (parse (text response))) with
       | Some header =>
           [ Finding (evaluate_field_length (title_of header) SEO_TITLE_LIMITS)
                     "Title" (title_of header);
             Finding (evaluate_field_length (description_of header) SEO_DESC_LIMITS)
                     "Description" (description_of header) ]
             ++ (if Py.truthy (canonical_of header)
                 then [Finding GOOD "Canonical" (canonical_of header)]
                 else [])
       | None => [Finding FAIL "Header" "No <head> section found."]
       end.

Definition text_content_of (parse : string -> Soup) (response : Response) : string :=
  Py.join " " (stripped_strings (parse (text response))).

Definition keywords_line (findall_words : string -> list string)
           (lower : string -> string) (text_content : string)
           (stop_words : list string) : Line :=
  Finding GOOD "Relevant Keywords"
          (Py.join ", " (map fst (keywords (findall_words (lower text_content))
                                           stop_words))).

Definition semantic_lines (parse : string -> Soup)
           (detect : string -> string + string)
           (stopwords_words : string -> list string + string)
           (findall_words : string -> list string) (lower : string -> string)
           (response : Response) : list Line :=
  let text_content := text_content_of parse response in
  Header "Semantic Analysis"
    :: match detect text_content with
       | inr e =>
           [Finding FAIL "Language Detection" ("Error detecting language: " ++ e)]
       | inl detected_language =>
           Finding GOOD "Document Language" detected_language
             :: match Py.dict_get LANGUAGE_MAP detected_language with
                | None =>
                    [Finding FAIL "Stopwords"
                       ("Stopwords not available for detected language '"
                          ++ detected_language ++ "'")]
                | Some nltk_language =>
                    match stopwords_words nltk_language with
                    | inr e =>
                        [Finding FAIL "Stopwords"
                           ("Error retrieving stopwords for language '"
                              ++ nltk_language ++ "': " ++ e)]
                    | inl stop_words =>
                        [keywords_line findall_words lower text_content stop_words]
                    end
                end
       end.

(** A page with a head, and a response with two redirect hops. *)
Definition head_page : Soup :=
  mkSoup (mkTag "[document]" [] ""
            [mkTag "html" [] ""
               [mkTag "head" [] ""
                  [mkTag "meta" [("name", "description"); ("content", "")] "" [];
                   mkTag "link" [("rel", "canonical"); ("href", "http://site.test/")]
                         "" []]]])
         [].

Definition redirected_response : Response :=
  mkResponse "http://site.test/new" 200 "" 0 []
             [("http://site.test/old", 301%Z); ("http://site.test/older", 302%Z)]
             "0.1" JsonNoAnswer.

(** The command line with [-a] spelled out and the server check taken
    away. *)
Definition without_server_check (args : Args) : Args :=
  mkArgs (arg_url args)
         (arg_follow args || arg_all args) (arg_media args || arg_all args)
         (arg_links args || arg_all args) false
         (arg_google args || arg_all args) (arg_content args || arg_all args)
         (arg_semantic args || arg_all args) false.

(** * Properties *)

(** ** Field lengths *)

Lemma truthy_false_iff (s : string) : Py.truthy s = false <-> s = "".
Proof. destruct s; simpl; split; congruence. Qed.

Lemma truthy_true_iff (s : string) : Py.truthy s = true <-> s <> "".
Proof. destruct s; simpl; split; congruence. Qed.

Lemma evaluate_field_length_empty (r : Z * Z) : evaluate_field_length "" r = FAIL.
Proof. reflexivity. Qed.

Lemma evaluate_field_length_nonempty (s : string) (lo hi : Z) :
  s <> "" ->
  evaluate_field_length s (lo, hi) =
    if ((lo <=? Py.len s) && (Py.len s <=? hi))%Z then GOOD else NEUTRAL.
Proof.
  intros Hs. apply truthy_true_iff in Hs.
  unfold evaluate_field_length. rewrite Hs. reflexivity.
Qed.

(** C3: [evaluate_field_length] gives FAIL on the empty string; on a
    non-empty string it gives GOOD exactly when the length lies in the
    range, bounds included, and NEUTRAL otherwise. *)
Theorem evaluate_field_length_spec (s : string) (lo hi : Z) :
  s <> "" ->
  evaluate_field_length "" (lo, hi) = FAIL
  /\ (evaluate_field_length s (lo, hi) = GOOD <-> (lo <= Py.len s <= hi)%Z)
  /\ (~ (lo <= Py.len s <= hi)%Z -> evaluate_field_length s (lo, hi) = NEUTRAL).
Proof.
  intros Hs. split; [reflexivity |].
  rewrite (evaluate_field_length_nonempty s lo hi Hs).
  destruct ((lo <=? Py.len s) && (Py.len s <=? hi))%Z eqn:E.
  - apply andb_true_iff in E. destruct E as [Hlo Hhi].
    apply Z.leb_le in Hlo. apply Z.leb_le in Hhi.
    split; [tauto | intros Hn; exfalso; apply Hn; split; assumption].
  - apply andb_false_iff in E.
    assert (Hout : ~ (lo <= Py.len s <= hi)%Z).
    { destruct E as [E | E]; apply Z.leb_gt in E; lia. }
    split; [split; [discriminate | tauto] | reflexivity].
Qed.

Lemma evaluate_field_length_spec_witness :
  "Welcome" <> ""
  /\ evaluate_field_length "" (1, 70)%Z = FAIL
  /\ (evaluate_field_length "Welcome" (1, 70)%Z = GOOD
      <-> (1 <= Py.len "Welcome" <= 70)%Z)
  /\ (~ (1 <= Py.len "Welcome" <= 70)%Z
      -> evaluate_field_length "Welcome" (1, 70)%Z = NEUTRAL).
Proof.
  split; [discriminate |].
  apply (evaluate_field_length_spec "Welcome" 1 70). discriminate.
Defined.

(** ** Computations that only print *)

Lemma prints_print (l : Line) : prints (print l) [l].
Proof. intros w. reflexivity. Qed.

Lemma prints_ret : prints (ret tt) [].
Proof. intros [out rs]. unfold ret. simpl. rewrite app_nil_r. reflexivity. Qed.

Lemma prints_seq (m k : M unit) (l1 l2 : list Line) :
  prints m l1 -> prints k l2 -> prints (m ;; k) (l1 ++ l2).
Proof.
  intros Hm Hk w. unfold bind. rewrite Hm, Hk. simpl.
  rewrite app_assoc. reflexivity.
Qed.

Lemma prints_when (c : bool) (m : M unit) (l : list Line) :
  prints m l -> prints (when c m) (if c then l else []).
Proof. intros Hm. destruct c; simpl; [exact Hm | apply prints_ret]. Qed.

Lemma prints_for_each {A} (body : A -> M unit) (f : A -> list Line) (l : list A) :
  (forall x, prints (body x) (f x)) -> prints (for_each l body) (flat_map f l).
Proof.
  intros Hbody. induction l as [| x r IH]; simpl.
  - apply prints_ret.
  - apply prints_seq; [apply Hbody | exact IH].
Qed.

Lemma prints_for_each_line {A} (f : A -> Line) (l : list A) :
  prints (for_each l (fun x => print (f x))) (map f l).
Proof.
  induction l as [| x r IH]; simpl.
  - apply prints_ret.
  - apply (prints_seq _ _ [f x] (map f r)); [apply prints_print | exact IH].
Qed.

Lemma prints_output (m : M unit) (ls : list Line) :
  prints m ls -> output_of m = ls /\ requests_of m = [] /\ outcome_of m = Ret tt.
Proof.
  intros H. unfold output_of, requests_of, outcome_of. rewrite H. auto.
Qed.

(** ** Headings *)

Lemma print_heading_tags_prints (parse : string -> Soup) (response : Response) :
  prints (print_heading_tags parse response)
         (heading_lines (soup_root (parse (text response)))).
Proof.
  unfold print_heading_tags, heading_lines.
  apply prints_seq; [apply prints_print |].
  apply prints_seq; [apply (prints_when _ _ [no_h1_finding]); apply prints_print |].
  apply prints_seq.
  - apply prints_for_each. intros heading. apply prints_for_each_line.
  - apply (prints_when _ _ [multiple_h1_finding]). apply prints_print.
Qed.

Lemma any_tag_bool (l : list Tag) :
  Py.any (map tag_bool l) = match l with [] => false | _ :: _ => true end.
Proof. destruct l; reflexivity. Qed.

Lemma heading_line_not_headings (heading : string) (tags : list Tag) (st : Status)
      (content : string) :
  In heading ["h1"; "h2"; "h3"] ->
  ~ In (Finding st "Headings" content) (map (heading_line heading) tags).
Proof.
  intros Hh Hin. apply in_map_iff in Hin. destruct Hin as [t [E _]].
  unfold heading_line in E.
  simpl in Hh. destruct Hh as [<- | [<- | [<- | []]]]; simpl in E; discriminate.
Qed.

Lemma per_tag_lines_not_headings (root : Tag) (st : Status) (content : string) :
  ~ In (Finding st "Headings" content)
       (flat_map (fun heading => map (heading_line heading) (find_all [heading] root))
                 ["h1"; "h2"; "h3"]).
Proof.
  intros Hin. apply in_flat_map in Hin. destruct Hin as [heading [Hh Hin]].
  exact (heading_line_not_headings heading _ st content Hh Hin).
Qed.

Lemma no_h1_finding_iff (root : Tag) :
  In no_h1_finding (heading_lines root) <-> find_all ["h1"] root = [].
Proof.
  unfold heading_lines. rewrite any_tag_bool.
  rewrite !in_app_iff. split.
  - intros [H | [H | [H | H]]].
    + simpl in H. destruct H as [H | []]. discriminate.
    + destruct (find_all ["h1"] root); [reflexivity |].
      simpl in H. contradiction.
    + exfalso. exact (per_tag_lines_not_headings root _ _ H).
    + destruct (1 <? _)%nat; simpl in H; [| contradiction].
      destruct H as [H | []]. discriminate.
  - intros E. right. left. rewrite E. simpl. left. reflexivity.
Qed.

Lemma multiple_h1_finding_iff (root : Tag) :
  In multiple_h1_finding (heading_lines root)
  <-> (1 < List.length (find_all ["h1"] root))%nat.
Proof.
  unfold heading_lines. rewrite !in_app_iff. split.
  - intros [H | [H | [H | H]]].
    + simpl in H. destruct H as [H | []]. discriminate.
    + destruct (negb _); simpl in H; [| contradiction].
      destruct H as [H | []]. discriminate.
    + exfalso. exact (per_tag_lines_not_headings root _ _ H).
    + destruct (1 <? _)%nat eqn:E; simpl in H; [| contradiction].
      apply Nat.ltb_lt. exact E.
  - intros Hlt. apply Nat.ltb_lt in Hlt. do 3 right. rewrite Hlt.
    simpl. left. reflexivity.
Qed.

Lemma h1_line_printed (root : Tag) (tag : Tag) :
  In tag (find_all ["h1"] root) ->
  In (Finding (evaluate_field_length (get_text_strip tag) (1%Z, SEO_H1_LIMIT))
              "H1" (get_text_strip tag))
     (heading_lines root).
Proof.
  intros Hin. unfold heading_lines. rewrite !in_app_iff.
  right. right. left. simpl. rewrite in_app_iff. left.
  apply in_map_iff. exists tag. split; [reflexivity | exact Hin].
Qed.

Lemma h1_line_origin (root : Tag) (st : Status) (content : string) :
  In (Finding st "H1" content) (heading_lines root) ->
  exists tag, In tag (find_all ["h1"] root)
              /\ st = evaluate_field_length (get_text_strip tag) (1%Z, SEO_H1_LIMIT)
              /\ content = get_text_strip tag.
Proof.
  unfold heading_lines. rewrite !in_app_iff. intros [H | [H | [H | H]]].
  - simpl in H. destruct H as [H | []]. discriminate.
  - destruct (negb _); simpl in H; [| contradiction].
    destruct H as [H | []]. discriminate.
  - simpl in H. rewrite !in_app_iff in H.
    destruct H as [H | [H | [H | []]]]; apply in_map_iff in H;
      destruct H as [tag [E Hin]]; unfold heading_line in E; simpl in E;
      try discriminate.
    injection E as E1 E2. exists tag. auto.
  - destruct (1 <? _)%nat; simpl in H; [| contradiction].
    destruct H as [H | []]. discriminate.
Qed.

(** C6: a document without H1 gets the FAIL finding "No H1 tag found.",
    a document with more than one H1 gets the different FAIL finding
    "Multiple H1 tags found." next to the line of every single H1, and a
    document whose only H1 has between 1 and 70 characters gets a GOOD
    H1 line and neither of the two findings. *)
Theorem heading_h1_findings (parse : string -> Soup) (response : Response) :
  let h1s := find_all ["h1"] (soup_root (parse (text response))) in
  let out := output_of (print_heading_tags parse response) in
  no_h1_finding <> multiple_h1_finding
  /\ (h1s = [] -> In no_h1_finding out /\ ~ In multiple_h1_finding out)
  /\ ((1 < List.length h1s)%nat ->
      In multiple_h1_finding out
      /\ ~ In no_h1_finding out
      /\ forall tag, In tag h1s ->
           In (Finding (evaluate_field_length (get_text_strip tag) (1, 70)%Z)
                       "H1" (get_text_strip tag)) out)
  /\ (forall tag, h1s = [tag] ->
      (1 <= Py.len (get_text_strip tag) <= 70)%Z ->
      In (Finding GOOD "H1" (get_text_strip tag)) out
      /\ ~ In multiple_h1_finding out
      /\ ~ In no_h1_finding out).
Proof.
  intros h1s out.
  assert (Hout : out = heading_lines (soup_root (parse (text response)))).
  { apply (prints_output _ _ (print_heading_tags_prints parse response)). }
  rewrite Hout. clear Hout out.
  split; [discriminate |]. split; [| split].
  - intros E. split.
    + apply no_h1_finding_iff. exact E.
    + rewrite multiple_h1_finding_iff. fold h1s. rewrite E. simpl. lia.
  - intros Hlt. split; [| split].
    + apply multiple_h1_finding_iff. exact Hlt.
    + rewrite no_h1_finding_iff. fold h1s. intros E. rewrite E in Hlt.
      simpl in Hlt. lia.
    + intros tag Hin. apply h1_line_printed. exact Hin.
  - intros tag E Hlen. split; [| split].
    + assert (Hne : get_text_strip tag <> "").
      { intros E0. rewrite E0 in Hlen. unfold Py.len in Hlen. simpl in Hlen. lia. }
      pose proof (evaluate_field_length_nonempty _ 1%Z 70%Z Hne) as Hev.
      assert (Hb : ((1 <=? Py.len (get_text_strip tag))
                      && (Py.len (get_text_strip tag) <=? 70))%Z = true).
      { apply andb_true_iff. split; apply Z.leb_le; lia. }
      rewrite Hb in Hev. rewrite <- Hev.
      apply h1_line_printed. fold h1s. rewrite E. left. reflexivity.
    + rewrite multiple_h1_finding_iff. fold h1s. rewrite E. simpl. lia.
    + rewrite no_h1_finding_iff. fold h1s. rewrite E. discriminate.
Qed.

Lemma heading_h1_findings_witness :
  let out1 := output_of (print_heading_tags Demo.parse
                           (Demo.response "http://site.test/" 200 "one h1")) in
  let out2 := output_of (print_heading_tags Demo.parse
                           (Demo.response "http://site.test/" 200 "two h1")) in
  let out0 := output_of (print_heading_tags Demo.parse
                           (Demo.response "http://site.test/" 200 "no h1")) in
  (In (Finding GOOD "H1" "Welcome") out1 /\ ~ In multiple_h1_finding out1
   /\ ~ In no_h1_finding out1)
  /\ (In multiple_h1_finding out2 /\ ~ In no_h1_finding out2)
  /\ (In no_h1_finding out0 /\ ~ In multiple_h1_finding out0).
Proof.
  intros out1 out2 out0. split; [| split].
  - apply (proj2 (proj2 (proj2
      (heading_h1_findings Demo.parse (Demo.response "http://site.test/" 200 "one h1"))))
      (Demo.leaf "h1" [] "Welcome")).
    + reflexivity.
    + unfold Py.len. simpl. lia.
  - destruct (proj1 (proj2 (proj2
      (heading_h1_findings Demo.parse (Demo.response "http://site.test/" 200 "two h1")))))
      as [H1 [H2 _]].
    + simpl. lia.
    + split; assumption.
  - apply (proj1 (proj2
      (heading_h1_findings Demo.parse (Demo.response "http://site.test/" 200 "no h1")))).
    reflexivity.
Defined.

(** C10: when the only H1 of a document has empty text, the H1 line
    printed for it is a FAIL, it is the only H1 line, and neither the
    "Multiple H1 tags found." nor the "No H1 tag found." finding is
    printed. *)
Theorem empty_single_h1_fails (parse : string -> Soup) (response : Response)
        (tag : Tag) :
  find_all ["h1"] (soup_root (parse (text response))) = [tag] ->
  get_text_strip tag = "" ->
  let out := output_of (print_heading_tags parse response) in
  In (Finding FAIL "H1" "") out
  /\ (forall st content, In (Finding st "H1" content) out -> st = FAIL /\ content = "")
  /\ ~ In multiple_h1_finding out
  /\ ~ In no_h1_finding out.
Proof.
  intros E Hempty out.
  assert (Hout : out = heading_lines (soup_root (parse (text response)))).
  { apply (prints_output _ _ (print_heading_tags_prints parse response)). }
  rewrite Hout. clear Hout out.
  split; [| split; [| split]].
  - pose proof (h1_line_printed (soup_root (parse (text response))) tag) as H.
    rewrite E, Hempty in H. apply H. left. reflexivity.
  - intros st content Hin. apply h1_line_origin in Hin.
    destruct Hin as [tag' [Hin [Hst Hc]]]. rewrite E in Hin.
    destruct Hin as [<- | []]. rewrite Hempty in Hst, Hc. auto.
  - rewrite multiple_h1_finding_iff, E. simpl. lia.
  - rewrite no_h1_finding_iff, E. discriminate.
Qed.

Lemma empty_single_h1_fails_witness :
  let out := output_of (print_heading_tags Demo.parse
                          (Demo.response "http://site.test/" 200 "empty h1")) in
  In (Finding FAIL "H1" "") out
  /\ (forall st content, In (Finding st "H1" content) out -> st = FAIL /\ content = "")
  /\ ~ In multiple_h1_finding out
  /\ ~ In no_h1_finding out.
Proof.
  apply (empty_single_h1_fails Demo.parse
           (Demo.response "http://site.test/" 200 "empty h1")
           (Demo.leaf "h1" [] "")); reflexivity.
Defined.


(** ** The primary fetch *)

Section Fetch.

Variable net : list Request -> Request -> Response + Exn.
Variable str_kb : nat -> string.
Variable str_exn : Exn -> string.
Variable total_time : Response -> string.

Lemma fetch_url_content_run (u : string) (follow : bool) (w : World) :
  fetch_url_content net str_kb str_exn total_time u follow w =
    let w1 := mkWorld (stdout w ++ [Header "Performance"])
                      (sent w ++ [primary_request u follow]) in
    let failed e :=
      (Ret None,
       mkWorld (stdout w1 ++ [Finding FAIL "Error" ("Failed to fetch URL: " ++ str_exn e)])
               (sent w1)) in
    match net (sent w) (primary_request u follow) with
    | inl r =>
        if http_error_code (status_code r)
        then failed (HTTPError (status_code r))
        else
          (Ret (Some r),
           mkWorld (stdout w1
                      ++ [Finding GOOD "Initial response time"
                                  (elapsed_seconds r ++ " seconds");
                          Finding GOOD "Total load time" (total_time r ++ " seconds");
                          Finding GOOD "Page size" (str_kb (content_len r) ++ " KB")])
                   (sent w1))
    | inr e => if is_RequestException e then failed e else (Raise e, w1)
    end.
Proof.
  unfold fetch_url_content, section_header, color_print, try_except, bind, print,
    send, raise_for_status, http_error_code, primary_request, raise, ret.
  simpl.
  destruct (net (sent w) _) as [r | e]; simpl.
  - destruct ((400 <=? status_code r) && (status_code r <? 600))%Z; simpl.
    + reflexivity.
    + rewrite <- !app_assoc. reflexivity.
  - destruct (is_RequestException e); reflexivity.
Qed.

End Fetch.

(** C1, as the code has it: the primary fetch hands the response to the
    caller when its status code is outside 400..599; a response with a
    code in 400..599 is turned into a failure by [raise_for_status] and
    the caller gets [None], as it does after a failure of the transport
    that [requests] raises as a [RequestException].  (An exception of
    another class is not caught and leaves the function.) *)
Theorem fetch_url_content_outcome
        (net : list Request -> Request -> Response + Exn)
        (str_kb : nat -> string) (str_exn : Exn -> string)
        (total_time : Response -> string)
        (u : string) (follow : bool) (w : World) :
  fst (fetch_url_content net str_kb str_exn total_time u follow w) =
    match net (sent w) (primary_request u follow) with
    | inl r => if http_error_code (status_code r) then Ret None else Ret (Some r)
    | inr e => if is_RequestException e then Ret None else Raise e
    end.
Proof.
  rewrite fetch_url_content_run. simpl.
  destruct (net (sent w) _) as [r | e].
  - destruct (http_error_code (status_code r)); reflexivity.
  - destruct (is_RequestException e); reflexivity.
Qed.

(** C1 fails as stated: the server answers 404, a terminal status that
    is neither 2xx nor 3xx, and the caller gets [None], not the
    response. *)
Lemma fetch_404_is_a_failure :
  exists r,
    Demo.net [] (primary_request "http://site.test/missing" true) = inl r
    /\ status_code r = 404%Z
    /\ outcome_of (fetch_url_content Demo.net Demo.str_kb Demo.str_exn Demo.total_time
                     "http://site.test/missing" true) = Ret None
    /\ outcome_of (fetch_url_content Demo.net Demo.str_kb Demo.str_exn Demo.total_time
                     "http://site.test/missing" true) <> Ret (Some r).
Proof.
  eexists. split; [reflexivity |]. split; [reflexivity |].
  split; [reflexivity | discriminate].
Qed.

(** ** Computations that print, send and may raise *)

Lemma acts_of_prints (m : M unit) (ls : list Line) :
  prints m ls -> acts m (printing ls).
Proof. intros H w. rewrite H. simpl. rewrite app_nil_r. reflexivity. Qed.

Lemma acts_raise (e : Exn) : acts (raise e) (raising e).
Proof. intros [out rs]. unfold raise. simpl. rewrite !app_nil_r. reflexivity. Qed.

Lemma acts_seq (m k : M unit) (f g : list Request -> Effect) :
  acts m f -> acts k g ->
  acts (m ;; k) (fun before => then_effect (f before) g before).
Proof.
  intros Hm Hk w. unfold bind, then_effect. rewrite Hm.
  destruct (eff_exn (f (sent w))) as [e |] eqn:E; simpl.
  - rewrite E. reflexivity.
  - rewrite Hk. simpl. rewrite !app_assoc. reflexivity.
Qed.

Lemma acts_for_each {A} (body : A -> M unit) (f : A -> list Request -> Effect)
      (l : list A) :
  (forall x, acts (body x) (f x)) -> acts (for_each l body) (each_effect f l).
Proof.
  intros Hbody. induction l as [| x r IH]; simpl.
  - intros [out rs]. unfold ret. simpl. rewrite !app_nil_r. reflexivity.
  - apply (acts_seq _ _ (f x) (each_effect f r)); [apply Hbody | exact IH].
Qed.

Lemma acts_ext (m : M unit) (f g : list Request -> Effect) :
  acts m f -> (forall before, f before = g before) -> acts m g.
Proof. intros H Hfg w. rewrite H, Hfg. reflexivity. Qed.

Lemma acts_run (m : M unit) (f : list Request -> Effect) :
  acts m f ->
  output_of m = eff_lines (f [])
  /\ requests_of m = eff_reqs (f [])
  /\ outcome_of m = result_of (eff_exn (f [])).
Proof.
  intros H. unfold output_of, requests_of, outcome_of. rewrite H. auto.
Qed.

(** A request inside [try: ... except RequestException]. *)
Lemma acts_guarded (net : list Request -> Request -> Response + Exn)
      (r : Request) (k : Response -> M unit) (handler : Exn -> M unit)
      (line : Response + Exn -> Line) :
  (forall response, k response = print (line (inl response))) ->
  (forall e, handler e = print (line (inr e))) ->
  acts (try_except (bind (send net r) k) is_RequestException handler)
       (guarded_effect net r line).
Proof.
  intros Hk Hh w. unfold try_except, bind, send, guarded_effect.
  destruct (net (sent w) r) as [response | e]; simpl.
  - rewrite Hk. reflexivity.
  - destruct (is_RequestException e); simpl.
    + rewrite Hh. reflexivity.
    + rewrite app_nil_r. reflexivity.
Qed.

(** A loop that ends without exception has run every body to its end. *)
Lemma each_effect_done {A} (f : A -> list Request -> Effect) (l : list A)
      (before : list Request) :
  eff_exn (each_effect f l before) = None ->
  forall x, In x l -> exists earlier, eff_exn (f x earlier) = None.
Proof.
  revert before. induction l as [| y r IH]; intros before Hdone x Hin;
    [contradiction |].
  simpl in Hdone. unfold then_effect in Hdone.
  destruct (eff_exn (f y before)) as [e |] eqn:E; [congruence |].
  simpl in Hdone. destruct Hin as [<- | Hin].
  - exists before. exact E.
  - exact (IH _ Hdone x Hin).
Qed.

(** A loop of bodies that cannot raise does not raise. *)
Lemma each_effect_safe {A} (f : A -> list Request -> Effect) (l : list A)
      (before : list Request) :
  (forall x earlier, In x l -> eff_exn (f x earlier) = None) ->
  eff_exn (each_effect f l before) = None.
Proof.
  revert before. induction l as [| y r IH]; intros before Hsafe; [reflexivity |].
  simpl. unfold then_effect. rewrite (Hsafe y before (or_introl eq_refl)). simpl.
  apply IH. intros x earlier Hin. apply Hsafe. right. exact Hin.
Qed.

(** ** Images *)

Lemma flat_map_singleton {A B} (f : A -> B) (l : list A) :
  flat_map (fun x => [f x]) l = map f l.
Proof. induction l as [| x r IH]; simpl; congruence. Qed.

Lemma print_media_prints (media : Tag) : prints (print_media media) [media_line media].
Proof.
  intros w. unfold print_media, media_line.
  destruct (Py.truthy (tag_get_default media "src")); reflexivity.
Qed.

Lemma truthy_shorten (s : string) : Py.truthy (shorten s) = Py.truthy s.
Proof.
  unfold shorten. destruct (Py.len s <? 50)%Z eqn:E; [reflexivity |].
  apply Z.ltb_ge in E. destruct s as [| a r].
  - unfold Py.len in E. simpl in E. lia.
  - unfold Py.take. simpl.
    destruct (String.substring 0 49 r); reflexivity.
Qed.

Section Media.

Variable net : list Request -> Request -> Response + Exn.
Variable parse : string -> Soup.
Variable urljoin : string -> string -> option string.
Variable lower : string -> string.
Variable str_kb : nat -> string.
Variable str_exn : Exn -> string.

Lemma print_image_acts (base_url : string) (img : Tag) :
  acts (print_image net urljoin lower str_kb str_exn base_url img)
       (image_effect net urljoin lower str_kb str_exn base_url img).
Proof.
  unfold print_image, image_effect, is_inline.
  destruct (Py.startswith (tag_get_default img "src") "data:").
  - apply acts_of_prints. apply prints_print.
  - destruct (urljoin base_url (tag_get_default img "src")) as [absolute_url |].
    + apply acts_guarded; intros; reflexivity.
    + apply acts_raise.
Qed.

Lemma print_image_inline (base_url : string) (img : Tag) (w : World) :
  is_inline img = true ->
  print_image net urljoin lower str_kb str_exn base_url img w =
    (Ret tt, mkWorld (stdout w ++ [inline_image_finding]) (sent w)).
Proof.
  intros Hinl. rewrite (print_image_acts base_url img w).
  unfold image_effect. rewrite Hinl. simpl. rewrite app_nil_r. reflexivity.
Qed.

Lemma print_image_probed (base_url : string) (img : Tag) (absolute_url : string)
      (w : World) :
  is_inline img = false ->
  urljoin base_url (tag_get_default img "src") = Some absolute_url ->
  print_image net urljoin lower str_kb str_exn base_url img w =
    match net (sent w) (image_request absolute_url) with
    | inl img_response =>
        (Ret tt,
         mkWorld (stdout w ++ [image_line lower str_kb str_exn img (inl img_response)])
                 (sent w ++ [image_request absolute_url]))
    | inr e =>
        if is_RequestException e
        then (Ret tt,
              mkWorld (stdout w ++ [image_line lower str_kb str_exn img (inr e)])
                      (sent w ++ [image_request absolute_url]))
        else (Raise e, mkWorld (stdout w) (sent w ++ [image_request absolute_url]))
    end.
Proof.
  intros Hinl Hjoin. rewrite (print_image_acts base_url img w).
  unfold image_effect, guarded_effect. rewrite Hinl, Hjoin.
  destruct (net (sent w) (image_request absolute_url)) as [r | e]; [reflexivity |].
  destruct (is_RequestException e); simpl; [reflexivity |].
  rewrite app_nil_r. reflexivity.
Qed.

(** The three ways the body of the image loop can go. *)
Lemma image_effect_cases (base_url : string) (img : Tag) (before : list Request) :
  let effect := image_effect net urljoin lower str_kb str_exn base_url img before in
  (is_inline img = true /\ effect = mkEffect [inline_image_finding] [] None)
  \/ (is_inline img = false
      /\ urljoin base_url (tag_get_default img "src") = None
      /\ effect = mkEffect [] [] (Some ValueError))
  \/ (is_inline img = false
      /\ exists absolute_url lines exn,
           urljoin base_url (tag_get_default img "src") = Some absolute_url
           /\ effect = mkEffect lines [image_request absolute_url] exn).
Proof.
  unfold image_effect, guarded_effect, printing, raising.
  destruct (is_inline img); [left; auto |]. right.
  destruct (urljoin base_url (tag_get_default img "src")) as [u |]; [right | left; auto].
  split; [reflexivity |]. exists u.
  destruct (net before (image_request u)) as [resp | e];
    [| destruct (is_RequestException e)]; eexists; eexists; split; reflexivity.
Qed.

(** The image loop. *)
Lemma image_loop_requests (base_url : string) (imgs : list Tag)
      (before : list Request) (r : Request) :
  In r (eff_reqs (each_effect (image_effect net urljoin lower str_kb str_exn base_url)
                              imgs before)) ->
  exists img absolute_url,
    In img imgs /\ is_inline img = false
    /\ urljoin base_url (tag_get_default img "src") = Some absolute_url
    /\ r = image_request absolute_url.
Proof.
  revert before. induction imgs as [| img rest IH]; intros before Hin;
    [contradiction |].
  simpl in Hin. unfold then_effect in Hin.
  destruct (image_effect_cases base_url img before)
    as [[Hinl E] | [[Hinl [Hjoin E]] | [Hinl [u [lines [exn [Hjoin E]]]]]]];
    rewrite E in Hin; simpl in Hin.
  - destruct (IH _ Hin) as [img' [u [H0 H]]]. exists img', u. simpl. auto.
  - contradiction.
  - destruct exn as [e |]; simpl in Hin.
    + destruct Hin as [<- | []]. exists img, u. simpl. auto.
    + destruct Hin as [<- | Hin].
      * exists img, u. simpl. auto.
      * destruct (IH _ Hin) as [img' [u' [H0 H]]]. exists img', u'. simpl. auto.
Qed.

Lemma image_loop_done (base_url : string) (imgs : list Tag) (before : list Request) :
  let loop := each_effect (image_effect net urljoin lower str_kb str_exn base_url)
                          imgs before in
  eff_exn loop = None ->
  exists urls,
    map (fun img => urljoin base_url (tag_get_default img "src"))
        (filter (fun img => negb (is_inline img)) imgs) = map Some urls
    /\ eff_reqs loop = map image_request urls
    /\ (forall img, In img imgs -> is_inline img = true ->
                    In inline_image_finding (eff_lines loop)).
Proof.
  revert before. induction imgs as [| img rest IH]; intros before loop Hdone.
  - exists []. simpl. auto.
  - subst loop. simpl in Hdone |- *. unfold then_effect in Hdone |- *.
    destruct (image_effect_cases base_url img before)
      as [[Hinl E] | [[Hinl [Hjoin E]] | [Hinl [u [lines [exn [Hjoin E]]]]]]];
      rewrite E in Hdone |- *; rewrite Hinl; simpl in Hdone |- *.
    + destruct (IH _ Hdone) as [urls [Hmap [Hreq Hline]]].
      exists urls. split; [exact Hmap |]. split; [exact Hreq |].
      intros img' [<- | Hin] Hinl'; [left; reflexivity |].
      right. apply (Hline img'); assumption.
    + discriminate.
    + destruct exn as [e |]; simpl in Hdone |- *; [discriminate |].
      destruct (IH _ Hdone) as [urls [Hmap [Hreq Hline]]].
      exists (u :: urls). simpl. rewrite Hjoin, Hmap, Hreq.
      split; [reflexivity |]. split; [reflexivity |].
      intros img' [<- | Hin] Hinl'; [congruence |].
      apply in_or_app. right. apply (Hline img'); assumption.
Qed.

Lemma print_media_info_acts (response : Response) :
  let root := soup_root (parse (text response)) in
  acts (print_media_info net parse urljoin lower str_kb str_exn response)
       (fun before =>
          let loop :=
            each_effect (image_effect net urljoin lower str_kb str_exn (url response))
                        (find_all ["img"; "e-img"] root) before in
          mkEffect (Header "SEO Media Analysis"
                      :: map media_line (find_all ["video"; "audio"] root)
                      ++ eff_lines loop)
                   (eff_reqs loop) (eff_exn loop)).
Proof.
  intros root. unfold print_media_info. fold root.
  eapply acts_ext.
  - apply acts_seq; [apply acts_of_prints; apply prints_print |].
    apply acts_seq.
    + apply acts_of_prints.
      apply (prints_for_each _ (fun m => [media_line m])). apply print_media_prints.
    + apply (acts_for_each _
               (image_effect net urljoin lower str_kb str_exn (url response))).
      intros img. apply print_image_acts.
  - intros before. unfold then_effect, printing. simpl.
    rewrite !app_nil_r, flat_map_singleton. reflexivity.
Qed.

End Media.

(** C9: an image whose [src] starts with [data:] gets the line "Inline
    image detected, no further analysis" and no request.  Every request
    of the media analysis is the probe of an image that is not inline,
    and when the analysis runs to its end these probes are one for each
    such image, in document order, and every inline image has its line. *)
Theorem inline_images_not_probed
        (net : list Request -> Request -> Response + Exn)
        (parse : string -> Soup) (urljoin : string -> string -> option string)
        (lower : string -> string) (str_kb : nat -> string)
        (str_exn : Exn -> string) (response : Response) :
  let imgs := find_all ["img"; "e-img"] (soup_root (parse (text response))) in
  let run := print_media_info net parse urljoin lower str_kb str_exn response in
  (forall img w,
      is_inline img = true ->
      print_image net urljoin lower str_kb str_exn (url response) img w =
        (Ret tt, mkWorld (stdout w ++ [inline_image_finding]) (sent w)))
  /\ (forall r, In r (requests_of run) ->
        exists img absolute_url,
          In img imgs /\ is_inline img = false
          /\ urljoin (url response) (tag_get_default img "src") = Some absolute_url
          /\ r = image_request absolute_url)
  /\ (outcome_of run = Ret tt ->
      (exists urls,
          map (fun img => urljoin (url response) (tag_get_default img "src"))
              (filter (fun img => negb (is_inline img)) imgs) = map Some urls
          /\ requests_of run = map image_request urls)
      /\ (forall img, In img imgs -> is_inline img = true ->
                      In inline_image_finding (output_of run))).
Proof.
  intros imgs run.
  destruct (acts_run _ _
              (print_media_info_acts net parse urljoin lower str_kb str_exn response))
    as [Hout [Hreq Hres]].
  fold run in Hout, Hreq, Hres. cbv zeta in Hout, Hreq, Hres.
  simpl in Hout, Hreq, Hres. fold imgs in Hout, Hreq, Hres.
  split; [| split].
  - intros img w Hinl. apply print_image_inline. exact Hinl.
  - intros r Hin. rewrite Hreq in Hin.
    exact (image_loop_requests net urljoin lower str_kb str_exn (url response)
             imgs [] r Hin).
  - intros Hret. rewrite Hres in Hret.
    assert (Hdone : eff_exn (each_effect
                               (image_effect net urljoin lower str_kb str_exn
                                             (url response)) imgs []) = None).
    { destruct (eff_exn _); [discriminate | reflexivity]. }
    destruct (image_loop_done net urljoin lower str_kb str_exn (url response)
                imgs [] Hdone) as [urls [Hmap [Hreqs Hline]]].
    split.
    + exists urls. rewrite Hreq. auto.
    + intros img Hin Hinl. rewrite Hout. right. apply in_or_app. right.
      apply (Hline img); assumption.
Qed.

Lemma inline_images_not_probed_witness :
  let response := Demo.response "http://site.test/" 200 "media" in
  let run := print_media_info Demo.net Demo.parse Demo.urljoin Demo.lower
                              Demo.str_kb Demo.str_exn response in
  outcome_of run = Ret tt
  /\ requests_of run =
       [ image_request "http://site.test/logo.png";
         image_request "http://site.test/banner.png" ]
  /\ In inline_image_finding (output_of run).
Proof.
  intros response run.
  destruct (inline_images_not_probed Demo.net Demo.parse Demo.urljoin Demo.lower
              Demo.str_kb Demo.str_exn response) as [_ [_ Hdone]].
  split; [reflexivity |].
  destruct (Hdone eq_refl) as [[urls [Hmap Hreq]] Hline].
  split.
  - exact (eq_refl : requests_of run = _).
  - apply (Hline (Demo.leaf "img" [("alt", "dot"); ("src", "data:image/png;base64,AAAA")] "")).
    + simpl. auto.
    + reflexivity.
Defined.

(** C5, as the code has it: for an image that is not inline, the line
    is GOOD when the probe brought a response and the alt text is not
    empty, FAIL when the probe brought a response and the alt text is
    missing or empty, and FAIL whatever the alt text when the probe
    raised a request exception. *)
Theorem image_finding_status
        (net : list Request -> Request -> Response + Exn)
        (urljoin : string -> string -> option string)
        (lower : string -> string) (str_kb : nat -> string)
        (str_exn : Exn -> string) (base_url : string) (img : Tag)
        (absolute_url : string) (w : World) :
  is_inline img = false ->
  urljoin base_url (tag_get_default img "src") = Some absolute_url ->
  (forall e, net (sent w) (image_request absolute_url) = inr e ->
             is_RequestException e = true) ->
  exists content,
    print_image net urljoin lower str_kb str_exn base_url img w =
      (Ret tt,
       mkWorld
         (stdout w
            ++ [Finding (image_status img
                           (net (sent w) (image_request absolute_url)))
                        "Image" content])
         (sent w ++ [image_request absolute_url])).
Proof.
  intros Hinl Hjoin Hreq.
  rewrite (print_image_probed net urljoin lower str_kb str_exn base_url img
             absolute_url w Hinl Hjoin).
  unfold image_line, image_status.
  destruct (net (sent w) (image_request absolute_url)) as [r | e].
  - rewrite truthy_shorten. eexists. reflexivity.
  - rewrite (Hreq e eq_refl). eexists. reflexivity.
Qed.

Lemma image_finding_status_witness :
  exists content,
    output_of (print_image Demo.net Demo.urljoin Demo.lower Demo.str_kb Demo.str_exn
                 "http://site.test/"
                 (Demo.leaf "img" [("src", "/banner.png")] ""))
    = [Finding FAIL "Image" content].
Proof.
  destruct (image_finding_status Demo.net Demo.urljoin Demo.lower Demo.str_kb
              Demo.str_exn "http://site.test/"
              (Demo.leaf "img" [("src", "/banner.png")] "")
              "http://site.test/banner.png" empty_world)
    as [content H].
  - reflexivity.
  - reflexivity.
  - intros e H. discriminate.
  - exists content. unfold output_of. rewrite H. reflexivity.
Defined.

(** C5 fails as stated: the image has alt text and is not inline, its
    probe times out, and the line is a FAIL. *)
Lemma image_with_alt_fails_on_timeout :
  let img := Demo.leaf "img" [("alt", "Logo"); ("src", "/logo.png")] "" in
  is_inline img = false
  /\ Py.truthy (tag_get_default img "alt") = true
  /\ Demo.urljoin "http://site.test/" (tag_get_default img "src")
     = Some "http://site.test/logo.png"
  /\ Demo.net [] (image_request "http://site.test/logo.png") = inr (Transport TIMEOUT)
  /\ output_of (print_image Demo.net Demo.urljoin Demo.lower Demo.str_kb Demo.str_exn
                  "http://site.test/" img)
     = [Finding FAIL "Image" "logo.png, Error fetching image: timed out"].
Proof. repeat split. Qed.

(** ** Links *)

Lemma kept_href_ignored (href : string) : kept_href href = negb (ignored_href href).
Proof. reflexivity. Qed.

Section Links.

Variable net : list Request -> Request -> Response + Exn.
Variable parse : string -> Soup.
Variable urljoin : string -> string -> option string.
Variable urlparse : string -> option ParseResult.
Variable str_int : Z -> string.
Variable str_exn : Exn -> string.

Local Abbreviation link_step response location :=
  (fun lists link =>
     match lists with
     | Some built => classify_link urljoin urlparse response location built link
     | None => None
     end).

Lemma collect_links_stuck (response : Response) (location : string)
      (links : list Tag) :
  fold_left (link_step response location) links None = None.
Proof. induction links as [| link r IH]; simpl; auto. Qed.

Lemma collect_links_from (response : Response) (location : string)
      (links : list Tag) (internal0 external0 internal external : list string) :
  fold_left (link_step response location) links (Some (internal0, external0))
  = Some (internal, external) ->
  exists resolved,
    map (fun link => urljoin (url response) (href_of link))
        (filter (fun link => kept_href (href_of link)) links) = map Some resolved
    /\ internal = internal0 ++ filter (has_netloc urlparse location) resolved
    /\ external = external0
                    ++ filter (fun u => negb (has_netloc urlparse location u)) resolved.
Proof.
  revert internal0 external0.
  induction links as [| link r IH]; intros internal0 external0 H.
  - simpl in H. injection H as <- <-. exists []. simpl. rewrite !app_nil_r. auto.
  - cbn [fold_left] in H. unfold classify_link at 2 in H. fold (href_of link) in H.
    cbn [filter]. rewrite kept_href_ignored.
    destruct (ignored_href (href_of link)); cbn [negb].
    + apply IH. exact H.
    + destruct (urljoin (url response) (href_of link)) as [full_url |] eqn:Ejoin;
        [| rewrite collect_links_stuck in H; discriminate].
      destruct (urlparse full_url) as [parsed |] eqn:Eparse;
        [| rewrite collect_links_stuck in H; discriminate].
      assert (Hloc : has_netloc urlparse location full_url
                     = String.eqb (netloc parsed) location).
      { unfold has_netloc. rewrite Eparse. reflexivity. }
      destruct (String.eqb (netloc parsed) location) eqn:E;
        destruct (IH _ _ H) as [resolved [Hmap [Hi He]]];
        exists (full_url :: resolved); cbn [map filter];
        rewrite Ejoin, Hmap, Hloc; cbn [negb]; rewrite Hi, He, <- ?app_assoc;
        auto.
Qed.

Lemma collect_links_some (response : Response) (links : list Tag)
      (internal external : list string) :
  collect_links urljoin urlparse response links = Some (internal, external) ->
  exists location resolved,
    option_map netloc (urlparse (url response)) = Some location
    /\ map (fun link => urljoin (url response) (href_of link))
           (filter (fun link => kept_href (href_of link)) links) = map Some resolved
    /\ internal = filter (has_netloc urlparse location) resolved
    /\ external = filter (fun u => negb (has_netloc urlparse location u)) resolved.
Proof.
  unfold collect_links. destruct (urlparse (url response)) as [parsed |];
    [| discriminate].
  intros H. apply collect_links_from in H. destruct H as [resolved [Hmap [Hi He]]].
  exists (netloc parsed), resolved. simpl. auto.
Qed.

Lemma probe_link_acts (u : string) :
  acts (probe_link net str_int str_exn u) (link_effect net str_int str_exn u).
Proof.
  unfold probe_link, link_effect, requests_get, link_request.
  apply acts_guarded; intros; reflexivity.
Qed.

(** The two ways a probe can go. *)
Lemma link_effect_cases (u : string) (before : list Request) :
  let effect := link_effect net str_int str_exn u before in
  (exists st content,
      effect = mkEffect [Finding st "Link" content] [link_request u] None)
  \/ (exists e, effect = mkEffect [] [link_request u] (Some e)).
Proof.
  unfold link_effect, guarded_effect, link_line.
  destruct (net before (link_request u)) as [r | e];
    [| destruct (is_RequestException e)].
  - left. eexists. eexists. reflexivity.
  - left. eexists. eexists. reflexivity.
  - right. eexists. reflexivity.
Qed.

(** A probing loop: its requests are the probes of the first URLs of
    the list; when it ends without exception, they are the probes of all
    of them and every URL has its line. *)
Lemma link_loop_prefix (l : list string) (before : list Request) :
  exists n,
    eff_reqs (each_effect (link_effect net str_int str_exn) l before)
    = firstn n (map link_request l).
Proof.
  revert before. induction l as [| u r IH]; intros before.
  - exists 0%nat. reflexivity.
  - simpl. unfold then_effect.
    destruct (link_effect_cases u before) as [[st [content E]] | [e E]]; rewrite E;
      simpl.
    + destruct (IH (before ++ [link_request u])) as [n Hn].
      exists (S n). simpl. rewrite Hn. reflexivity.
    + exists 1%nat. reflexivity.
Qed.

Lemma link_loop_done (l : list string) (before : list Request) :
  let loop := each_effect (link_effect net str_int str_exn) l before in
  eff_exn loop = None ->
  eff_reqs loop = map link_request l
  /\ List.length (eff_lines loop) = List.length l
  /\ Forall (fun line => is_link_line line = true) (eff_lines loop).
Proof.
  revert before. induction l as [| u r IH]; intros before loop Hdone.
  - simpl. auto.
  - subst loop. simpl in Hdone |- *. unfold then_effect in Hdone |- *.
    destruct (link_effect_cases u before) as [[st [content E]] | [e E]];
      rewrite E in Hdone |- *; simpl in Hdone |- *; [| discriminate].
    destruct (IH _ Hdone) as [Hreq [Hlen Hall]].
    rewrite Hreq, Hlen. split; [reflexivity |]. split; [reflexivity |].
    constructor; [reflexivity | exact Hall].
Qed.

(** What the link analysis does once the lists are built. *)
Lemma print_links_info_acts (response : Response) :
  let links := find_all_with "a" "href" (soup_root (parse (text response))) in
  acts (print_links_info net parse urljoin urlparse str_int str_exn response)
       (fun before =>
          match collect_links urljoin urlparse response links with
          | None => mkEffect [Header "Link Analysis"] [] (Some ValueError)
          | Some (internal_links, external_links) =>
              then_effect
                (printing [Header "Link Analysis"; Finding SECTION "Internal links" ""]
                          before)
                (fun before1 =>
                   then_effect
                     (each_effect (link_effect net str_int str_exn) internal_links
                                  before1)
                     (fun before2 =>
                        then_effect
                          (printing [Finding SECTION "External links" ""] before2)
                          (each_effect (link_effect net str_int str_exn)
                                       external_links)
                          before2)
                     before1)
                before
          end).
Proof.
  intros links. unfold print_links_info. fold links.
  destruct (collect_links urljoin urlparse response links) as [[internal external] |].
  - eapply acts_ext.
    + apply acts_seq; [apply acts_of_prints; apply prints_print |].
      apply acts_seq; [apply acts_of_prints; apply prints_print |].
      apply acts_seq.
      * apply (acts_for_each _ (link_effect net str_int str_exn)).
        intros u. apply probe_link_acts.
      * apply acts_seq; [apply acts_of_prints; apply prints_print |].
        apply (acts_for_each _ (link_effect net str_int str_exn)).
        intros u. apply probe_link_acts.
    + intros before. unfold then_effect, printing. simpl.
      rewrite !app_nil_r. reflexivity.
  - eapply acts_ext.
    + apply acts_seq; [apply acts_of_prints; apply prints_print | apply acts_raise].
    + intros before. reflexivity.
Qed.

End Links.

Lemma firstn_of_app {A} (n : nat) (l1 l2 : list A) :
  exists m, firstn n l1 = firstn m (l1 ++ l2).
Proof.
  revert n. induction l1 as [| x r IH]; intros n.
  - exists 0%nat. destruct n; reflexivity.
  - destruct n as [| n]; [exists 0%nat; reflexivity |].
    destruct (IH n) as [m Hm]. exists (S m). simpl. rewrite Hm. reflexivity.
Qed.

Section LinkAnalysis.

Variable net : list Request -> Request -> Response + Exn.
Variable parse : string -> Soup.
Variable urljoin : string -> string -> option string.
Variable urlparse : string -> option ParseResult.
Variable str_int : Z -> string.
Variable str_exn : Exn -> string.

Local Abbreviation analysis response :=
  (print_links_info net parse urljoin urlparse str_int str_exn response).
Local Abbreviation anchors response :=
  (find_all_with "a" "href" (soup_root (parse (text response)))).

(** The requests of the link analysis are probes of the first collected
    URLs, the internal ones before the external ones. *)
Lemma links_run_prefix (response : Response) (internal external : list string) :
  collect_links urljoin urlparse response (anchors response)
  = Some (internal, external) ->
  exists n,
    requests_of (analysis response)
    = firstn n (map link_request (internal ++ external)).
Proof.
  intros Hcollect.
  destruct (acts_run _ _ (print_links_info_acts net parse urljoin urlparse str_int
                            str_exn response)) as [_ [Hreq _]].
  cbv zeta in Hreq. rewrite Hcollect in Hreq. rewrite Hreq.
  unfold then_effect, printing. simpl.
  destruct (link_loop_prefix net str_int str_exn internal []) as [n Hn].
  destruct (eff_exn (each_effect (link_effect net str_int str_exn) internal []))
    as [e |] eqn:Ei.
  - simpl. rewrite Hn, map_app. apply firstn_of_app.
  - simpl.
    destruct (link_loop_done net str_int str_exn internal [] Ei) as [Hi _].
    destruct (link_loop_prefix net str_int str_exn external
                (eff_reqs (each_effect (link_effect net str_int str_exn) internal [])
                   ++ [])) as [m Hm].
    rewrite Hm, Hi. exists (List.length (map link_request internal) + m)%nat.
    rewrite map_app, firstn_app_2. reflexivity.
Qed.

(** The link analysis that runs to its end. *)
Lemma links_run_done (response : Response) :
  outcome_of (analysis response) = Ret tt ->
  exists internal external lines_internal lines_external,
    collect_links urljoin urlparse response (anchors response)
    = Some (internal, external)
    /\ output_of (analysis response)
       = [Header "Link Analysis"; Finding SECTION "Internal links" ""]
           ++ lines_internal
           ++ [Finding SECTION "External links" ""]
           ++ lines_external
    /\ requests_of (analysis response) = map link_request (internal ++ external)
    /\ List.length lines_internal = List.length internal
    /\ List.length lines_external = List.length external
    /\ Forall (fun line => is_link_line line = true)
              (lines_internal ++ lines_external).
Proof.
  intros Hret.
  destruct (acts_run _ _ (print_links_info_acts net parse urljoin urlparse str_int
                            str_exn response)) as [Hout [Hreq Hres]].
  cbv zeta in Hout, Hreq, Hres. rewrite Hres in Hret.
  destruct (collect_links urljoin urlparse response (anchors response))
    as [[internal external] |]; [| discriminate].
  unfold then_effect, printing in Hout, Hreq, Hret. simpl in Hout, Hreq, Hret.
  destruct (eff_exn (each_effect (link_effect net str_int str_exn) internal []))
    as [e |] eqn:Ei; simpl in Hout, Hreq, Hret;
    [rewrite Ei in Hret; discriminate |].
  destruct (link_loop_done net str_int str_exn internal [] Ei) as [Hi [Hleni Halli]].
  set (before := eff_reqs (each_effect (link_effect net str_int str_exn) internal [])
                   ++ []) in *.
  assert (Ee : eff_exn (each_effect (link_effect net str_int str_exn) external before)
               = None).
  { destruct (eff_exn (each_effect (link_effect net str_int str_exn) external before))
      eqn:E; [discriminate | reflexivity]. }
  destruct (link_loop_done net str_int str_exn external before Ee)
    as [He [Hlene Halle]].
  exists internal, external,
    (eff_lines (each_effect (link_effect net str_int str_exn) internal [])),
    (eff_lines (each_effect (link_effect net str_int str_exn) external before)).
  split; [reflexivity |]. split; [exact Hout |].
  split; [rewrite Hreq, He, Hi, map_app; reflexivity |].
  split; [exact Hleni |]. split; [exact Hlene |].
  apply Forall_app. split; assumption.
Qed.

End LinkAnalysis.

(** C7 fails as stated: the anchor names the host of the page with its
    port.  Its host equals the host of the final URL, but its network
    location differs, and the link is classified and probed as external. *)
Lemma same_host_link_is_external :
  let response := Demo.response "http://site.test/" 200 "port link" in
  let run := print_links_info Demo.net Demo.parse Demo.urljoin Demo.urlparse
                              Demo.str_int Demo.str_exn response in
  host_of Demo.urlparse "http://site.test:80/x" = Some "site.test"
  /\ host_of Demo.urlparse (url response) = Some "site.test"
  /\ collect_links Demo.urljoin Demo.urlparse response
                   (find_all_with "a" "href" (soup_root (Demo.parse (text response))))
     = Some ([], ["http://site.test:80/x"])
  /\ output_of run
     = [ Header "Link Analysis";
         Finding SECTION "Internal links" "";
         Finding SECTION "External links" "";
         Finding GOOD "Link" "Status: #, URL: http://site.test:80/x" ].
Proof. repeat split. Qed.

(** C7, as the code has it: the link lists hold the anchors whose [href]
    starts with none of [tel:], [mailto:] and [javascript:], each
    resolved against the final URL of the page, in document order.  A
    resolved URL is internal exactly when its network location
    ([urlparse(...).netloc]: user info, host and port as the URL writes
    them) equals that of the final URL, and external otherwise.  The
    analysis that runs to its end lists and probes the internal links
    under "Internal links" and the external ones under "External links". *)
Theorem link_classification_by_netloc
        (net : list Request -> Request -> Response + Exn)
        (parse : string -> Soup) (urljoin : string -> string -> option string)
        (urlparse : string -> option ParseResult)
        (str_int : Z -> string) (str_exn : Exn -> string) (response : Response) :
  let anchors := find_all_with "a" "href" (soup_root (parse (text response))) in
  let kept :=
    filter (fun link =>
              negb (Py.startswith (href_of link) "tel:"
                    || Py.startswith (href_of link) "mailto:"
                    || Py.startswith (href_of link) "javascript:"))
           anchors in
  let run := print_links_info net parse urljoin urlparse str_int str_exn response in
  outcome_of run = Ret tt ->
  exists location resolved lines_internal lines_external,
    option_map netloc (urlparse (url response)) = Some location
    /\ map (fun link => urljoin (url response) (href_of link)) kept
       = map Some resolved
    /\ let internal := filter (has_netloc urlparse location) resolved in
       let external :=
         filter (fun u => negb (has_netloc urlparse location u)) resolved in
       collect_links urljoin urlparse response anchors = Some (internal, external)
       /\ output_of run
          = [Header "Link Analysis"; Finding SECTION "Internal links" ""]
              ++ lines_internal
              ++ [Finding SECTION "External links" ""]
              ++ lines_external
       /\ requests_of run = map link_request (internal ++ external)
       /\ List.length lines_internal = List.length internal
       /\ List.length lines_external = List.length external
       /\ Forall (fun line => is_link_line line = true)
                 (lines_internal ++ lines_external).
Proof.
  intros anchors kept run Hret.
  destruct (links_run_done net parse urljoin urlparse str_int str_exn response Hret)
    as [internal [external [li [le [Hcollect [Hout [Hreq [Hli [Hle Hall]]]]]]]]].
  destruct (collect_links_some urljoin urlparse response anchors internal external
              Hcollect) as [location [resolved [Hloc [Hmap [Hi He]]]]].
  exists location, resolved, li, le.
  split; [exact Hloc |]. split; [exact Hmap |].
  cbv zeta. rewrite <- Hi, <- He. auto 10.
Qed.

Lemma link_classification_by_netloc_witness :
  let response := Demo.response "http://site.test/" 200 "links" in
  let run := print_links_info Demo.net Demo.parse Demo.urljoin Demo.urlparse
                              Demo.str_int Demo.str_exn response in
  exists location resolved,
    option_map netloc (Demo.urlparse (url response)) = Some location
    /\ requests_of run
       = map link_request
             (filter (has_netloc Demo.urlparse location) resolved
                ++ filter (fun u => negb (has_netloc Demo.urlparse location u))
                          resolved).
Proof.
  intros response run.
  destruct (link_classification_by_netloc Demo.net Demo.parse Demo.urljoin
              Demo.urlparse Demo.str_int Demo.str_exn response eq_refl)
    as [location [resolved [li [le [Hloc [_ H]]]]]].
  cbv zeta in H. destruct H as [_ [_ [Hreq _]]].
  exists location, resolved. split; [exact Hloc | exact Hreq].
Defined.

(** C2, as the code has it: nothing is remembered between probes.  The
    link analysis probes the collected anchors one after the other, the
    internal ones first, with one GET for each, so that a URL named by
    two anchors is probed again; when the analysis runs to its end, every
    collected anchor has been probed once and has one "Link" line. *)
Theorem link_probes_one_per_anchor
        (net : list Request -> Request -> Response + Exn)
        (parse : string -> Soup) (urljoin : string -> string -> option string)
        (urlparse : string -> option ParseResult) (str_int : Z -> string)
        (str_exn : Exn -> string) (response : Response) :
  let links := find_all_with "a" "href" (soup_root (parse (text response))) in
  let run := print_links_info net parse urljoin urlparse str_int str_exn response in
  (forall internal external,
      collect_links urljoin urlparse response links = Some (internal, external) ->
      exists n, requests_of run = firstn n (map link_request (internal ++ external)))
  /\ (outcome_of run = Ret tt ->
      exists internal external,
        collect_links urljoin urlparse response links = Some (internal, external)
        /\ requests_of run = map link_request (internal ++ external)
        /\ List.length (filter is_link_line (output_of run))
           = List.length (internal ++ external)
        /\ List.length (requests_of run)
           = List.length (filter (fun link => negb (ignored_href (href_of link)))
                                 links)).
Proof.
  intros links run. split.
  - intros internal external Hcollect.
    exact (links_run_prefix net parse urljoin urlparse str_int str_exn response
             internal external Hcollect).
  - intros Hret.
    destruct (links_run_done net parse urljoin urlparse str_int str_exn response Hret)
      as [internal [external [li [le [Hcollect [Hout [Hreq [Hli [Hle Hall]]]]]]]]].
    exists internal, external. fold links in Hcollect. fold run in Hout, Hreq.
    split; [exact Hcollect |]. split; [exact Hreq |]. split.
    + rewrite Hout. cbn [app filter is_link_line String.eqb Ascii.eqb Bool.eqb].
      apply Forall_app in Hall. destruct Hall as [Halli Halle].
      assert (Hkeep : forall l, Forall (fun line => is_link_line line = true) l ->
                                filter is_link_line l = l).
      { induction l as [| x r IH]; intros H; [reflexivity |].
        inversion H as [| x' r' Hx Hr]; subst. simpl. rewrite Hx, (IH Hr).
        reflexivity. }
      rewrite filter_app. cbn [filter is_link_line String.eqb Ascii.eqb Bool.eqb].
      rewrite (Hkeep li Halli), (Hkeep le Halle), !length_app. lia.
    + rewrite Hreq, length_map.
      destruct (collect_links_some urljoin urlparse response links internal external
                  Hcollect) as [location [resolved [_ [Hmap [Hi He]]]]].
      rewrite length_app, Hi, He.
      assert (Hsplit : forall f (l : list string),
                 (List.length (filter f l)
                  + List.length (filter (fun u => negb (f u)) l))%nat
                 = List.length l).
      { intros f l. induction l as [| x r IH]; simpl; [reflexivity |].
        destruct (f x); simpl; lia. }
      rewrite Hsplit.
      apply (f_equal (@List.length _)) in Hmap. rewrite !length_map in Hmap.
      rewrite <- Hmap. reflexivity.
Qed.

Lemma link_probes_one_per_anchor_witness :
  let run := print_links_info Demo.net Demo.parse Demo.urljoin Demo.urlparse
                              Demo.str_int Demo.str_exn
                              (Demo.response "http://site.test/" 200 "links") in
  List.length (requests_of run) = 4%nat
  /\ List.length (filter is_link_line (output_of run)) = 4%nat.
Proof.
  intros run.
  destruct (link_probes_one_per_anchor Demo.net Demo.parse Demo.urljoin Demo.urlparse
              Demo.str_int Demo.str_exn
              (Demo.response "http://site.test/" 200 "links")) as [_ Hdone].
  destruct (Hdone eq_refl) as [internal [external [Hcollect [Hreq [Hlines Hcount]]]]].
  fold run in Hreq, Hlines, Hcount.
  injection Hcollect as <- <-.
  split; [exact Hcount | exact Hlines].
Defined.

(** C2 fails as stated: on the page of scenario C the duplicate anchor
    is probed again, which makes four probes, one more than the three
    distinct URLs, and the second probe of [/a] is a request of its own. *)
Lemma duplicate_link_probed_twice :
  let run := print_links_info Demo.net Demo.parse Demo.urljoin Demo.urlparse
                              Demo.str_int Demo.str_exn
                              (Demo.response "http://site.test/" 200 "links") in
  requests_of run =
    [ link_request "http://site.test/a"; link_request "http://site.test/b";
      link_request "http://site.test/a"; link_request "http://other.test/" ]
  /\ ~ (List.length (requests_of run) <= 3)%nat.
Proof.
  split; [reflexivity |]. vm_compute. lia.
Qed.

(** ** The run of the script *)

Section Main.

Variable net : list Request -> Request -> Response + Exn.
Variable parse : string -> Soup.
Variable urljoin : string -> string -> option string.
Variable urlparse : string -> option ParseResult.
Variable detect : string -> string + string.
Variable stopwords_words : string -> list string + string.
Variable findall_words : string -> list string.
Variable lower : string -> string.
Variable str_int : Z -> string.
Variable str_kb : nat -> string.
Variable str_exn : Exn -> string.
Variable total_time : Response -> string.

Local Abbreviation script :=
  (main net parse urljoin urlparse detect stopwords_words findall_words lower
        str_int str_kb str_exn total_time).

(** After a primary fetch that gave [None], the run without the server
    check prints the fetch error and the "Fetch" line, and returns. *)
Lemma main_after_failed_fetch (args : Args) :
  arg_server args || arg_all args = false ->
  outcome_of (fetch_url_content net str_kb str_exn total_time
                (arg_url args) (arg_follow args)) = Ret None ->
  outcome_of (script args) = Ret tt
  /\ requests_of (script args) = [primary_request (arg_url args) (arg_follow args)]
  /\ exists e,
       output_of (script args)
       = [ Header "Performance";
           Finding FAIL "Error" ("Failed to fetch URL: " ++ str_exn e);
           Finding FAIL "Fetch" "Failed to retrieve the URL." ].
Proof.
  intros Hserver Hfetch.
  assert (Hall : arg_all args = false).
  { apply orb_false_iff in Hserver. tauto. }
  assert (Hrun : exists e,
             script args empty_world
             = (Ret tt,
                mkWorld [ Header "Performance";
                          Finding FAIL "Error" ("Failed to fetch URL: " ++ str_exn e);
                          Finding FAIL "Fetch" "Failed to retrieve the URL." ]
                        [primary_request (arg_url args) (arg_follow args)])).
  { unfold outcome_of in Hfetch. unfold main.
    rewrite Hserver, Hall, orb_false_r. simpl when.
    unfold bind at 1. unfold ret at 1. unfold bind at 1.
    rewrite fetch_url_content_run in Hfetch |- *. simpl in Hfetch |- *.
    destruct (net [] _) as [r | e].
    - destruct (http_error_code (status_code r)); [| discriminate].
      exists (HTTPError (status_code r)). reflexivity.
    - destruct (is_RequestException e); [| discriminate].
      exists e. reflexivity. }
  destruct Hrun as [e Hrun].
  unfold outcome_of, requests_of, output_of. rewrite Hrun.
  split; [reflexivity |]. split; [reflexivity |]. exists e. reflexivity.
Qed.

End Main.

(** A probe that fails with a request exception prints its FAIL line
    and returns. *)
Lemma probe_link_failure
      (net : list Request -> Request -> Response + Exn)
      (str_int : Z -> string) (str_exn : Exn -> string)
      (u : string) (w : World) (e : Exn) :
  net (sent w) (link_request u) = inr e ->
  is_RequestException e = true ->
  probe_link net str_int str_exn u w =
    (Ret tt,
     mkWorld (stdout w
                ++ [Finding FAIL "Link"
                            ("Error fetching URL: " ++ u ++ " - " ++ str_exn e)])
             (sent w ++ [link_request u])).
Proof.
  intros Hnet Hcaught. rewrite (probe_link_acts net str_int str_exn u w).
  unfold link_effect, guarded_effect. rewrite Hnet, Hcaught. reflexivity.
Qed.

Lemma print_image_failure
      (net : list Request -> Request -> Response + Exn)
      (urljoin : string -> string -> option string) (lower : string -> string)
      (str_kb : nat -> string) (str_exn : Exn -> string)
      (base_url : string) (img : Tag) (absolute_url : string) (w : World) (e : Exn) :
  is_inline img = false ->
  urljoin base_url (tag_get_default img "src") = Some absolute_url ->
  net (sent w) (image_request absolute_url) = inr e ->
  is_RequestException e = true ->
  print_image net urljoin lower str_kb str_exn base_url img w =
    (Ret tt,
     mkWorld (stdout w
                ++ [Finding FAIL "Image"
                            (image_name (tag_get_default img "src")
                               ++ ", Error fetching image: " ++ str_exn e)])
             (sent w ++ [image_request absolute_url])).
Proof.
  intros Hinl Hjoin Hnet Hcaught.
  rewrite (print_image_probed net urljoin lower str_kb str_exn base_url img
             absolute_url w Hinl Hjoin).
  rewrite Hnet, Hcaught. reflexivity.
Qed.

(** C4, as the code has it: the script never sets an exit status, and
    a failed primary fetch is not signalled by one.  In a run without
    the server check, when the primary fetch fails (the caller gets
    [None]) the run prints the fetch error and "Failed to retrieve the
    URL.", sends nothing more, returns, and the process exits with
    status 0.  A link or image probe that fails with a request exception
    is reported by a FAIL line where it occurs, and the analysis goes
    on. *)
Theorem exit_status_without_server_check
        (net : list Request -> Request -> Response + Exn)
        (parse : string -> Soup) (urljoin : string -> string -> option string)
        (urlparse : string -> option ParseResult)
        (detect : string -> string + string)
        (stopwords_words : string -> list string + string)
        (findall_words : string -> list string) (lower : string -> string)
        (str_int : Z -> string) (str_kb : nat -> string)
        (str_exn : Exn -> string) (total_time : Response -> string)
        (args : Args) :
  arg_server args || arg_all args = false ->
  (outcome_of (fetch_url_content net str_kb str_exn total_time
                 (arg_url args) (arg_follow args)) = Ret None ->
   exit_status net parse urljoin urlparse detect stopwords_words findall_words
               lower str_int str_kb str_exn total_time args = 0%Z
   /\ requests_of (main net parse urljoin urlparse detect stopwords_words
                        findall_words lower str_int str_kb str_exn total_time args)
      = [primary_request (arg_url args) (arg_follow args)]
   /\ exists e,
        output_of (main net parse urljoin urlparse detect stopwords_words
                        findall_words lower str_int str_kb str_exn total_time args)
        = [ Header "Performance";
            Finding FAIL "Error" ("Failed to fetch URL: " ++ str_exn e);
            Finding FAIL "Fetch" "Failed to retrieve the URL." ])
  /\ (forall u w e,
        net (sent w) (link_request u) = inr e ->
        is_RequestException e = true ->
        exists content,
          probe_link net str_int str_exn u w =
            (Ret tt,
             mkWorld (stdout w ++ [Finding FAIL "Link" content])
                     (sent w ++ [link_request u])))
  /\ (forall base_url img absolute_url w e,
        is_inline img = false ->
        urljoin base_url (tag_get_default img "src") = Some absolute_url ->
        net (sent w) (image_request absolute_url) = inr e ->
        is_RequestException e = true ->
        exists content,
          print_image net urljoin lower str_kb str_exn base_url img w =
            (Ret tt,
             mkWorld (stdout w ++ [Finding FAIL "Image" content])
                     (sent w ++ [image_request absolute_url]))).
Proof.
  intros Hserver. split; [| split].
  - intros Hfetch.
    destruct (main_after_failed_fetch net parse urljoin urlparse detect
                stopwords_words findall_words lower str_int str_kb str_exn
                total_time args Hserver Hfetch) as [Hret [Hreq Hout]].
    unfold exit_status. rewrite Hret. auto.
  - intros u w e Hnet Hcaught. eexists.
    apply (probe_link_failure net str_int str_exn u w e Hnet Hcaught).
  - intros base_url img absolute_url w e Hinl Hjoin Hnet Hcaught. eexists.
    apply (print_image_failure net urljoin lower str_kb str_exn base_url img
             absolute_url w e Hinl Hjoin Hnet Hcaught).
Qed.

Lemma exit_status_without_server_check_witness :
  let args := Demo.plain_args "http://down.test/" in
  arg_server args || arg_all args = false
  /\ outcome_of (fetch_url_content Demo.net Demo.str_kb Demo.str_exn Demo.total_time
                   (arg_url args) (arg_follow args)) = Ret None
  /\ exit_status Demo.net Demo.parse Demo.urljoin Demo.urlparse Demo.detect
                 Demo.stopwords_words Demo.findall_words Demo.lower Demo.str_int
                 Demo.str_kb Demo.str_exn Demo.total_time args = 0%Z
  /\ exists e,
       output_of (main Demo.net Demo.parse Demo.urljoin Demo.urlparse
                       Demo.detect Demo.stopwords_words Demo.findall_words Demo.lower
                       Demo.str_int Demo.str_kb Demo.str_exn Demo.total_time args)
       = [ Header "Performance";
           Finding FAIL "Error" ("Failed to fetch URL: " ++ Demo.str_exn e);
           Finding FAIL "Fetch" "Failed to retrieve the URL." ].
Proof.
  intros args. split; [reflexivity |]. split; [reflexivity |].
  destruct (exit_status_without_server_check Demo.net Demo.parse Demo.urljoin
              Demo.urlparse Demo.detect Demo.stopwords_words
              Demo.findall_words Demo.lower Demo.str_int Demo.str_kb Demo.str_exn
              Demo.total_time args eq_refl) as [Hfailed _].
  destruct (Hfailed eq_refl) as [Hexit [_ Hout]].
  split; [exact Hexit | exact Hout].
Defined.

(** C4 fails as stated: the primary fetch times out, and the process
    exits with status 0. *)
Lemma failed_fetch_exits_with_success :
  Demo.net [] (primary_request "http://down.test/" false) = inr (Transport TIMEOUT)
  /\ outcome_of (fetch_url_content Demo.net Demo.str_kb Demo.str_exn Demo.total_time
                   "http://down.test/" false) = Ret None
  /\ exit_status Demo.net Demo.parse Demo.urljoin Demo.urlparse Demo.detect
                 Demo.stopwords_words Demo.findall_words Demo.lower Demo.str_int
                 Demo.str_kb Demo.str_exn Demo.total_time
                 (Demo.plain_args "http://down.test/") = 0%Z
  /\ exit_status Demo.net Demo.parse Demo.urljoin Demo.urlparse Demo.detect
                 Demo.stopwords_words Demo.findall_words Demo.lower Demo.str_int
                 Demo.str_kb Demo.str_exn Demo.total_time
                 (Demo.plain_args "http://down.test/") <> 1%Z.
Proof. repeat split. discriminate. Qed.

(** With the server check, the request of the certificate step is only
    guarded against [SSLError]: a timeout of the host escapes from
    [main] before the primary fetch is tried. *)
Remark server_check_lets_timeout_escape :
  outcome_of (main Demo.net Demo.parse Demo.urljoin Demo.urlparse Demo.detect
                   Demo.stopwords_words Demo.findall_words Demo.lower Demo.str_int
                   Demo.str_kb Demo.str_exn Demo.total_time
                   (mkArgs "http://down.test/" false false false true false false
                           false false))
  = Raise (Transport TIMEOUT).
Proof. reflexivity. Qed.

(** A URL that [requests] refuses before any transport: the exception
    is no [RequestException], the primary fetch does not catch it, and
    the run ends with it. *)
Remark unparsable_url_escapes_the_fetch :
  outcome_of (main Demo.net Demo.parse Demo.urljoin Demo.urlparse Demo.detect
                   Demo.stopwords_words Demo.findall_words Demo.lower Demo.str_int
                   Demo.str_kb Demo.str_exn Demo.total_time
                   (Demo.plain_args "http://a..b/"))
  = Raise ValueError
  /\ exit_status Demo.net Demo.parse Demo.urljoin Demo.urlparse Demo.detect
                 Demo.stopwords_words Demo.findall_words Demo.lower Demo.str_int
                 Demo.str_kb Demo.str_exn Demo.total_time
                 (Demo.plain_args "http://a..b/") = 1%Z.
Proof. split; reflexivity. Qed.

(** ** Sorting by descending key, stably *)

Section StableSort.

Context {A : Type}.
Variable key : A -> Z.

Lemma insert_desc_In (x z : A) (l : list A) :
  In z (insert_desc key x l) <-> z = x \/ In z l.
Proof.
  induction l as [| y r IH]; simpl.
  - split; intros [H | H]; auto.
  - destruct (key x <? key y)%Z; simpl; [rewrite IH |]; intuition (subst; auto).
Qed.

Lemma insert_desc_perm (x : A) (l : list A) :
  Permutation (insert_desc key x l) (x :: l).
Proof.
  induction l as [| y r IH]; simpl; [reflexivity |].
  destruct (key x <? key y)%Z; [| reflexivity].
  rewrite IH. apply perm_swap.
Qed.

Lemma sorted_desc_perm (l : list A) : Permutation (sorted_desc key l) l.
Proof.
  induction l as [| x r IH]; simpl; [reflexivity |].
  rewrite insert_desc_perm. apply perm_skip. exact IH.
Qed.

Lemma sorted_desc_In (z : A) (l : list A) : In z (sorted_desc key l) <-> In z l.
Proof.
  split; apply Permutation_in;
    [apply sorted_desc_perm | symmetry; apply sorted_desc_perm].
Qed.

Variable B : A -> A -> Prop.

Lemma insert_desc_sorted (x : A) (l : list A) :
  StronglySorted (stable_desc key B) l ->
  Forall (B x) l ->
  StronglySorted (stable_desc key B) (insert_desc key x l).
Proof.
  induction l as [| y r IH]; intros Hs Hb; simpl.
  - constructor; constructor.
  - inversion Hs as [| y' r' Hsr Hy]; subst.
    inversion Hb as [| y' r' Hxy Hxr]; subst.
    destruct (key x <? key y)%Z eqn:E.
    + apply Z.ltb_lt in E. constructor; [apply IH; assumption |].
      apply Forall_forall. intros z Hz. apply (proj1 (insert_desc_In x z r)) in Hz.
      destruct Hz as [-> | Hz].
      * left. exact E.
      * rewrite Forall_forall in Hy. apply Hy. exact Hz.
    + apply Z.ltb_ge in E. constructor; [exact Hs |].
      apply Forall_forall. intros z Hz.
      assert (Hkz : (key z <= key y)%Z).
      { destruct Hz as [<- | Hz]; [lia |].
        rewrite Forall_forall in Hy. destruct (Hy z Hz) as [H | [H _]]; lia. }
      assert (Hbz : B x z).
      { destruct Hz as [<- | Hz]; [exact Hxy |].
        rewrite Forall_forall in Hxr. apply Hxr. exact Hz. }
      unfold stable_desc.
      destruct (Z.eq_dec (key x) (key z)) as [Heq | Hne]; [right; auto | left; lia].
Qed.

Lemma sorted_desc_sorted (l : list A) :
  StronglySorted B l -> StronglySorted (stable_desc key B) (sorted_desc key l).
Proof.
  induction l as [| x r IH]; intros Hs; simpl.
  - constructor.
  - inversion Hs as [| x' r' Hsr Hx]; subst.
    apply insert_desc_sorted; [apply IH; exact Hsr |].
    apply Forall_forall. intros z Hz. apply (proj1 (sorted_desc_In z r)) in Hz.
    rewrite Forall_forall in Hx. apply Hx. exact Hz.
Qed.

End StableSort.

(** Two lists with the same elements, both strictly sorted for an
    order that no two elements satisfy both ways, are equal. *)
Lemma sorted_unique {A} (R : A -> A -> Prop) (l1 l2 : list A) :
  (forall a b, R a b -> R b a -> False) ->
  StronglySorted R l1 -> StronglySorted R l2 ->
  (forall x, In x l1 <-> In x l2) ->
  l1 = l2.
Proof.
  intros Hasym. revert l2.
  induction l1 as [| a r1 IH]; intros l2 H1 H2 Hmem.
  - destruct l2 as [| b r2]; [reflexivity |].
    exfalso. apply (Hmem b). left. reflexivity.
  - destruct l2 as [| b r2].
    + exfalso. apply (Hmem a). left. reflexivity.
    + inversion H1 as [| a' r' Hs1 Ha]; subst.
      inversion H2 as [| b' r' Hs2 Hb]; subst.
      rewrite Forall_forall in Ha, Hb.
      assert (Hab : a = b).
      { destruct (proj1 (Hmem a) (or_introl eq_refl)) as [Hba | Hin2]; [auto |].
        destruct (proj2 (Hmem b) (or_introl eq_refl)) as [Hab | Hin1]; [auto |].
        exfalso. apply (Hasym a b); [apply Ha | apply Hb]; assumption. }
      subst b. f_equal. apply IH; [assumption | assumption |].
      intros x. split; intros Hx.
      * destruct (proj1 (Hmem x) (or_intror Hx)) as [<- | H]; [| exact H].
        exfalso. apply (Hasym a a); apply Ha; exact Hx.
      * destruct (proj2 (Hmem x) (or_intror Hx)) as [<- | H]; [| exact H].
        exfalso. apply (Hasym a a); apply Hb; exact Hx.
Qed.

Lemma sorted_app_order {A} (R : A -> A -> Prop) (l1 l2 : list A) (a b : A) :
  StronglySorted R (l1 ++ l2) -> In a l1 -> In b l2 -> R a b.
Proof.
  induction l1 as [| x r IH]; intros Hs Ha Hb; [contradiction |].
  simpl in Hs. inversion Hs as [| x' r' Hsr Hx]; subst.
  destruct Ha as [-> | Ha].
  - rewrite Forall_forall in Hx. apply Hx. apply in_or_app. right. exact Hb.
  - apply IH; assumption.
Qed.

(** ** Sorted lists *)

Lemma sorted_agree {A} (R R' : A -> A -> Prop) (l : list A) :
  (forall a b, In a l -> In b l -> R a b -> R' a b) ->
  StronglySorted R l -> StronglySorted R' l.
Proof.
  intros Himp Hs. induction Hs as [| a l Hs IH Ha].
  - constructor.
  - constructor.
    + apply IH. intros x y Hx Hy. apply Himp; right; assumption.
    + rewrite Forall_forall in Ha |- *. intros x Hx.
      apply Himp; [left; reflexivity | right; exact Hx | apply Ha; exact Hx].
Qed.

Lemma sorted_snoc {A} (R : A -> A -> Prop) (l : list A) (x : A) :
  StronglySorted R l -> Forall (fun a => R a x) l -> StronglySorted R (l ++ [x]).
Proof.
  intros Hs Hx. induction Hs as [| a l Hs IH Ha]; simpl.
  - constructor; constructor.
  - inversion Hx as [| a' l' Hax Hlx]; subst. constructor.
    + apply IH. exact Hlx.
    + apply Forall_app. split; [exact Ha | constructor; [exact Hax | constructor]].
Qed.

Lemma sorted_of_map {A B} (f : A -> B) (R : B -> B -> Prop) (l : list A) :
  StronglySorted R (map f l) -> StronglySorted (fun a b => R (f a) (f b)) l.
Proof.
  induction l as [| a r IH]; simpl; intros Hs.
  - constructor.
  - inversion Hs as [| a' r' Hsr Ha]; subst. constructor.
    + apply IH. exact Hsr.
    + rewrite Forall_forall in Ha |- *. intros x Hx. apply Ha.
      apply in_map. exact Hx.
Qed.

(** ** The word dictionary *)

Lemma dict_get_None (d : list (string * Z)) (k : string) :
  Py.dict_get d k = None <-> ~ In k (map fst d).
Proof.
  induction d as [| [k' v'] r IH]; simpl.
  - tauto.
  - destruct (String.eqb k' k) eqn:E.
    + apply String.eqb_eq in E. split; [discriminate | intros H; exfalso; auto].
    + apply String.eqb_neq in E. rewrite IH. tauto.
Qed.

Lemma dict_get_Some (d : list (string * Z)) (k : string) (v : Z) :
  NoDup (map fst d) -> (Py.dict_get d k = Some v <-> In (k, v) d).
Proof.
  induction d as [| [k' v'] r IH]; simpl; intros Hnd.
  - split; [discriminate | contradiction].
  - inversion Hnd as [| k'' r' Hnotin Hndr]; subst.
    destruct (String.eqb k' k) eqn:E.
    + apply String.eqb_eq in E. subst k'. split.
      * intros H. injection H as ->. left. reflexivity.
      * intros [H | H]; [congruence |].
        exfalso. apply Hnotin. apply (in_map fst) in H. exact H.
    + apply String.eqb_neq in E. rewrite (IH Hndr). split; [auto |].
      intros [H | H]; [congruence | exact H].
Qed.

Lemma dict_set_new (d : list (string * Z)) (k : string) (v : Z) :
  ~ In k (map fst d) -> dict_set d k v = d ++ [(k, v)].
Proof.
  induction d as [| [k' v'] r IH]; simpl; intros Hnotin; [reflexivity |].
  destruct (String.eqb k' k) eqn:E.
  - apply String.eqb_eq in E. exfalso. auto.
  - rewrite IH; [reflexivity | tauto].
Qed.

Lemma dict_set_keys (d : list (string * Z)) (k : string) (v : Z) :
  In k (map fst d) -> map fst (dict_set d k v) = map fst d.
Proof.
  induction d as [| [k' v'] r IH]; simpl; intros Hin; [contradiction |].
  destruct (String.eqb k' k) eqn:E; simpl; [reflexivity |].
  apply String.eqb_neq in E. rewrite IH; [reflexivity |].
  destruct Hin as [H | H]; [contradiction | exact H].
Qed.

Lemma dict_set_In (d : list (string * Z)) (k : string) (v : Z) (k' : string) (v' : Z) :
  NoDup (map fst d) ->
  (In (k', v') (dict_set d k v)
   <-> (k' = k /\ v' = v) \/ (k' <> k /\ In (k', v') d)).
Proof.
  induction d as [| [k0 v0] r IH]; simpl; intros Hnd.
  - split.
    + intros [H | []]. injection H as <- <-. auto.
    + intros [[-> ->] | [_ []]]. auto.
  - inversion Hnd as [| k'' r' Hnotin Hndr]; subst.
    destruct (String.eqb k0 k) eqn:E.
    + apply String.eqb_eq in E. subst k0. simpl. split.
      * intros [H | H].
        -- injection H as <- <-. auto.
        -- right. split; [| auto]. intros ->. apply Hnotin.
           apply (in_map fst) in H. exact H.
      * intros [[-> ->] | [Hne [H | H]]]; [auto | congruence | auto].
    + apply String.eqb_neq in E. simpl. rewrite (IH Hndr). split.
      * intros [H | [H | H]]; [| auto | tauto].
        injection H as <- <-. right. split; [exact E | auto].
      * intros [H | [Hne [H | H]]]; [auto | auto | auto].
Qed.

Lemma count_words_snoc (d : list (string * Z)) (ws : list string) (w : string) :
  count_words d (ws ++ [w]) =
    dict_set (count_words d ws) w (dict_get_default (count_words d ws) w 0 + 1)%Z.
Proof. unfold count_words. rewrite fold_left_app. reflexivity. Qed.

Lemma occurrences_snoc (k w : string) (ws : list string) :
  occurrences k (ws ++ [w]) =
    (occurrences k ws + (if string_dec w k then 1 else 0))%Z.
Proof.
  unfold occurrences. rewrite count_occ_app. simpl.
  destruct (string_dec w k); lia.
Qed.

Lemma first_index_bound (k : string) (ws : list string) :
  In k ws -> (first_index k ws < List.length ws)%nat.
Proof.
  induction ws as [| x r IH]; simpl; intros Hin; [contradiction |].
  destruct (String.eqb x k) eqn:E; [lia |].
  apply String.eqb_neq in E. destruct Hin as [H | H]; [contradiction |].
  apply IH in H. lia.
Qed.

Lemma first_index_absent (k : string) (ws : list string) :
  ~ In k ws -> first_index k ws = List.length ws.
Proof.
  induction ws as [| x r IH]; simpl; intros Hnotin; [reflexivity |].
  destruct (String.eqb x k) eqn:E.
  - apply String.eqb_eq in E. exfalso. auto.
  - rewrite IH; [reflexivity | tauto].
Qed.

Lemma first_index_app_in (k : string) (ws more : list string) :
  In k ws -> first_index k (ws ++ more) = first_index k ws.
Proof.
  induction ws as [| x r IH]; simpl; intros Hin; [contradiction |].
  destruct (String.eqb x k) eqn:E; [reflexivity |].
  apply String.eqb_neq in E. destruct Hin as [H | H]; [contradiction |].
  rewrite IH; [reflexivity | exact H].
Qed.

Lemma first_index_snoc_new (k : string) (ws : list string) :
  ~ In k ws -> first_index k (ws ++ [k]) = List.length ws.
Proof.
  induction ws as [| x r IH]; simpl; intros Hnotin.
  - rewrite String.eqb_refl. reflexivity.
  - destruct (String.eqb x k) eqn:E.
    + apply String.eqb_eq in E. exfalso. auto.
    + rewrite IH; [reflexivity | tauto].
Qed.

(** What the counting loop has built after the tokens [ws]: one item
    for every word met, with the number of its occurrences, in the order
    in which the words were first met. *)
Lemma count_words_inv (ws : list string) :
  let d := count_words [] ws in
  NoDup (map fst d)
  /\ (forall w c, In (w, c) d <-> In w ws /\ c = occurrences w ws)
  /\ StronglySorted (fun a b => (first_index a ws < first_index b ws)%nat)
                    (map fst d).
Proof.
  induction ws as [| w ws IH] using rev_ind.
  - simpl. split; [constructor |]. split; [| constructor].
    intros w c. simpl. tauto.
  - destruct IH as [Hnd [Hmem Hsorted]].
    set (d := count_words [] ws) in *.
    assert (Hkeys : forall k, In k (map fst d) <-> In k ws).
    { intros k. rewrite in_map_iff. split.
      - intros [[k' c] [Hk Hin]]. simpl in Hk. subst k'.
        apply Hmem in Hin. tauto.
      - intros Hin. exists (k, occurrences k ws). split; [reflexivity |].
        apply Hmem. auto. }
    assert (Hget : dict_get_default d w 0 = occurrences w ws).
    { unfold dict_get_default. destruct (Py.dict_get d w) as [c |] eqn:E.
      - apply (dict_get_Some d w c Hnd) in E. apply Hmem in E. tauto.
      - apply dict_get_None in E. rewrite Hkeys in E.
        unfold occurrences. apply (count_occ_not_In string_dec) in E.
        rewrite E. reflexivity. }
    cbv zeta. rewrite count_words_snoc. fold d. rewrite Hget.
    split; [| split].
    + destruct (in_dec string_dec w (map fst d)) as [Hin | Hnotin].
      * rewrite dict_set_keys; assumption.
      * rewrite dict_set_new, map_app by assumption. simpl.
        apply NoDup_app; [exact Hnd | constructor; [simpl; tauto | constructor] |].
        intros a Ha [<- | []]. contradiction.
    + intros k c. rewrite (dict_set_In d w _ k c Hnd), Hmem, in_app_iff.
      rewrite occurrences_snoc. simpl. split.
      * intros [[-> ->] | [Hne [Hin ->]]].
        -- split; [auto |]. destruct (string_dec w w); [reflexivity | contradiction].
        -- split; [auto |]. destruct (string_dec w k); [congruence | lia].
      * intros [Hin Hc]. destruct (string_dec w k) as [<- | Hne].
        -- left. auto.
        -- right. split; [congruence |]. split; [| lia].
           destruct Hin as [Hin | [Hin | []]]; [exact Hin | contradiction].
    + assert (Hold : StronglySorted
                       (fun a b => (first_index a (ws ++ [w])
                                    < first_index b (ws ++ [w]))%nat)
                       (map fst d)).
      { apply (fun Himp => sorted_agree _ _ _ Himp Hsorted).
        intros a b Ha Hb H. apply Hkeys in Ha. apply Hkeys in Hb.
        rewrite !first_index_app_in by assumption. exact H. }
      destruct (in_dec string_dec w (map fst d)) as [Hin | Hnotin].
      * rewrite dict_set_keys by assumption. exact Hold.
      * rewrite dict_set_new, map_app by assumption. simpl.
        apply sorted_snoc; [exact Hold |].
        apply Forall_forall. intros k Hk. apply Hkeys in Hk.
        rewrite (first_index_app_in k ws [w] Hk).
        rewrite first_index_snoc_new by (rewrite <- Hkeys; exact Hnotin).
        apply first_index_bound. exact Hk.
Qed.

Lemma first_index_filter (keep : string -> bool) (a b : string) (l : list string) :
  keep a = true -> keep b = true ->
  ((first_index a (filter keep l) < first_index b (filter keep l))%nat
   <-> (first_index a l < first_index b l)%nat).
Proof.
  intros Ha Hb. induction l as [| x r IH]; simpl; [tauto |].
  destruct (keep x) eqn:Hx; simpl.
  - destruct (String.eqb x a), (String.eqb x b); lia.
  - assert (Ea : String.eqb x a = false).
    { apply String.eqb_neq. intros ->. congruence. }
    assert (Eb : String.eqb x b = false).
    { apply String.eqb_neq. intros ->. congruence. }
    rewrite Ea, Eb. lia.
Qed.

Lemma ranks_before_asym (tokens : list string) (a b : string * Z) :
  ranks_before tokens a b -> ranks_before tokens b a -> False.
Proof. unfold ranks_before, met_before. lia. Qed.


(** ** The analyses that only print *)

Ltac run_prints :=
  intros w;
  unfold section_header, color_print, when, bind, print, ret; simpl;
  rewrite <- ?app_assoc; simpl; rewrite ?app_nil_r; reflexivity.

Lemma print_redirect_history_prints (str_int : Z -> string) (response : Response) :
  prints (print_redirect_history str_int response) (redirect_lines str_int response).
Proof.
  unfold print_redirect_history, redirect_lines.
  apply (prints_seq _ _ [Header "Redirects"]); [apply prints_print |].
  destruct (history response) as [| hop hops] eqn:E; [apply prints_print |].
  apply prints_seq; [| apply prints_print].
  rewrite <- flat_map_singleton.
  apply (prints_for_each _ (fun hop => [step_line str_int hop])).
  intros [i [hop_url hop_code]]. apply prints_print.
Qed.

Lemma print_status_code_prints (str_int : Z -> string) (response : Response) :
  prints (print_status_code str_int response) (status_code_lines str_int response).
Proof. unfold print_status_code, status_code_lines. run_prints. Qed.

Lemma print_seo_relevant_header_info_prints (parse : string -> Soup)
      (response : Response) :
  prints (print_seo_relevant_header_info parse response)
         (header_info_lines parse response).
Proof.
  unfold print_seo_relevant_header_info, header_info_lines.
  destruct (find "head" (soup_root (parse (text response)))) as [header |];
    [| run_prints].
  fold (title_of header). fold (description_of header). fold (canonical_of header).
  destruct (Py.truthy (canonical_of header)); run_prints.
Qed.

Lemma semantic_analysis_prints (parse : string -> Soup)
      (detect : string -> string + string)
      (stopwords_words : string -> list string + string)
      (findall_words : string -> list string) (lower : string -> string)
      (response : Response) :
  prints (semantic_analysis parse detect stopwords_words findall_words lower response)
         (semantic_lines parse detect stopwords_words findall_words lower response).
Proof.
  unfold semantic_analysis, semantic_lines, text_content_of, keywords_line.
  destruct (detect _) as [language | e]; [| run_prints].
  destruct (Py.dict_get LANGUAGE_MAP language) as [nltk_language |]; [| run_prints].
  destruct (stopwords_words nltk_language); run_prints.
Qed.

(** ** Keywords *)

(** The ranking behind the keywords: every word of the filtered token
    stream once, with the number of its occurrences, by descending count
    and, among equal counts, by first occurrence; no other list has
    these properties. *)
Lemma ranked_keywords_spec (words stop_words : list string) :
  let tokens := filter_stopwords words stop_words in
  let ranked := ranked_keywords words stop_words in
  NoDup (map fst ranked)
  /\ (forall w c, In (w, c) ranked <-> In w tokens /\ c = occurrences w tokens)
  /\ StronglySorted (ranks_before tokens) ranked
  /\ StronglySorted (ranks_before words) ranked
  /\ (forall a b, In a (firstn 10 ranked) -> In b ranked ->
                  ~ In b (firstn 10 ranked) -> ranks_before tokens a b)
  /\ (forall l,
        (forall w c, In (w, c) l <-> In w tokens /\ c = occurrences w tokens) ->
        StronglySorted (ranks_before tokens) l ->
        l = ranked).
Proof.
  intros tokens ranked.
  destruct (count_words_inv tokens) as [Hnd [Hmem Hkeys]].
  fold (word_frequency words stop_words) in Hnd, Hmem, Hkeys.
  set (d := word_frequency words stop_words) in *.
  assert (Hperm : Permutation ranked d) by apply sorted_desc_perm.
  assert (Hranked : forall w c,
             In (w, c) ranked <-> In w tokens /\ c = occurrences w tokens).
  { intros w c. rewrite <- Hmem. apply sorted_desc_In. }
  assert (Hsorted : StronglySorted (ranks_before tokens) ranked).
  { apply (sorted_desc_sorted snd (met_before tokens) d).
    apply (sorted_of_map fst
             (fun a b => (first_index a tokens < first_index b tokens)%nat)).
    exact Hkeys. }
  split; [| split; [exact Hranked | split; [exact Hsorted | split; [| split]]]].
  - apply (Permutation_NoDup (l := map fst d)); [| exact Hnd].
    apply Permutation_map. symmetry. exact Hperm.
  - apply (fun Himp => sorted_agree _ _ _ Himp Hsorted).
    intros [wa ca] [wb cb] Ha Hb [Hlt | [Heq Hmet]]; [left; exact Hlt | right].
    split; [exact Heq |].
    apply Hranked in Ha. apply Hranked in Hb.
    destruct Ha as [Ha _]. destruct Hb as [Hb _].
    unfold tokens, filter_stopwords in Ha, Hb. apply filter_In in Ha, Hb.
    unfold met_before in *. simpl in *.
    apply (first_index_filter (fun word => negb (Py.set_mem word stop_words))
             wa wb words (proj2 Ha) (proj2 Hb)).
    exact Hmet.
  - intros a b Ha Hb Hnot.
    apply (sorted_app_order _ (firstn 10 ranked) (skipn 10 ranked)).
    + rewrite firstn_skipn. exact Hsorted.
    + exact Ha.
    + rewrite <- (firstn_skipn 10 ranked) in Hb. apply in_app_or in Hb.
      destruct Hb as [Hb | Hb]; [contradiction | exact Hb].
  - intros l Hl Hls.
    apply (sorted_unique (ranks_before tokens));
      [apply ranks_before_asym | exact Hls | exact Hsorted |].
    intros [w c]. rewrite Hl, Hranked. tauto.
Qed.

(** C8: when the language is detected and its stopwords are loaded,
    [semantic_analysis] prints, after the language, one "Relevant
    Keywords" line with the words of the first ten items of a ranking of
    the tokens that are no stopwords.  The ranking holds every such
    token once, with the number of its occurrences, ordered by
    descending count and, among equal counts, by first occurrence in the
    token stream (the filtered one, and the unfiltered one as well); the
    items left out rank behind all that are reported; and the ranking is
    the only list with these properties, so the same tokens and
    stopwords always give the same words and counts in the same order. *)
Theorem keywords_ranking
        (parse : string -> Soup) (detect : string -> string + string)
        (stopwords_words : string -> list string + string)
        (findall_words : string -> list string) (lower : string -> string)
        (response : Response)
        (language nltk_language : string) (stop_words : list string) :
  let text_content := Py.join " " (stripped_strings (parse (text response))) in
  let words := findall_words (lower text_content) in
  let tokens := filter (fun word => negb (Py.set_mem word stop_words)) words in
  detect text_content = inl language ->
  Py.dict_get LANGUAGE_MAP language = Some nltk_language ->
  stopwords_words nltk_language = inl stop_words ->
  exists ranked,
    output_of (semantic_analysis parse detect stopwords_words findall_words lower
                                 response)
    = [ Header "Semantic Analysis";
        Finding GOOD "Document Language" language;
        Finding GOOD "Relevant Keywords" (Py.join ", " (map fst (firstn 10 ranked))) ]
    /\ ranked = ranked_keywords words stop_words
    /\ List.length (firstn 10 ranked) = Nat.min 10 (List.length ranked)
    /\ NoDup (map fst ranked)
    /\ (forall w c, In (w, c) ranked <-> In w tokens /\ c = occurrences w tokens)
    /\ StronglySorted (ranks_before tokens) ranked
    /\ StronglySorted (ranks_before words) ranked
    /\ (forall a b, In a (firstn 10 ranked) -> In b ranked ->
                    ~ In b (firstn 10 ranked) -> ranks_before tokens a b)
    /\ (forall l,
          (forall w c, In (w, c) l <-> In w tokens /\ c = occurrences w tokens) ->
          StronglySorted (ranks_before tokens) l ->
          l = ranked).
Proof.
  intros text_content words tokens Hdetect Hmap Hstop.
  exists (ranked_keywords words stop_words).
  split.
  - rewrite (proj1 (prints_output _ _ (semantic_analysis_prints parse detect
                                         stopwords_words findall_words lower
                                         response))).
    unfold semantic_lines, text_content_of, keywords_line.
    fold text_content. rewrite Hdetect, Hmap, Hstop. reflexivity.
  - split; [reflexivity |]. split; [apply length_firstn |].
    exact (ranked_keywords_spec words stop_words).
Qed.

(** The ranking on a sample stream: [cat] and [dog] both occur twice
    and [cat] is met first; the stopwords are gone. *)
Example keywords_of_demo_tokens :
  keywords Demo.tokens ["the"; "a"; "of"]
  = [("cat", 2%Z); ("dog", 2%Z); ("bird", 1%Z); ("fish", 1%Z)].
Proof. reflexivity. Qed.

Lemma keywords_ranking_witness :
  let response := Demo.response "http://site.test/" 200 "one h1" in
  exists ranked,
    output_of (semantic_analysis Demo.parse Demo.detect Demo.stopwords_words
                                 (fun _ => Demo.tokens) Demo.lower response)
    = [ Header "Semantic Analysis";
        Finding GOOD "Document Language" "en";
        Finding GOOD "Relevant Keywords" "cat, dog, bird, fish" ]
    /\ ranked = [("cat", 2%Z); ("dog", 2%Z); ("bird", 1%Z); ("fish", 1%Z)]
    /\ StronglySorted (ranks_before Demo.tokens) ranked.
Proof.
  intros response.
  destruct (keywords_ranking Demo.parse Demo.detect Demo.stopwords_words
              (fun _ => Demo.tokens) Demo.lower response
              "en" "english" ["the"; "a"; "of"] eq_refl eq_refl eq_refl)
    as [ranked [Hout [Hranked [_ [_ [_ [_ [Hraw _]]]]]]]].
  exists ranked. rewrite Hranked in Hout |- *.
  split; [exact Hout |]. split; [reflexivity |].
  rewrite <- Hranked. exact Hraw.
Defined.

(** The link lists of the page of scenario C. *)
Example collect_links_of_demo_page :
  collect_links Demo.urljoin Demo.urlparse
                (Demo.response "http://site.test/" 200 "links")
                (find_all_with "a" "href" (soup_root Demo.links_page))
  = Some ([ "http://site.test/a"; "http://site.test/b"; "http://site.test/a" ],
          [ "http://other.test/" ]).
Proof. reflexivity. Qed.

(** * Further properties *)

(** ** Link probes *)

Lemma link_status_spec (code : Z) :
  (link_status code = GOOD <-> (200 <= code < 300)%Z)
  /\ (link_status code = NEUTRAL <-> (300 <= code < 400)%Z)
  /\ (link_status code = FAIL <-> (code < 200 \/ 400 <= code)%Z).
Proof.
  unfold link_status.
  destruct (200 <=? code)%Z eqn:E1; destruct (code <? 300)%Z eqn:E2;
    destruct (300 <=? code)%Z eqn:E3; destruct (code <? 400)%Z eqn:E4; simpl;
    try apply Z.leb_le in E1; try apply Z.leb_gt in E1;
    try apply Z.ltb_lt in E2; try apply Z.ltb_ge in E2;
    try apply Z.leb_le in E3; try apply Z.leb_gt in E3;
    try apply Z.ltb_lt in E4; try apply Z.ltb_ge in E4;
    repeat split; intros; try discriminate; try reflexivity; lia.
Qed.

(** X1: a link probe calls [requests.get] once.  After a response it
    prints one "Link" line and returns: GOOD for a status code in
    200..299, NEUTRAL in 300..399, FAIL for any other code.  After a
    request exception it prints one FAIL "Link" line and returns.  An
    exception of another class is not caught: the probe prints nothing
    and raises it. *)
Theorem probe_link_outcome
        (net : list Request -> Request -> Response + Exn)
        (str_int : Z -> string) (str_exn : Exn -> string)
        (u : string) (w : World) :
  let after := sent w ++ [link_request u] in
  match net (sent w) (link_request u) with
  | inl link_response =>
      exists st content,
        probe_link net str_int str_exn u w =
          (Ret tt, mkWorld (stdout w ++ [Finding st "Link" content]) after)
        /\ (st = GOOD <-> (200 <= status_code link_response < 300)%Z)
        /\ (st = NEUTRAL <-> (300 <= status_code link_response < 400)%Z)
        /\ (st = FAIL <-> (status_code link_response < 200
                           \/ 400 <= status_code link_response)%Z)
  | inr e =>
      if is_RequestException e
      then exists content,
             probe_link net str_int str_exn u w =
               (Ret tt, mkWorld (stdout w ++ [Finding FAIL "Link" content]) after)
      else probe_link net str_int str_exn u w = (Raise e, mkWorld (stdout w) after)
  end.
Proof.
  intros after. rewrite (probe_link_acts net str_int str_exn u w).
  unfold link_effect, guarded_effect, link_line, after.
  destruct (net (sent w) (link_request u)) as [r | e].
  - eexists. eexists. split; [reflexivity | apply link_status_spec].
  - destruct (is_RequestException e); simpl.
    + eexists. reflexivity.
    + rewrite app_nil_r. reflexivity.
Qed.

(** ** The primary fetch, continued *)

(** X2: a response that [fetch_url_content] returns is the one the
    network gave, its status code is outside 400..599, and it is true as
    a condition: the test [if response] of [main] can only fail on
    [None]. *)
Theorem fetched_response_is_truthy
        (net : list Request -> Request -> Response + Exn)
        (str_kb : nat -> string) (str_exn : Exn -> string)
        (total_time : Response -> string)
        (u : string) (follow : bool) (w : World) (r : Response) :
  fst (fetch_url_content net str_kb str_exn total_time u follow w) = Ret (Some r) ->
  net (sent w) (primary_request u follow) = inl r
  /\ ~ (400 <= status_code r < 600)%Z
  /\ response_bool r = true.
Proof.
  rewrite fetch_url_content_run. simpl.
  destruct (net (sent w) _) as [r' | e];
    [| destruct (is_RequestException e); discriminate].
  destruct (http_error_code (status_code r')) eqn:E; [discriminate |].
  intros H. injection H as <-. split; [reflexivity |].
  unfold response_bool. unfold http_error_code in E. rewrite E.
  split; [| reflexivity].
  apply andb_false_iff in E. destruct E as [E | E];
    [apply Z.leb_gt in E | apply Z.ltb_ge in E]; lia.
Qed.

Lemma fetched_response_is_truthy_witness :
  let r := Demo.response "http://site.test/" 200 "" in
  Demo.net [] (primary_request "http://site.test/" true) = inl r
  /\ ~ (400 <= status_code r < 600)%Z
  /\ response_bool r = true.
Proof.
  apply (fetched_response_is_truthy Demo.net Demo.str_kb Demo.str_exn Demo.total_time
           "http://site.test/" true empty_world).
  reflexivity.
Defined.

(** X3: the primary fetch calls [requests.get] exactly once, for the
    URL with the redirect switch, and never a second time; it prints the
    "Performance" header first, followed by three lines when it returns
    a response, by one line when it returns [None], and by nothing when
    an exception that is no request exception leaves it. *)
Theorem fetch_sends_one_request
        (net : list Request -> Request -> Response + Exn)
        (str_kb : nat -> string) (str_exn : Exn -> string)
        (total_time : Response -> string)
        (u : string) (follow : bool) (w : World) :
  let run := fetch_url_content net str_kb str_exn total_time u follow w in
  sent (snd run) = sent w ++ [primary_request u follow]
  /\ exists lines,
       stdout (snd run) = stdout w ++ Header "Performance" :: lines
       /\ List.length lines =
            match fst run with
            | Ret (Some _) => 3
            | Ret None => 1
            | Raise _ => 0
            end.
Proof.
  intros run. unfold run. rewrite fetch_url_content_run. simpl.
  destruct (net (sent w) _) as [r | e];
    [destruct (http_error_code (status_code r)) | destruct (is_RequestException e)];
    simpl; (split; [reflexivity |]); rewrite <- ?app_assoc; simpl;
    eexists; split; reflexivity.
Qed.

(** ** Shortened texts and image names *)

Lemma string_length_append (a b : string) :
  String.length (a ++ b) = (String.length a + String.length b)%nat.
Proof. induction a as [| c a IH]; simpl; [reflexivity | rewrite IH; reflexivity]. Qed.

Lemma take_length (n : nat) (s : string) :
  String.length (Py.take n s) = Nat.min n (String.length s).
Proof.
  unfold Py.take. revert s. induction n as [| n IH]; intros [| c s]; simpl;
    try reflexivity.
  rewrite IH. reflexivity.
Qed.

Lemma take_append_exact (a b : string) : Py.take (String.length a) (a ++ b) = a.
Proof.
  unfold Py.take. induction a as [| c a IH]; simpl.
  - destruct b; reflexivity.
  - rewrite IH. reflexivity.
Qed.

Lemma contains_append (c : ascii) (a b : string) :
  Py.contains c (a ++ b) = Py.contains c a || Py.contains c b.
Proof.
  induction a as [| x a IH]; simpl; [reflexivity |].
  rewrite IH, orb_assoc. reflexivity.
Qed.

Lemma contains_take (c : ascii) (n : nat) (s : string) :
  Py.contains c s = false -> Py.contains c (Py.take n s) = false.
Proof.
  unfold Py.take. revert s. induction n as [| n IH]; intros [| x s]; simpl;
    try reflexivity.
  intros H. apply orb_false_iff in H. destruct H as [Hx Hs].
  rewrite Hx, (IH s Hs). reflexivity.
Qed.

Lemma contains_split_first_same (c : ascii) (s : string) :
  Py.contains c (Py.split_first c s) = false.
Proof.
  induction s as [| x s IH]; simpl; [reflexivity |].
  destruct (Ascii.eqb x c) eqn:E; simpl; [reflexivity |].
  rewrite E, IH. reflexivity.
Qed.

Lemma contains_split_first_other (c d : ascii) (s : string) :
  Py.contains d s = false -> Py.contains d (Py.split_first c s) = false.
Proof.
  induction s as [| x s IH]; simpl; [reflexivity |].
  intros H. apply orb_false_iff in H. destruct H as [Hx Hs].
  destruct (Ascii.eqb x c); simpl; [reflexivity |].
  rewrite Hx, (IH Hs). reflexivity.
Qed.

Lemma contains_split_last (c : ascii) (s : string) :
  Py.contains c (Py.split_last c s) = false.
Proof.
  induction s as [| x s IH]; [reflexivity |].
  cbn [Py.split_last]. destruct (Py.contains c (String x s)) eqn:E; [| exact E].
  destruct (Ascii.eqb x c && negb (Py.contains c s)) eqn:E2; [| exact IH].
  apply andb_true_iff in E2. destruct E2 as [_ E2].
  apply negb_true_iff in E2. exact E2.
Qed.

Lemma shorten_long (s : string) :
  (50 <= Py.len s)%Z -> shorten s = (Py.take 50 s ++ "...")%string.
Proof.
  intros H. unfold shorten. apply Z.ltb_ge in H. rewrite H. reflexivity.
Qed.

Lemma shorten_short (s : string) : (Py.len s < 50)%Z -> shorten s = s.
Proof.
  intros H. unfold shorten. apply Z.ltb_lt in H. rewrite H. reflexivity.
Qed.

Lemma shorten_length (s : string) :
  Py.len (shorten s) = if (Py.len s <? 50)%Z then Py.len s else 53%Z.
Proof.
  destruct (Py.len s <? 50)%Z eqn:E.
  - apply Z.ltb_lt in E. rewrite (shorten_short s E). reflexivity.
  - apply Z.ltb_ge in E. rewrite (shorten_long s E).
    unfold Py.len in *. rewrite string_length_append, take_length.
    change (String.length "...") with 3%nat. lia.
Qed.

Lemma contains_shorten (d : ascii) (s : string) :
  Py.contains d "..." = false -> Py.contains d s = false ->
  Py.contains d (shorten s) = false.
Proof.
  intros Hdots Hs. unfold shorten. destruct (Py.len s <? 50)%Z; [exact Hs |].
  rewrite contains_append, (contains_take d 50 s Hs), Hdots. reflexivity.
Qed.

(** X4: a text of fewer than 50 characters is shown as it is; a longer
    one, and also one of exactly 50 characters, is cut to its first 50
    characters followed by three dots, 53 characters in all.  Shortening
    a shortened text changes nothing. *)
Theorem shorten_spec (s : string) :
  Py.len (shorten s) = (if (Py.len s <? 50)%Z then Py.len s else 53%Z)
  /\ shorten s = (if (Py.len s <? 50)%Z then s else (Py.take 50 s ++ "...")%string)
  /\ shorten (shorten s) = shorten s.
Proof.
  split; [apply shorten_length |]. split; [reflexivity |].
  destruct (Py.len s <? 50)%Z eqn:E.
  - apply Z.ltb_lt in E. rewrite (shorten_short s E). apply shorten_short. exact E.
  - apply Z.ltb_ge in E. rewrite (shorten_long s E).
    assert (Hlen : String.length (Py.take 50 s) = 50%nat).
    { rewrite take_length. unfold Py.len in E. lia. }
    rewrite shorten_long.
    + pose proof (take_append_exact (Py.take 50 s) "...") as H.
      rewrite Hlen in H. rewrite H. reflexivity.
    + unfold Py.len. rewrite string_length_append, Hlen.
      change (String.length "...") with 3%nat. lia.
Qed.

(** X5: the file name shown for an image holds no slash, no question
    mark and no hash sign, whatever the [src] attribute, and has at most
    53 characters. *)
Theorem image_name_clean (src : string) :
  Py.contains "/"%char (image_name src) = false
  /\ Py.contains "?"%char (image_name src) = false
  /\ Py.contains "#"%char (image_name src) = false
  /\ (Py.len (image_name src) <= 53)%Z.
Proof.
  unfold image_name.
  set (a := if Py.contains "/"%char src then Py.split_last "/"%char src else src).
  assert (Ha : Py.contains "/"%char a = false).
  { unfold a. destruct (Py.contains "/"%char src) eqn:E;
      [apply contains_split_last | exact E]. }
  set (b := Py.split_first "?"%char a).
  assert (Hb1 : Py.contains "/"%char b = false)
    by (apply contains_split_first_other; exact Ha).
  assert (Hb2 : Py.contains "?"%char b = false)
    by apply contains_split_first_same.
  set (c := Py.split_first "#"%char b).
  assert (Hc1 : Py.contains "/"%char c = false)
    by (apply contains_split_first_other; exact Hb1).
  assert (Hc2 : Py.contains "?"%char c = false)
    by (apply contains_split_first_other; exact Hb2).
  assert (Hc3 : Py.contains "#"%char c = false)
    by apply contains_split_first_same.
  repeat split; try (apply contains_shorten; [reflexivity | assumption]).
  rewrite shorten_length. destruct (Py.len c <? 50)%Z eqn:E; [| lia].
  apply Z.ltb_lt in E. lia.
Qed.

(** ** Word counts *)

Lemma sum_counts_app (d1 d2 : list (string * Z)) :
  sum_counts (d1 ++ d2) = (sum_counts d1 + sum_counts d2)%Z.
Proof.
  unfold sum_counts. induction d1 as [| [k v] r IH]; simpl; [reflexivity | lia].
Qed.

Lemma sum_counts_perm (d1 d2 : list (string * Z)) :
  Permutation d1 d2 -> sum_counts d1 = sum_counts d2.
Proof.
  unfold sum_counts. intros H. induction H as [| x l l' H IH | x y l | l l' l'' H1 IH1 H2 IH2];
    simpl; lia.
Qed.

Lemma sum_counts_positive (d : list (string * Z)) :
  (forall w c, In (w, c) d -> (1 <= c)%Z) -> (0 <= sum_counts d)%Z.
Proof.
  unfold sum_counts. induction d as [| [k v] r IH]; simpl; intros H; [lia |].
  pose proof (H k v (or_introl eq_refl)).
  assert (0 <= fold_right Z.add 0 (map snd r))%Z by (apply IH; intros w c Hin; eapply H; right; exact Hin).
  lia.
Qed.

Lemma dict_incr_sum (d : list (string * Z)) (k : string) :
  sum_counts (dict_set d k (dict_get_default d k 0 + 1)%Z) = (sum_counts d + 1)%Z.
Proof.
  unfold sum_counts, dict_get_default.
  induction d as [| [k' v'] r IH]; simpl; [reflexivity |].
  destruct (String.eqb k' k); simpl; lia.
Qed.

Lemma count_words_sum (ws : list string) :
  sum_counts (count_words [] ws) = Z.of_nat (List.length ws).
Proof.
  induction ws as [| w ws IH] using rev_ind; [reflexivity |].
  rewrite count_words_snoc, dict_incr_sum, IH, length_app. simpl. lia.
Qed.

(** X6: the counts of the word dictionary are all at least 1 and add
    up to the number of tokens that are not stopwords; sorting keeps the
    sum, and the counts of the reported keywords add up to no more. *)
Theorem word_counts_sum (words stop_words : list string) :
  let tokens := filter_stopwords words stop_words in
  sum_counts (word_frequency words stop_words) = Z.of_nat (List.length tokens)
  /\ sum_counts (ranked_keywords words stop_words) = Z.of_nat (List.length tokens)
  /\ (forall w c, In (w, c) (word_frequency words stop_words) -> (1 <= c)%Z)
  /\ (sum_counts (keywords words stop_words) <= Z.of_nat (List.length tokens))%Z.
Proof.
  intros tokens.
  assert (Hsum : sum_counts (word_frequency words stop_words)
                 = Z.of_nat (List.length tokens)) by apply count_words_sum.
  assert (Hranked : sum_counts (ranked_keywords words stop_words)
                    = Z.of_nat (List.length tokens)).
  { rewrite <- Hsum. apply sum_counts_perm. apply sorted_desc_perm. }
  assert (Hpos : forall w c, In (w, c) (word_frequency words stop_words) -> (1 <= c)%Z).
  { intros w c Hin. destruct (count_words_inv tokens) as [_ [Hmem _]].
    apply Hmem in Hin. destruct Hin as [Hin ->].
    apply (count_occ_In string_dec) in Hin. unfold occurrences. lia. }
  split; [exact Hsum |]. split; [exact Hranked |]. split; [exact Hpos |].
  rewrite <- Hranked. unfold keywords.
  rewrite <- (firstn_skipn 10 (ranked_keywords words stop_words)) at 2.
  rewrite sum_counts_app.
  assert (0 <= sum_counts (skipn 10 (ranked_keywords words stop_words)))%Z; [| lia].
  apply sum_counts_positive. intros w c Hin. apply (Hpos w c).
  apply (proj1 (sorted_desc_In snd (w, c) (word_frequency words stop_words))).
  rewrite <- (firstn_skipn 10 (sorted_desc snd (word_frequency words stop_words))).
  apply in_or_app. right. exact Hin.
Qed.


(** ** The switches *)

(** X7: the switch [-a] stands for the seven other switches: a run
    with [-a] is the run with every switch that [-a] covers set. *)
Theorem main_expand_all
        (net : list Request -> Request -> Response + Exn)
        (parse : string -> Soup) (urljoin : string -> string -> option string)
        (urlparse : string -> option ParseResult)
        (detect : string -> string + string)
        (stopwords_words : string -> list string + string)
        (findall_words : string -> list string) (lower : string -> string)
        (str_int : Z -> string) (str_kb : nat -> string)
        (str_exn : Exn -> string) (total_time : Response -> string)
        (args : Args) :
  main net parse urljoin urlparse detect stopwords_words findall_words lower
       str_int str_kb str_exn total_time args
  = main net parse urljoin urlparse detect stopwords_words findall_words lower
         str_int str_kb str_exn total_time (expand_all args)
  /\ (arg_all args = true ->
      expand_all args = mkArgs (arg_url args) true true true true true true true false).
Proof.
  split.
  - unfold main, expand_all. simpl. rewrite !orb_false_r. reflexivity.
  - intros H. unfold expand_all. rewrite H, !orb_true_r. reflexivity.
Qed.

Lemma main_expand_all_witness :
  expand_all (mkArgs "http://site.test/" false false false false false false false true)
  = mkArgs "http://site.test/" true true true true true true true false.
Proof.
  apply (main_expand_all Demo.net Demo.parse Demo.urljoin Demo.urlparse
           Demo.detect Demo.stopwords_words Demo.findall_words Demo.lower Demo.str_int
           Demo.str_kb Demo.str_exn Demo.total_time
           (mkArgs "http://site.test/" false false false false false false false true)).
  reflexivity.
Defined.

(** ** The reports of the analyses that only print *)

Lemma nth_error_numbered {A} (l : list A) (start i : nat) (x : A) :
  nth_error l i = Some x ->
  nth_error (combine (seq start (List.length l)) l) i = Some ((start + i)%nat, x).
Proof.
  revert start i. induction l as [| y r IH]; intros start [| i] H; simpl in *;
    try discriminate.
  - injection H as ->. rewrite Nat.add_0_r. reflexivity.
  - rewrite (IH (S start) i H). f_equal. f_equal. lia.
Qed.

(** X8: the redirect report sends nothing.  Without redirects it is
    the single line "No redirects found."; with [n] hops it is [n]
    NEUTRAL lines numbered "Step 1" to "Step n" in the order of the hops,
    followed by the GOOD line of the final URL. *)
Theorem redirect_history_report (str_int : Z -> string) (response : Response) :
  let out := output_of (print_redirect_history str_int response) in
  requests_of (print_redirect_history str_int response) = []
  /\ (history response = [] ->
      out = [ Header "Redirects";
              Finding NEUTRAL "Redirect history" "No redirects found." ])
  /\ (history response <> [] ->
      List.length out = (List.length (history response) + 2)%nat
      /\ nth_error out (S (List.length (history response)))
         = Some (final_url_line str_int response)
      /\ forall i hop_url hop_code,
           nth_error (history response) i = Some (hop_url, hop_code) ->
           nth_error out (S i)
           = Some (Finding NEUTRAL ("Step " ++ str_int (Z.of_nat i + 1)%Z)
                           (hop_url ++ status_suffix str_int hop_code))).
Proof.
  intros out.
  destruct (prints_output _ _ (print_redirect_history_prints str_int response))
    as [Hout [Hreq _]].
  fold out in Hout. split; [exact Hreq |]. rewrite Hout. unfold redirect_lines.
  split.
  - intros E. rewrite E. reflexivity.
  - intros Hne. destruct (history response) as [| hop hops] eqn:E; [contradiction |].
    remember (map (step_line str_int)
                  (combine (seq 0 (List.length (hop :: hops))) (hop :: hops)))
      as steps_part eqn:Hsteps.
    assert (Hlen : List.length steps_part = List.length (hop :: hops)).
    { rewrite Hsteps, length_map, length_combine, length_seq. lia. }
    split; [| split].
    + cbn [List.length]. rewrite length_app, Hlen. simpl. lia.
    + cbn [nth_error]. rewrite nth_error_app2 by lia.
      rewrite Hlen, Nat.sub_diag. reflexivity.
    + intros i hop_url hop_code Hi. cbn [nth_error].
      assert (Hlt : (i < List.length steps_part)%nat).
      { rewrite Hlen. apply nth_error_Some. rewrite Hi. discriminate. }
      rewrite nth_error_app1 by exact Hlt.
      rewrite Hsteps.
      rewrite (map_nth_error (step_line str_int) i _
                 (nth_error_numbered (hop :: hops) 0 i (hop_url, hop_code) Hi)).
      reflexivity.
Qed.

Lemma redirect_history_report_witness :
  let out := output_of (print_redirect_history Demo.str_int redirected_response) in
  List.length out = 4%nat
  /\ nth_error out 2
     = Some (Finding NEUTRAL ("Step " ++ Demo.str_int 2)
                     ("http://site.test/older" ++ status_suffix Demo.str_int 302)).
Proof.
  intros out.
  destruct (redirect_history_report Demo.str_int redirected_response)
    as [_ [_ H]].
  destruct H as [Hlen [_ Hstep]]; [discriminate |].
  split; [exact Hlen |].
  apply (Hstep 1%nat "http://site.test/older" 302%Z). reflexivity.
Defined.

(** X9: the header analysis sends nothing and never raises.  Without
    a head tag it prints the single FAIL line "No <head> section found.";
    with one it prints the Title line and the Description line, in this
    order, and after them a Canonical line exactly when the canonical
    link has a non-empty href.  A head without title or without meta
    description gets the FAIL line with empty content for it. *)
Theorem header_info_report (parse : string -> Soup) (response : Response) :
  let root := soup_root (parse (text response)) in
  let run := print_seo_relevant_header_info parse response in
  requests_of run = []
  /\ outcome_of run = Ret tt
  /\ (find "head" root = None ->
      output_of run = [ Header "SEO Header Analysis";
                        Finding FAIL "Header" "No <head> section found." ])
  /\ (forall header, find "head" root = Some header ->
      exists canonical,
        output_of run
        = Header "SEO Header Analysis"
            :: Finding (evaluate_field_length (title_of header) (50, 60)%Z)
                       "Title" (title_of header)
            :: Finding (evaluate_field_length (description_of header) (150, 160)%Z)
                       "Description" (description_of header)
            :: canonical
        /\ (canonical = (if Py.truthy (canonical_of header)
                         then [Finding GOOD "Canonical" (canonical_of header)]
                         else []))
        /\ (find "title" header = None ->
            In (Finding FAIL "Title" "") (output_of run))
        /\ (find_attr "meta" "name" "description" header = None ->
            In (Finding FAIL "Description" "") (output_of run))).
Proof.
  intros root run.
  destruct (prints_output _ _ (print_seo_relevant_header_info_prints parse response))
    as [Hout [Hreq Hret]].
  fold run in Hout, Hreq, Hret.
  split; [exact Hreq |]. split; [exact Hret |]. rewrite Hout.
  unfold header_info_lines. fold root. split.
  - intros E. rewrite E. reflexivity.
  - intros header E. rewrite E. eexists. split; [reflexivity |].
    split; [reflexivity |]. split.
    + intros Ht. right. left. unfold title_of. rewrite Ht. reflexivity.
    + intros Hd. right. right. left. unfold description_of. rewrite Hd. reflexivity.
Qed.

Lemma header_info_report_witness :
  let run := print_seo_relevant_header_info (fun _ => head_page)
               (Demo.response "http://site.test/" 200 "") in
  output_of run
  = [ Header "SEO Header Analysis";
      Finding FAIL "Title" "";
      Finding FAIL "Description" "";
      Finding GOOD "Canonical" "http://site.test/" ]
  /\ In (Finding FAIL "Title" "") (output_of run).
Proof.
  intros run.
  destruct (header_info_report (fun _ => head_page)
              (Demo.response "http://site.test/" 200 ""))
    as [_ [_ [_ H]]].
  destruct (H (mkTag "head" [] ""
                 [mkTag "meta" [("name", "description"); ("content", "")] "" [];
                  mkTag "link" [("rel", "canonical"); ("href", "http://site.test/")]
                        "" []]) eq_refl)
    as [canonical [Hout [Hc [Ht _]]]].
  split.
  - fold run in Hout. rewrite Hout, Hc. reflexivity.
  - apply Ht. reflexivity.
Defined.

(** X10: the semantic analysis sends nothing and never raises.  When
    the language detection raises it prints that error and stops; when
    the detected language has no entry in [LANGUAGE_MAP] it prints the
    language and a "Stopwords" FAIL; the keywords line is printed exactly
    when detection, table lookup and stopword loading all succeed. *)
Theorem semantic_analysis_report
        (parse : string -> Soup) (detect : string -> string + string)
        (stopwords_words : string -> list string + string)
        (findall_words : string -> list string) (lower : string -> string)
        (response : Response) :
  let run := semantic_analysis parse detect stopwords_words findall_words lower
                               response in
  let text_content := text_content_of parse response in
  requests_of run = []
  /\ outcome_of run = Ret tt
  /\ (forall e, detect text_content = inr e ->
        output_of run
        = [ Header "Semantic Analysis";
            Finding FAIL "Language Detection" ("Error detecting language: " ++ e) ])
  /\ (forall language,
        detect text_content = inl language ->
        Py.dict_get LANGUAGE_MAP language = None ->
        output_of run
        = [ Header "Semantic Analysis";
            Finding GOOD "Document Language" language;
            Finding FAIL "Stopwords"
                    ("Stopwords not available for detected language '"
                       ++ language ++ "'") ])
  /\ ((exists content, In (Finding GOOD "Relevant Keywords" content) (output_of run))
      <-> exists language nltk_language stop_words,
            detect text_content = inl language
            /\ Py.dict_get LANGUAGE_MAP language = Some nltk_language
            /\ stopwords_words nltk_language = inl stop_words).
Proof.
  intros run text_content.
  destruct (prints_output _ _
              (semantic_analysis_prints parse detect stopwords_words findall_words
                 lower response)) as [Hout [Hreq Hret]].
  fold run in Hout, Hreq, Hret.
  split; [exact Hreq |]. split; [exact Hret |]. rewrite Hout.
  unfold semantic_lines. fold text_content. cbv zeta.
  split; [| split].
  - intros e E. rewrite E. reflexivity.
  - intros language E1 E2. rewrite E1, E2. reflexivity.
  - destruct (detect text_content) as [language | e] eqn:E1.
    + destruct (Py.dict_get LANGUAGE_MAP language) as [nltk_language |] eqn:E2.
      * destruct (stopwords_words nltk_language) as [stop_words | e] eqn:E3.
        -- split.
           ++ intros _. exists language, nltk_language, stop_words. auto.
           ++ intros _. eexists. right. right. left. reflexivity.
        -- split.
           ++ intros [content [H | [H | [H | []]]]]; discriminate.
           ++ intros [l [n [s [H0 [H1 H2]]]]]. injection H0 as <-.
              rewrite E2 in H1. injection H1 as <-. rewrite E3 in H2. discriminate.
      * split.
        -- intros [content [H | [H | [H | []]]]]; discriminate.
        -- intros [l [n [s [H0 [H1 _]]]]]. injection H0 as <-.
           rewrite E2 in H1. discriminate.
    + split.
      * intros [content [H | [H | []]]]; discriminate.
      * intros [l [n [s [H _]]]]. discriminate.
Qed.

Lemma semantic_analysis_report_witness :
  output_of (semantic_analysis Demo.parse (fun _ => inr "No features in text.")
               Demo.stopwords_words Demo.findall_words Demo.lower
               (Demo.response "http://site.test/" 200 ""))
  = [ Header "Semantic Analysis";
      Finding FAIL "Language Detection"
              "Error detecting language: No features in text." ].
Proof.
  apply (semantic_analysis_report Demo.parse (fun _ => inr "No features in text.")
           Demo.stopwords_words Demo.findall_words Demo.lower
           (Demo.response "http://site.test/" 200 "")).
  reflexivity.
Defined.

(** ** Headings below H1, and media tags *)

Lemma sub_heading_lines (root : Tag) (heading label : string) (st : Status)
      (content : string) :
  In heading ["h2"; "h3"] -> label = Py.upper heading ->
  (In (Finding st label content) (heading_lines root)
   <-> exists tag, In tag (find_all [heading] root)
                   /\ content = get_text_strip tag
                   /\ st = if Py.truthy content then GOOD else FAIL).
Proof.
  intros Hh ->. unfold heading_lines. rewrite !in_app_iff.
  cbn [flat_map]. rewrite !in_app_iff, !in_map_iff.
  destruct Hh as [<- | [<- | []]]; (split;
    [ intros [H | [H | [H | H]]];
      [ destruct H as [H | []]; discriminate
      | destruct (negb _); [destruct H as [H | []]; discriminate | contradiction]
      | destruct H as [[tag [E Hin]] | [[tag [E Hin]] | [[tag [E Hin]] | []]]];
        unfold heading_line in E; simpl in E; try discriminate;
        injection E as E1 E2; exists tag; subst; auto
      | destruct (1 <? _)%nat; [destruct H as [H | []]; discriminate | contradiction] ]
    | intros [tag [Hin [-> ->]]]; right; right; left ]).
  - right. left. exists tag. split; [reflexivity | exact Hin].
  - right. right. left. exists tag. split; [reflexivity | exact Hin].
Qed.

(** X11: the heading analysis sends nothing.  The H2 lines are the H2
    tags of the document and the H3 lines its H3 tags; such a line is
    GOOD when the text is not empty, whatever its length, and FAIL when
    it is empty.  An H1 with more than 70 characters gets a NEUTRAL line,
    not a FAIL. *)
Theorem heading_levels_report (parse : string -> Soup) (response : Response) :
  let root := soup_root (parse (text response)) in
  let run := print_heading_tags parse response in
  requests_of run = []
  /\ (forall st content,
        In (Finding st "H2" content) (output_of run)
        <-> exists tag, In tag (find_all ["h2"] root)
                        /\ content = get_text_strip tag
                        /\ st = if Py.truthy content then GOOD else FAIL)
  /\ (forall st content,
        In (Finding st "H3" content) (output_of run)
        <-> exists tag, In tag (find_all ["h3"] root)
                        /\ content = get_text_strip tag
                        /\ st = if Py.truthy content then GOOD else FAIL)
  /\ (forall tag, In tag (find_all ["h1"] root) ->
        (70 < Py.len (get_text_strip tag))%Z ->
        In (Finding NEUTRAL "H1" (get_text_strip tag)) (output_of run)).
Proof.
  intros root run.
  destruct (prints_output _ _ (print_heading_tags_prints parse response))
    as [Hout [Hreq _]].
  fold run in Hout, Hreq. fold root in Hout.
  split; [exact Hreq |]. rewrite Hout. split; [| split].
  - intros st content. apply sub_heading_lines; [simpl; auto | reflexivity].
  - intros st content. apply sub_heading_lines; [simpl; auto | reflexivity].
  - intros tag Hin Hlen.
    pose proof (h1_line_printed root tag Hin) as H.
    assert (Hne : get_text_strip tag <> "").
    { intros E. rewrite E in Hlen. unfold Py.len in Hlen. simpl in Hlen. lia. }
    rewrite (evaluate_field_length_nonempty _ 1%Z SEO_H1_LIMIT Hne) in H.
    assert (Hb : ((1 <=? Py.len (get_text_strip tag))
                    && (Py.len (get_text_strip tag) <=? SEO_H1_LIMIT))%Z = false).
    { apply andb_false_iff. right. apply Z.leb_gt. exact Hlen. }
    rewrite Hb in H. exact H.
Qed.

Lemma heading_levels_report_witness :
  In (Finding GOOD "H2" "More")
     (output_of (print_heading_tags Demo.parse
                   (Demo.response "http://site.test/" 200 "one h1"))).
Proof.
  apply (heading_levels_report Demo.parse
           (Demo.response "http://site.test/" 200 "one h1")).
  exists (Demo.leaf "h2" [] "More"). split; [simpl; auto |]. split; reflexivity.
Defined.

Lemma find_all_names (names : list string) (root tag : Tag) :
  In tag (find_all names root) -> In (tag_name tag) names.
Proof.
  unfold find_all. intros H. apply filter_In in H. destruct H as [_ H].
  unfold Py.set_mem in H. apply existsb_exists in H.
  destruct H as [n [Hin E]]. apply String.eqb_eq in E. subst n. exact Hin.
Qed.

(** X12: every video and audio tag of the document gets one line in
    the media analysis: GOOD with the source when the [src] attribute is
    present and not empty, FAIL "No source found" otherwise.  The line of
    a video is labelled "Video", that of an audio tag "Diverse (audio)". *)
Theorem media_sources_report
        (net : list Request -> Request -> Response + Exn)
        (parse : string -> Soup) (urljoin : string -> string -> option string)
        (lower : string -> string) (str_kb : nat -> string)
        (str_exn : Exn -> string) (response : Response) (media : Tag) :
  In media (find_all ["video"; "audio"] (soup_root (parse (text response)))) ->
  let src := tag_get_default media "src" in
  let label := if String.eqb (tag_name media) "video" then "Video"
               else "Diverse (audio)" in
  let run := print_media_info net parse urljoin lower str_kb str_exn response in
  (tag_name media = "video" \/ tag_name media = "audio")
  /\ In (if Py.truthy src
         then Finding GOOD (label ++ " Source") src
         else Finding FAIL label "No source found")
        (output_of run).
Proof.
  intros Hin src label run.
  assert (Hname : tag_name media = "video" \/ tag_name media = "audio").
  { apply find_all_names in Hin. simpl in Hin. intuition auto. }
  destruct (acts_run _ _
              (print_media_info_acts net parse urljoin lower str_kb str_exn response))
    as [Hout _].
  fold run in Hout. cbv zeta in Hout. simpl eff_lines in Hout.
  split; [exact Hname |].
  rewrite Hout. right. apply in_or_app. left.
  apply in_map_iff. exists media. split; [| exact Hin].
  unfold media_line. fold src. subst label.
  destruct Hname as [E | E]; rewrite E; reflexivity.
Qed.

Lemma media_sources_report_witness :
  let page := Demo.page [Demo.leaf "audio" [] ""; Demo.leaf "video" [("src", "/v.mp4")] ""] in
  let run := print_media_info Demo.net (fun _ => page) Demo.urljoin Demo.lower
                              Demo.str_kb Demo.str_exn
                              (Demo.response "http://site.test/" 200 "") in
  In (Finding FAIL "Diverse (audio)" "No source found") (output_of run).
Proof.
  intros page run.
  apply (media_sources_report Demo.net (fun _ => page) Demo.urljoin Demo.lower
           Demo.str_kb Demo.str_exn (Demo.response "http://site.test/" 200 "")
           (Demo.leaf "audio" [] "")).
  simpl. auto.
Defined.

(** ** The search index check and the server check *)

Lemma bind_ret_eq {A B} (m : M A) (k : A -> M B) (w w' : World) (a : A) :
  m w = (Ret a, w') -> bind m k w = k a w'.
Proof. intros E. unfold bind. rewrite E. reflexivity. Qed.

Lemma bind_raise_eq {A B} (m : M A) (k : A -> M B) (w w' : World) (e : Exn) :
  m w = (Raise e, w') -> bind m k w = (Raise e, w').
Proof. intros E. unfold bind. rewrite E. reflexivity. Qed.

(** X13: the search index check calls [requests.get] once, for the
    search URL of the page with the browser's User-Agent header.  When
    the call does not fail with an exception that is no request
    exception, the check prints the header and one "Google Index" line,
    and returns: the line is GOOD exactly when the answer has status 200
    and its text lacks the phrase "did not match any documents"; it is
    FAIL otherwise, also when the request fails.  An exception of another
    class leaves the check after the header. *)
Theorem google_index_report
        (net : list Request -> Request -> Response + Exn)
        (str_int : Z -> string) (str_exn : Exn -> string)
        (u : string) (w : World) :
  ((forall e, net (sent w) (google_request u) = inr e ->
              is_RequestException e = true) ->
   exists st content,
     check_google_index_status net str_int str_exn u w =
       (Ret tt,
        mkWorld (stdout w ++ [Header "Google Index Status";
                              Finding st "Google Index" content])
                (sent w ++ [google_request u]))
     /\ (st = GOOD \/ st = FAIL)
     /\ (st = GOOD <->
         exists r, net (sent w) (google_request u) = inl r
                   /\ status_code r = 200%Z
                   /\ str_in "did not match any documents" (text r) = false))
  /\ (forall e,
        net (sent w) (google_request u) = inr e ->
        is_RequestException e = false ->
        check_google_index_status net str_int str_exn u w =
          (Raise e,
           mkWorld (stdout w ++ [Header "Google Index Status"])
                   (sent w ++ [google_request u]))).
Proof.
  unfold check_google_index_status, section_header, color_print, try_except,
    bind, send, print, google_request.
  simpl. split.
  - intros Hcaught. destruct (net (sent w) _) as [r | e] eqn:E; simpl.
    + destruct (status_code r =? 200)%Z eqn:Ecode;
        [destruct (str_in "did not match any documents" (text r)) eqn:Emarker |];
        simpl; rewrite <- app_assoc; simpl; eexists; eexists;
        (split; [reflexivity |]).
      * split; [right; reflexivity |]. split; [discriminate |].
        intros [r' [H1 [_ H3]]]. injection H1 as <-. congruence.
      * split; [left; reflexivity |]. split; [| reflexivity].
        intros _. exists r. apply Z.eqb_eq in Ecode. auto.
      * split; [right; reflexivity |]. split; [discriminate |].
        intros [r' [H1 [H2 _]]]. injection H1 as <-.
        apply Z.eqb_neq in Ecode. contradiction.
    + rewrite (Hcaught e eq_refl). simpl. rewrite <- app_assoc. simpl.
      eexists. eexists. split; [reflexivity |].
      split; [right; reflexivity |]. split; [discriminate |].
      intros [r' [H1 _]]. discriminate.
  - intros e Hnet Hescapes. rewrite Hnet. simpl. rewrite Hescapes. reflexivity.
Qed.

Lemma google_index_report_witness :
  exists st content,
    check_google_index_status Demo.net Demo.str_int Demo.str_exn "http://site.test/"
                              empty_world =
      (Ret tt,
       mkWorld [Header "Google Index Status"; Finding st "Google Index" content]
               [google_request "http://site.test/"])
    /\ st = GOOD.
Proof.
  destruct (google_index_report Demo.net Demo.str_int Demo.str_exn "http://site.test/"
              empty_world) as [Hreport _].
  destruct Hreport as [st [content [Hrun [_ Hgood]]]].
  - intros e Hnet. discriminate Hnet.
  - exists st, content. split; [exact Hrun |].
    apply Hgood. eexists. split; [reflexivity |]. split; reflexivity.
Defined.

(** The steps of the server check: each one calls the network once
    and ends with the exception that its handler lets through, if any. *)
Lemma run_step (m k : M unit) (w w1 : World) (o : option Exn) :
  m w = (result_of o, w1) ->
  (m ;; k) w = match o with
               | Some e => (Raise e, w1)
               | None => k w1
               end.
Proof. intros E. unfold bind. rewrite E. destruct o; reflexivity. Qed.

Lemma check_file_run
      (net : list Request -> Request -> Response + Exn)
      (label file_url error_text : string) (w : World) :
  exists lines,
    check_file net label file_url error_text w =
      (result_of (escaping is_RequestException (net (sent w) (link_request file_url))),
       mkWorld (stdout w ++ lines) (sent w ++ [link_request file_url])).
Proof.
  unfold check_file, try_except, bind, requests_get, send, color_print, print,
    link_request, escaping.
  simpl. destruct (net (sent w) _) as [r | e]; simpl.
  - destruct (status_code r =? 200)%Z; eexists; reflexivity.
  - destruct (is_RequestException e); simpl.
    + eexists. reflexivity.
    + exists []. rewrite app_nil_r. reflexivity.
Qed.

Lemma check_certificate_run
      (net : list Request -> Request -> Response + Exn) (u : string) (w : World) :
  exists lines,
    check_certificate net u w =
      (result_of (escaping is_SSLError (net (sent w) (link_request u))),
       mkWorld (stdout w ++ lines) (sent w ++ [link_request u])).
Proof.
  unfold check_certificate, try_except, bind, requests_get, send, color_print, print,
    link_request, escaping.
  simpl. destruct (net (sent w) _) as [r | e]; simpl.
  - eexists. reflexivity.
  - destruct (is_SSLError e); simpl.
    + eexists. reflexivity.
    + exists []. rewrite app_nil_r. reflexivity.
Qed.

Lemma check_server_ip_run
      (net : list Request -> Request -> Response + Exn)
      (parsed : ParseResult) (w : World) :
  exists lines,
    check_server_ip net (netloc parsed) w =
      (result_of (dns_escaping (net (sent w) (dns_request parsed))),
       mkWorld (stdout w ++ lines) (sent w ++ [dns_request parsed])).
Proof.
  unfold check_server_ip, try_except, bind, requests_get, send, color_print, print,
    raise, dns_request, link_request, dns_escaping.
  simpl. destruct (net (sent w) _) as [r | e]; simpl.
  - destruct (json r); simpl; try (eexists; reflexivity).
    exists []. rewrite app_nil_r. reflexivity.
  - destruct (is_RequestException e); simpl.
    + eexists. reflexivity.
    + exists []. rewrite app_nil_r. reflexivity.
Qed.

Lemma check_server_software_run
      (net : list Request -> Request -> Response + Exn)
      (lower : string -> string) (u : string) (w : World) :
  exists lines,
    check_server_software net lower u w =
      (result_of (escaping is_RequestException (net (sent w) (server_request u))),
       mkWorld (stdout w ++ lines) (sent w ++ [server_request u])).
Proof.
  unfold check_server_software, try_except, bind, requests_head, send, color_print,
    print, server_request, escaping.
  simpl. destruct (net (sent w) _) as [r | e]; simpl.
  - eexists. reflexivity.
  - destruct (is_RequestException e); simpl.
    + eexists. reflexivity.
    + exists []. rewrite app_nil_r. reflexivity.
Qed.

(** X14: the server check first parses the URL; when [urlparse]
    raises, the check ends with that exception after its header and
    without a request.  Otherwise it asks for the sitemap, for
    robots.txt, for the page itself, for the address of the host and for
    the server software, in this order, with one request each.  It ends
    at the first step whose exception is not caught: a request of the
    sitemap, robots.txt, address or software step that fails with an
    exception that is no request exception, a request for the page that
    fails with anything but an SSL error, or an address answer whose
    JSON has an unexpected shape; it returns after five requests when
    there is no such step. *)
Theorem check_server_info_outcome
        (net : list Request -> Request -> Response + Exn)
        (urlparse : string -> option ParseResult) (lower : string -> string)
        (u : string) (w : World) :
  let run := check_server_info net urlparse lower u w in
  match urlparse u with
  | None =>
      run = (Raise ValueError,
             mkWorld (stdout w ++ [Header "Server Information"]) (sent w))
  | Some parsed =>
      let r1 := sitemap_request parsed in
      let r2 := robots_request parsed in
      let r3 := link_request u in
      let r4 := dns_request parsed in
      let r5 := server_request u in
      let ends (o : option Exn) (rs : list Request) :=
        fst run = result_of o /\ sent (snd run) = sent w ++ rs in
      match escaping is_RequestException (net (sent w) r1) with
      | Some e => ends (Some e) [r1]
      | None =>
      match escaping is_RequestException (net (sent w ++ [r1]) r2) with
      | Some e => ends (Some e) [r1; r2]
      | None =>
      match escaping is_SSLError (net (sent w ++ [r1; r2]) r3) with
      | Some e => ends (Some e) [r1; r2; r3]
      | None =>
      match dns_escaping (net (sent w ++ [r1; r2; r3]) r4) with
      | Some e => ends (Some e) [r1; r2; r3; r4]
      | None =>
          ends (escaping is_RequestException (net (sent w ++ [r1; r2; r3; r4]) r5))
               [r1; r2; r3; r4; r5]
      end end end end
  end.
Proof.
  intros run. subst run. unfold check_server_info.
  rewrite (bind_ret_eq _ _ w _ tt (eq_refl : section_header "Server Information" w = _)).
  destruct (urlparse u) as [parsed |]; [| reflexivity].
  set (r1 := sitemap_request parsed). set (r2 := robots_request parsed).
  set (r3 := link_request u). set (r4 := dns_request parsed).
  set (r5 := server_request u).
  set (w0 := mkWorld (stdout w ++ [Header "Server Information"]) (sent w)).
  destruct (check_file_run net "Sitemap"
              ((scheme parsed ++ "://" ++ netloc parsed) ++ "/sitemap.xml")
              "Error checking sitemap" w0) as [l1 E1].
  fold (sitemap_request parsed) in E1. fold r1 in E1.
  change (sent w0) with (sent w) in E1.
  rewrite (run_step _ _ _ _ _ E1). clear E1.
  destruct (escaping is_RequestException (net (sent w) r1)) as [e1 |];
    [split; reflexivity |].
  set (w1 := mkWorld (stdout w0 ++ l1) (sent w ++ [r1])).
  destruct (check_file_run net "robots.txt"
              ((scheme parsed ++ "://" ++ netloc parsed) ++ "/robots.txt")
              "Error checking robots.txt" w1) as [l2 E2].
  fold (robots_request parsed) in E2. fold r2 in E2.
  change (sent w1) with (sent w ++ [r1]) in E2.
  rewrite (run_step _ _ _ _ _ E2). clear E2.
  destruct (escaping is_RequestException (net (sent w ++ [r1]) r2)) as [e2 |];
    [split; [reflexivity | cbn [snd sent]; rewrite <- app_assoc; reflexivity] |].
  set (w2 := mkWorld (stdout w1 ++ l2) ((sent w ++ [r1]) ++ [r2])).
  destruct (check_certificate_run net u w2) as [l3 E3]. fold r3 in E3.
  assert (Hs2 : sent w2 = sent w ++ [r1; r2]).
  { unfold w2. cbn [sent]. rewrite <- app_assoc. reflexivity. }
  rewrite Hs2 in E3.
  rewrite (run_step _ _ _ _ _ E3). clear E3.
  destruct (escaping is_SSLError (net (sent w ++ [r1; r2]) r3)) as [e3 |];
    [split; [reflexivity | cbn [snd sent]; rewrite <- app_assoc; reflexivity] |].
  set (w3 := mkWorld (stdout w2 ++ l3) ((sent w ++ [r1; r2]) ++ [r3])).
  destruct (check_server_ip_run net parsed w3) as [l4 E4]. fold r4 in E4.
  assert (Hs3 : sent w3 = sent w ++ [r1; r2; r3]).
  { unfold w3. cbn [sent]. rewrite <- app_assoc. reflexivity. }
  rewrite Hs3 in E4.
  rewrite (run_step _ _ _ _ _ E4). clear E4.
  destruct (dns_escaping (net (sent w ++ [r1; r2; r3]) r4)) as [e4 |];
    [split; [reflexivity | cbn [snd sent]; rewrite <- app_assoc; reflexivity] |].
  set (w4 := mkWorld (stdout w3 ++ l4) ((sent w ++ [r1; r2; r3]) ++ [r4])).
  destruct (check_server_software_run net lower u w4) as [l5 E5]. fold r5 in E5.
  assert (Hs4 : sent w4 = sent w ++ [r1; r2; r3; r4]).
  { unfold w4. cbn [sent]. rewrite <- app_assoc. reflexivity. }
  rewrite Hs4 in E5. rewrite E5.
  split; [reflexivity | cbn [snd sent]; rewrite <- app_assoc; reflexivity].
Qed.

(** The server check of a host that is down: the sitemap and robots.txt
    steps contain the timeout, the certificate step does not. *)
Example server_check_of_down_host :
  let run := check_server_info Demo.net Demo.urlparse Demo.lower "http://down.test/"
                               empty_world in
  fst run = Raise (Transport TIMEOUT)
  /\ List.length (sent (snd run)) = 3%nat.
Proof. split; reflexivity. Qed.

(** ** The whole run *)

Lemma returns_ret {A} (a : A) : returns (ret a).
Proof. intros w. exists a, w. reflexivity. Qed.

Lemma returns_print (l : Line) : returns (print l).
Proof. intros w. eexists. eexists. reflexivity. Qed.

Lemma returns_bind {A B} (m : M A) (k : A -> M B) :
  returns m -> (forall a, returns (k a)) -> returns (bind m k).
Proof.
  intros Hm Hk w. destruct (Hm w) as [a [w' E]].
  unfold bind. rewrite E. apply Hk.
Qed.

Lemma returns_when (c : bool) (m : M unit) : returns m -> returns (when c m).
Proof. intros Hm. destruct c; simpl; [exact Hm | apply returns_ret]. Qed.

Lemma returns_of_prints (m : M unit) (ls : list Line) : prints m ls -> returns m.
Proof. intros H w. rewrite H. eexists. eexists. reflexivity. Qed.

Lemma returns_of_acts (m : M unit) (f : list Request -> Effect) :
  acts m f -> (forall before, eff_exn (f before) = None) -> returns m.
Proof. intros H Hsafe w. rewrite H, Hsafe. eexists. eexists. reflexivity. Qed.

Lemma then_effect_safe (a : Effect) (g : list Request -> Effect)
      (before : list Request) :
  eff_exn a = None -> (forall earlier, eff_exn (g earlier) = None) ->
  eff_exn (then_effect a g before) = None.
Proof. intros Ha Hg. unfold then_effect. rewrite Ha. simpl. apply Hg. Qed.

Section Run.

Variable net : list Request -> Request -> Response + Exn.
Variable parse : string -> Soup.
Variable urljoin : string -> string -> option string.
Variable urlparse : string -> option ParseResult.
Variable detect : string -> string + string.
Variable stopwords_words : string -> list string + string.
Variable findall_words : string -> list string.
Variable lower : string -> string.
Variable str_int : Z -> string.
Variable str_kb : nat -> string.
Variable str_exn : Exn -> string.
Variable total_time : Response -> string.

Local Abbreviation run_main :=
  (main net parse urljoin urlparse detect stopwords_words findall_words lower
        str_int str_kb str_exn total_time).

Lemma main_server_split (args : Args) (w : World) :
  run_main args w =
    bind (when (arg_server args || arg_all args)
               (check_server_info net urlparse lower (arg_url args)))
         (fun _ => run_main (without_server_check args)) w.
Proof.
  unfold main, without_server_check. simpl.
  rewrite !orb_false_r. reflexivity.
Qed.

(** The analyses of a run without the switches for media, links and
    search index only print. *)
Lemma quiet_analyses_print (c s : bool) (response : Response) :
  exists ls,
    prints (print_redirect_history str_int response ;;
            print_status_code str_int response ;;
            ret tt ;;
            print_seo_relevant_header_info parse response ;;
            when c (print_heading_tags parse response) ;;
            when s (semantic_analysis parse detect stopwords_words findall_words
                                      lower response) ;;
            ret tt ;;
            ret tt) ls.
Proof.
  eexists.
  apply prints_seq; [apply print_redirect_history_prints |].
  apply prints_seq; [apply print_status_code_prints |].
  apply prints_seq; [apply prints_ret |].
  apply prints_seq; [apply print_seo_relevant_header_info_prints |].
  apply prints_seq; [apply prints_when; apply print_heading_tags_prints |].
  apply prints_seq; [apply prints_when; apply semantic_analysis_prints |].
  apply prints_seq; apply prints_ret.
Qed.

Lemma quiet_run (args : Args) :
  arg_media args = false -> arg_links args = false ->
  arg_google args = false -> arg_server args = false -> arg_all args = false ->
  requests_of (run_main args) = [primary_request (arg_url args) (arg_follow args)]
  /\ outcome_of (run_main args)
     = match net [] (primary_request (arg_url args) (arg_follow args)) with
       | inl _ => Ret tt
       | inr e => if is_RequestException e then Ret tt else Raise e
       end.
Proof.
  intros Hm Hl Hg Hs Ha. unfold requests_of, outcome_of, main.
  rewrite Hm, Hl, Hg, Hs, Ha, !orb_false_r. cbn [orb when].
  rewrite (bind_ret_eq _ _ _ _ tt (eq_refl : ret tt empty_world = _)).
  pose proof (fetch_url_content_run net str_kb str_exn total_time
                (arg_url args) (arg_follow args) empty_world) as Hfetch.
  cbv zeta in Hfetch. cbn [sent stdout empty_world app] in Hfetch.
  destruct (net [] (primary_request (arg_url args) (arg_follow args))) as [r | e].
  - destruct (http_error_code (status_code r)) eqn:Ecode.
    + rewrite (bind_ret_eq _ _ _ _ _ Hfetch). split; reflexivity.
    + rewrite (bind_ret_eq _ _ _ _ _ Hfetch).
      unfold response_bool. unfold http_error_code in Ecode. rewrite Ecode.
      cbn [negb].
      destruct (quiet_analyses_print (arg_content args) (arg_semantic args) r)
        as [ls Hls].
      rewrite Hls. split; reflexivity.
  - destruct (is_RequestException e).
    + rewrite (bind_ret_eq _ _ _ _ _ Hfetch). split; reflexivity.
    + rewrite (bind_raise_eq _ _ _ _ _ Hfetch). split; reflexivity.
Qed.

(** From here on every failure of a request is a request exception, and
    [urljoin] and [urlparse] do not raise. *)
Hypothesis request_failures : request_exceptions_only net.
Hypothesis urls_parse : urls_always_parse urljoin urlparse.

Lemma guarded_effect_safe (r : Request) (line : Response + Exn -> Line)
      (before : list Request) :
  eff_exn (guarded_effect net r line before) = None.
Proof.
  unfold guarded_effect. destruct (net before r) as [response | e] eqn:E;
    [reflexivity |].
  rewrite (request_failures _ _ _ E). reflexivity.
Qed.

Lemma fetch_url_content_returns (u : string) (follow : bool) :
  returns (fetch_url_content net str_kb str_exn total_time u follow).
Proof.
  intros w. rewrite fetch_url_content_run. simpl.
  destruct (net (sent w) _) as [r | e] eqn:E;
    [destruct (http_error_code (status_code r))
    | rewrite (request_failures _ _ _ E)];
    eexists; eexists; reflexivity.
Qed.

Lemma check_google_index_status_returns (u : string) :
  returns (check_google_index_status net str_int str_exn u).
Proof.
  intros w.
  unfold check_google_index_status, section_header, color_print, try_except,
    bind, send, print.
  simpl. destruct (net (sent w) _) as [r | e] eqn:E; simpl.
  - destruct (status_code r =? 200)%Z;
      [destruct (str_in "did not match any documents" (text r)) |];
      eexists; eexists; reflexivity.
  - rewrite (request_failures _ _ _ E). eexists. eexists. reflexivity.
Qed.

Lemma print_media_info_returns (response : Response) :
  returns (print_media_info net parse urljoin lower str_kb str_exn response).
Proof.
  apply (returns_of_acts _ _
           (print_media_info_acts net parse urljoin lower str_kb str_exn response)).
  intros before. cbn [eff_exn]. apply each_effect_safe.
  intros img earlier _. unfold image_effect.
  destruct (is_inline img); [reflexivity |].
  destruct (urljoin (url response) (tag_get_default img "src")) as [absolute_url |]
    eqn:E; [apply guarded_effect_safe |].
  destruct (proj1 urls_parse _ _ E).
Qed.

Lemma collect_links_total (response : Response) (links : list Tag) :
  collect_links urljoin urlparse response links <> None.
Proof.
  unfold collect_links.
  destruct (urlparse (url response)) as [parsed |] eqn:Ebase;
    [| destruct (proj2 urls_parse _ Ebase)].
  generalize (@nil string, @nil string).
  induction links as [| link r IH]; intros [internal external]; [discriminate |].
  cbn [fold_left]. unfold classify_link at 2.
  destruct (ignored_href (tag_get_default link "href")); [apply IH |].
  destruct (urljoin (url response) (tag_get_default link "href")) as [full_url |]
    eqn:Ejoin; [| destruct (proj1 urls_parse _ _ Ejoin)].
  destruct (urlparse full_url) as [parsed_link |] eqn:Eparse;
    [| destruct (proj2 urls_parse _ Eparse)].
  destruct (String.eqb (netloc parsed_link) (netloc parsed)); apply IH.
Qed.

Lemma print_links_info_returns (response : Response) :
  returns (print_links_info net parse urljoin urlparse str_int str_exn response).
Proof.
  apply (returns_of_acts _ _
           (print_links_info_acts net parse urljoin urlparse str_int str_exn
              response)).
  intros before. cbv zeta.
  destruct (collect_links urljoin urlparse response _) as [[internal external] |]
    eqn:E; [| destruct (collect_links_total _ _ E)].
  apply then_effect_safe; [reflexivity | intros before1].
  apply then_effect_safe.
  - apply each_effect_safe. intros u earlier _. apply guarded_effect_safe.
  - intros before2. apply then_effect_safe; [reflexivity | intros before3].
    apply each_effect_safe. intros u earlier _. apply guarded_effect_safe.
Qed.

Lemma main_without_server_returns (args : Args) :
  returns (run_main (without_server_check args)).
Proof.
  unfold main, without_server_check. cbn [arg_url arg_follow arg_media arg_links
    arg_server arg_google arg_content arg_semantic arg_all]. rewrite !orb_false_r.
  cbn [when].
  apply returns_bind; [apply returns_ret | intros _].
  apply returns_bind; [apply fetch_url_content_returns | intros [response |]];
    [| apply returns_print].
  destruct (response_bool response); [| apply returns_print].
  apply returns_bind;
    [apply (returns_of_prints _ _ (print_redirect_history_prints str_int response))
    | intros _].
  apply returns_bind;
    [apply (returns_of_prints _ _ (print_status_code_prints str_int response))
    | intros _].
  apply returns_bind;
    [apply returns_when; apply check_google_index_status_returns | intros _].
  apply returns_bind;
    [apply (returns_of_prints _ _
              (print_seo_relevant_header_info_prints parse response))
    | intros _].
  apply returns_bind;
    [apply returns_when;
     apply (returns_of_prints _ _ (print_heading_tags_prints parse response))
    | intros _].
  apply returns_bind;
    [apply returns_when;
     apply (returns_of_prints _ _
              (semantic_analysis_prints parse detect stopwords_words findall_words
                 lower response))
    | intros _].
  apply returns_bind; [apply returns_when; apply print_media_info_returns | intros _].
  apply returns_when. apply print_links_info_returns.
Qed.

End Run.

(** X15: when the server check is selected and raises, the run ends
    there with that exception and the process exits with status 1: what
    was printed and sent is what the server check printed and sent, and
    the primary fetch is not tried.  When every failure of a request is
    a request exception and [urljoin] and [urlparse] do not raise, this
    is the only way to exit with status 1: in every other run the
    process exits with status 0. *)
Theorem exit_status_by_server_check
        (net : list Request -> Request -> Response + Exn)
        (parse : string -> Soup) (urljoin : string -> string -> option string)
        (urlparse : string -> option ParseResult)
        (detect : string -> string + string)
        (stopwords_words : string -> list string + string)
        (findall_words : string -> list string) (lower : string -> string)
        (str_int : Z -> string) (str_kb : nat -> string)
        (str_exn : Exn -> string) (total_time : Response -> string)
        (args : Args) :
  let check := check_server_info net urlparse lower (arg_url args) in
  let run := main net parse urljoin urlparse detect stopwords_words findall_words
                  lower str_int str_kb str_exn total_time args in
  let status := exit_status net parse urljoin urlparse detect stopwords_words
                            findall_words lower str_int str_kb str_exn total_time
                            args in
  (forall e,
      arg_server args || arg_all args = true ->
      outcome_of check = Raise e ->
      outcome_of run = Raise e
      /\ output_of run = output_of check
      /\ requests_of run = requests_of check
      /\ status = 1%Z)
  /\ (request_exceptions_only net -> urls_always_parse urljoin urlparse ->
      status =
        (if arg_server args || arg_all args
         then match outcome_of check with Raise _ => 1%Z | Ret _ => 0%Z end
         else 0%Z)).
Proof.
  intros check run status. subst run status.
  unfold exit_status, outcome_of, output_of, requests_of.
  rewrite (main_server_split net parse urljoin urlparse detect stopwords_words
             findall_words lower str_int str_kb str_exn total_time args empty_world).
  fold check. split.
  - intros e Hserver Hraise. rewrite Hserver. cbn [when].
    destruct (check empty_world) as [[[] | e'] w1] eqn:E; [discriminate |].
    rewrite (bind_raise_eq _ _ _ _ e' E). cbn [fst snd] in *.
    injection Hraise as <-. auto.
  - intros Hnet Hurls.
    destruct (arg_server args || arg_all args); cbn [when].
    + destruct (check empty_world) as [[[] | e] w1] eqn:E.
      * rewrite (bind_ret_eq _ _ _ _ tt E). cbn [fst].
        destruct (main_without_server_returns net parse urljoin urlparse detect
                    stopwords_words findall_words lower str_int str_kb str_exn
                    total_time Hnet Hurls args w1) as [a [w' E']].
        rewrite E'. reflexivity.
      * rewrite (bind_raise_eq _ _ _ _ e E). reflexivity.
    + rewrite (bind_ret_eq _ _ _ _ tt (eq_refl : ret tt empty_world = _)).
      destruct (main_without_server_returns net parse urljoin urlparse detect
                  stopwords_words findall_words lower str_int str_kb str_exn
                  total_time Hnet Hurls args empty_world) as [a [w' E']].
      rewrite E'. reflexivity.
Qed.

Lemma plain_net_request_exceptions : request_exceptions_only Demo.plain_net.
Proof.
  intros before r e. unfold Demo.plain_net.
  destruct (String.eqb (req_url r) "http://down.test/"); [| discriminate].
  intros H. injection H as <-. reflexivity.
Qed.

Lemma demo_urls_always_parse : urls_always_parse Demo.urljoin Demo.urlparse.
Proof.
  split.
  - intros base href. unfold Demo.urljoin.
    destruct (Py.startswith href "http://"); discriminate.
  - intros u. discriminate.
Qed.

Lemma exit_status_by_server_check_witness :
  let args := mkArgs "http://down.test/" false false false true false false false
                     false in
  let run := main Demo.plain_net Demo.parse Demo.urljoin Demo.urlparse Demo.detect
                  Demo.stopwords_words Demo.findall_words Demo.lower Demo.str_int
                  Demo.str_kb Demo.str_exn Demo.total_time args in
  request_exceptions_only Demo.plain_net
  /\ urls_always_parse Demo.urljoin Demo.urlparse
  /\ outcome_of run = Raise (Transport TIMEOUT)
  /\ List.length (requests_of run) = 3%nat
  /\ exit_status Demo.plain_net Demo.parse Demo.urljoin Demo.urlparse Demo.detect
                 Demo.stopwords_words Demo.findall_words Demo.lower Demo.str_int
                 Demo.str_kb Demo.str_exn Demo.total_time args = 1%Z.
Proof.
  intros args run.
  destruct (exit_status_by_server_check Demo.plain_net Demo.parse Demo.urljoin
              Demo.urlparse Demo.detect Demo.stopwords_words Demo.findall_words
              Demo.lower Demo.str_int Demo.str_kb Demo.str_exn Demo.total_time args)
    as [Hraise Hstatus].
  destruct (Hraise (Transport TIMEOUT) eq_refl eq_refl) as [Hout [_ [Hreq _]]].
  split; [exact plain_net_request_exceptions |].
  split; [exact demo_urls_always_parse |].
  split; [exact Hout |]. split; [fold run in Hreq; rewrite Hreq; reflexivity |].
  exact (Hstatus plain_net_request_exceptions demo_urls_always_parse).
Defined.

(** X16: a run without the switches for media, links, search index
    and server check (and without [-a]) calls [requests.get] exactly
    once, for the primary fetch; the header, heading and semantic
    analyses read the fetched page only.  The run returns, unless the
    primary fetch fails with an exception that is no request exception:
    then the run ends with that exception. *)
Theorem quiet_run_one_request
        (net : list Request -> Request -> Response + Exn)
        (parse : string -> Soup) (urljoin : string -> string -> option string)
        (urlparse : string -> option ParseResult)
        (detect : string -> string + string)
        (stopwords_words : string -> list string + string)
        (findall_words : string -> list string) (lower : string -> string)
        (str_int : Z -> string) (str_kb : nat -> string)
        (str_exn : Exn -> string) (total_time : Response -> string)
        (args : Args) :
  let run := main net parse urljoin urlparse detect stopwords_words findall_words
                  lower str_int str_kb str_exn total_time args in
  arg_media args = false -> arg_links args = false ->
  arg_google args = false -> arg_server args = false -> arg_all args = false ->
  requests_of run = [primary_request (arg_url args) (arg_follow args)]
  /\ outcome_of run
     = match net [] (primary_request (arg_url args) (arg_follow args)) with
       | inl _ => Ret tt
       | inr e => if is_RequestException e then Ret tt else Raise e
       end.
Proof.
  intros run. apply quiet_run.
Qed.

Lemma quiet_run_one_request_witness :
  let args := mkArgs "http://site.test/" true false false false false true true
                     false in
  let run := main Demo.net Demo.parse Demo.urljoin Demo.urlparse Demo.detect
                  Demo.stopwords_words Demo.findall_words Demo.lower Demo.str_int
                  Demo.str_kb Demo.str_exn Demo.total_time args in
  requests_of run = [primary_request "http://site.test/" true]
  /\ outcome_of run = Ret tt.
Proof.
  intros args run.
  exact (quiet_run_one_request Demo.net Demo.parse Demo.urljoin Demo.urlparse
           Demo.detect Demo.stopwords_words Demo.findall_words Demo.lower
           Demo.str_int Demo.str_kb Demo.str_exn Demo.total_time args
           eq_refl eq_refl eq_refl eq_refl eq_refl).
Defined.
